(** * JMX parser and serializer: a shallow embedding

    The development follows [src/parser/JMXParser.ts], [src/parser/JMXSerializer.ts]
    and the domain model of [model/types.ts].  The parser reads the object
    that xml2js builds under the options [explicitArray: true, mergeAttrs: true];
    the serializer builds an XML tree through xmlbuilder2.  *)

From Stdlib Require Import String Ascii List ZArith Bool Lia DecimalString DecimalPos Permutation.
Import ListNotations.
Open Scope string_scope.
Open Scope list_scope.

Set Implicit Arguments.
Set Warnings "-register-all".

(* ================================================================= *)
(** ** JavaScript values used by the code *)

(** A JS [number] as the code meets it: what [parseInt(s, 10)] returns and
    what the constructors of [model/types.ts] write, so an integer that a
    double holds, an infinity, or [NaN].  [Num z] is a number of the program
    when [isDouble z] below holds; [parseInt] returns no other, and
    [toString] reads any other [z] as the double nearest to it.  Numbers
    with a fraction, which neither of the two produces, are left out.  (The
    two zeros are identified: both are falsy and both print as "0".) *)
Inductive number : Type :=
| NaN
| Num (z : Z)
| Infinity (negative : bool).

(** The double nearest to the integer [z]: the 53 leading bits of [|z|],
    rounded to nearest with ties to the even mantissa, and an infinity from
    2^1024 on. *)
Definition toDouble (z : Z) : number :=
  let a := Z.abs z in
  let shift := Z.max 0 (Z.log2 a - 52) in
  let q := Z.shiftr a shift in
  let r := (a - Z.shiftl q shift)%Z in
  let half := Z.shiftl 1 (shift - 1) in
  let up := Z.ltb 0 shift && (Z.ltb half r || (Z.eqb r half && Z.odd q)) in
  let m := Z.shiftl (if up then q + 1 else q)%Z shift in
  if Z.leb 1024 (Z.log2 m) then Infinity (Z.ltb z 0) else Num (Z.sgn z * m).

(** The integers that are doubles. *)
Definition isDouble (z : Z) : bool :=
  match toDouble z with
  | Num x => Z.eqb x z
  | _ => false
  end.

(** [number | string], the type of [numThreads], [loops], [matchNumber], ... *)
Inductive numOrStr : Type :=
| Int (n : number)
| Str (s : string).

(** What a call either gives back or throws. *)
Inductive outcome (A : Type) : Type :=
| Returned (a : A)
| TypeError.
Arguments TypeError {A}.

Definition number_eqb (a b : number) : bool :=
  match a, b with
  | NaN, NaN => true
  | Num x, Num y => Z.eqb x y
  | Infinity x, Infinity y => Bool.eqb x y
  | _, _ => false
  end.

Definition numOrStr_eqb (a b : numOrStr) : bool :=
  match a, b with
  | Int x, Int y => number_eqb x y
  | Str x, Str y => String.eqb x y
  | _, _ => false
  end.

(** Truthiness. *)
Definition truthy_number (n : number) : bool :=
  match n with
  | NaN => false
  | Num z => negb (Z.eqb z 0)
  | Infinity _ => true
  end.

Definition truthy_string (s : string) : bool :=
  match s with
  | EmptyString => false
  | _ => true
  end.

Definition truthy_numOrStr (v : numOrStr) : bool :=
  match v with
  | Int n => truthy_number n
  | Str s => truthy_string s
  end.

(** [a || d] on optional values. *)
Definition orNumOrStr (a : option numOrStr) (d : numOrStr) : numOrStr :=
  match a with
  | Some v => if truthy_numOrStr v then v else d
  | None => d
  end.

Definition orNumber (a : option number) (d : number) : number :=
  match a with
  | Some v => if truthy_number v then v else d
  | None => d
  end.

Definition orString (a : option string) (d : string) : string :=
  match a with
  | Some s => if truthy_string s then s else d
  | None => d
  end.

(** *** [parseInt(s, 10)] *)

(** A [string] is a sequence of code units below 256.  Among those, the
    white space of [parseInt], of [trim] and of the class [\s] of a regular
    expression is the same set: the code units 9 to 13, the space and the
    no-break space (160). *)
Definition isWhiteSpace (c : ascii) : bool :=
  let n := nat_of_ascii c in
  Nat.eqb n 32 || (Nat.leb 9 n && Nat.leb n 13) || Nat.eqb n 160.

Fixpoint skipWhiteSpace (s : string) : string :=
  match s with
  | String c r => if isWhiteSpace c then skipWhiteSpace r else s
  | EmptyString => s
  end.

Definition digitValue (c : ascii) : option Z :=
  let n := nat_of_ascii c in
  if Nat.leb 48 n && Nat.leb n 57 then Some (Z.of_nat (n - 48)) else None.

(** The longest prefix of decimal digits, read as an integer; [None] when
    the prefix is empty. *)
Fixpoint digitsPrefix (s : string) (acc : option Z) : option Z :=
  match s with
  | String c r =>
      match digitValue c with
      | Some d =>
          digitsPrefix r (Some (match acc with Some a => 10 * a + d | None => d end)%Z)
      | None => acc
      end
  | EmptyString => acc
  end.

(** White space is skipped, then a sign is read, then the longest run of
    digits, as a decimal of any length; the result is the double nearest to
    it.  What follows the digits is ignored: of [1e+21], [parseInt] reads
    1. *)
Definition parseInt (s : string) : number :=
  let fromDigits (sign : Z) (r : string) :=
    match digitsPrefix r None with
    | Some v => toDouble (sign * v)
    | None => NaN
    end in
  match skipWhiteSpace s with
  | String "-" r => fromDigits (-1)%Z r
  | String "+" r => fromDigits 1%Z r
  | r => fromDigits 1%Z r
  end.

(** *** [toString()] *)

(** [Number.prototype.toString] on an integer prints the decimal with the
    fewest significant digits among those that read back as the same
    double, followed by zeros; from 10^21 on it prints these digits in
    exponent form. *)

Definition digitsOf (a : Z) : string := NilZero.string_of_int (Z.to_int a).

Definition roundsTo (v a : Z) : bool :=
  match toDouble v with
  | Num x => Z.eqb x a
  | _ => false
  end.

(** The decimal with the fewest significant digits that rounds to [a], and
    the one closest to [a] when there are several (the even one when two
    are as close): tried with [k], [k + 1], ... significant digits, [n]
    being the number of digits of [a]. *)
Fixpoint shortestFrom (a : Z) (n k fuel : nat) : Z :=
  match fuel with
  | O => a
  | S fuel' =>
      let p := (10 ^ Z.of_nat (n - k))%Z in
      let lo := (a / p * p)%Z in
      let hi := (lo + p)%Z in
      let okLo := Z.ltb 0 lo && roundsTo lo a in
      let okHi := roundsTo hi a in
      if okLo && okHi then
        if Z.ltb (a - lo) (hi - a) then lo
        else if Z.ltb (hi - a) (a - lo) then hi
        else if Z.even (lo / p) then lo else hi
      else if okLo then lo
      else if okHi then hi
      else shortestFrom a n (S k) fuel'
  end.

Definition shortest (a : Z) : Z :=
  let n := String.length (digitsOf a) in
  shortestFrom a n 1 n.

(** A string without its trailing zeros. *)
Fixpoint stripZeros (s : string) : string :=
  match s with
  | String c r =>
      match stripZeros r with
      | EmptyString => if Ascii.eqb c "0" then EmptyString else String c EmptyString
      | r' => String c r'
      end
  | EmptyString => EmptyString
  end.

(** [d.ddde+n] (or [de+n]), the form of the integers from 10^21 on. *)
Definition exponentForm (v : Z) : string :=
  match digitsOf v with
  | String c r =>
      String c (match stripZeros r with
                | EmptyString => EmptyString
                | fraction => "." ++ fraction
                end)
      ++ "e+" ++ digitsOf (Z.of_nat (String.length r))
  | EmptyString => EmptyString
  end.

Definition number_toString (n : number) : string :=
  match n with
  | NaN => "NaN"
  | Infinity negative => if negative then "-Infinity" else "Infinity"
  | Num z =>
      match toDouble z with
      | Num x =>
          if Z.eqb x 0 then "0"
          else
            let v := shortest (Z.abs x) in
            (if Z.ltb x 0 then "-" else "")
            ++ (if Z.ltb (Z.abs x) (10 ^ 21) then digitsOf v else exponentForm v)
      | Infinity negative => if negative then "-Infinity" else "Infinity"
      | NaN => "NaN"
      end
  end.

(** The integers [toString] prints digit by digit as they are read back:
    the doubles below 10^21. *)
Definition printable (z : Z) : bool :=
  isDouble z && Z.ltb (Z.abs z) (10 ^ 21).

Definition bool_toString (b : bool) : string :=
  if b then "true" else "false".

(** [typeof value === 'string' ? value : value.toString()] *)
Definition numOrStr_toString (v : numOrStr) : string :=
  match v with
  | Str s => s
  | Int n => number_toString n
  end.

(** [s.includes(t)] *)
Fixpoint includes (s t : string) : bool :=
  String.prefix t s ||
  match s with
  | String _ r => includes r t
  | EmptyString => false
  end.

(** [s.substring(0, n)] *)
Definition substring0 (n : nat) (s : string) : string := String.substring 0 n s.

(* ================================================================= *)
(** ** XML trees and the object xml2js makes of them *)

(** An XML element: tag, attributes in order, the text directly inside it,
    and its child elements in document order. *)
Inductive xml : Type :=
| XElem (tag : string) (attrs : list (string * string)) (text : string) (kids : list xml).

Definition xml_tag (x : xml) : string := match x with XElem t _ _ _ => t end.
Definition xml_attrs (x : xml) := match x with XElem _ a _ _ => a end.
Definition xml_text (x : xml) : string := match x with XElem _ _ t _ => t end.
Definition xml_kids (x : xml) : list xml := match x with XElem _ _ _ k => k end.

(** The value xml2js gives for an element under [explicitArray: true,
    mergeAttrs: true]: a bare string (an element with neither attributes nor
    children, and every attribute value), or an object whose key ["_"] holds
    the text (when not blank) and whose other keys, in insertion order, hold
    arrays: the attribute values first, then the children grouped by tag
    name. *)
Inductive node : Type :=
| NStr (s : string)
| NObj (text : option string) (props : list (string * list node)).

(** [obj] is the object under construction, as the list of its own keys in
    insertion order.  A key that is not yet among them starts a new array;
    this is what xml2js does for every tag and attribute name that is not
    the name of a member of [Object.prototype] ([constructor], [toString],
    ...), which it finds by [key in obj] on a plain object.  JMX documents
    and the serializer use no such name, and the development is about
    documents without them. *)
Fixpoint assignOrPush (obj : list (string * list node)) (key : string) (newValue : node)
  : list (string * list node) :=
  match obj with
  | [] => [(key, [newValue])]
  | (k, vs) :: rest =>
      if String.eqb k key then (k, vs ++ [newValue]) :: rest
      else (k, vs) :: assignOrPush rest key newValue
  end.

Fixpoint isBlank (s : string) : bool :=
  match s with
  | String c r => isWhiteSpace c && isBlank r
  | EmptyString => true
  end.

Fixpoint xml2js (x : xml) : node :=
  match x with
  | XElem _ attrs text kids =>
      let withAttrs :=
        fold_left (fun o kv => assignOrPush o (fst kv) (NStr (snd kv))) attrs [] in
      let obj :=
        fold_left (fun o k => assignOrPush o (xml_tag k) (xml2js k)) kids withAttrs in
      match obj with
      | [] => NStr text
      | _ => NObj (if isBlank text then None else Some text) obj
      end
  end.

(** The result of [parseStringPromise]: the root object under the root's
    tag name (the root itself is not wrapped in an array). *)
Record Parsed : Type := mkParsed { rootName : string; rootObj : node }.

Definition parseStringPromise (doc : xml) : Parsed :=
  mkParsed (xml_tag doc) (xml2js doc).

(** A value reached by a property access: [undefined], a node (a string or
    an object), or an array of nodes. *)
Inductive any : Type :=
| undefined
| val (n : node)
| arr (items : list node).

Fixpoint lookup (k : string) (ps : list (string * list node)) : option (list node) :=
  match ps with
  | [] => None
  | (k', vs) :: rest => if String.eqb k' k then Some vs else lookup k rest
  end.

(** [x.k] *)
Definition get (x : node) (k : string) : any :=
  match x with
  | NStr _ => undefined
  | NObj text props =>
      if String.eqb k "_" then
        match text with
        | Some s => val (NStr s)
        | None => undefined
        end
      else
        match lookup k props with
        | Some vs => arr vs
        | None => undefined
        end
  end.

(** [Array.isArray(val) ? val[0] : val] *)
Definition getStringValue (v : any) : option node :=
  match v with
  | arr (x :: _) => Some x
  | arr [] => None
  | val n => Some n
  | undefined => None
  end.

Definition truthy (v : option node) : bool :=
  match v with
  | None => false
  | Some (NStr s) => truthy_string s
  | Some (NObj _ _) => true
  end.

(** [v === s] for a string literal [s]. *)
Definition is_str (v : option node) (s : string) : bool :=
  match v with
  | Some (NStr s') => String.eqb s' s
  | _ => false
  end.

(** A value stored where the model declares [string | undefined]; an object
    there (outside the declared type) prints as JS prints objects. *)
Definition as_string (v : option node) : option string :=
  match v with
  | None => None
  | Some (NStr s) => Some s
  | Some (NObj _ _) => Some "[object Object]"
  end.

(** The array under a key, empty when the key is absent ([x.k?.find],
    [x.k || []], [for ... of x.k] behind a guard). *)
Definition items (v : any) : list node :=
  match v with
  | arr l => l
  | _ => []
  end.

(* ================================================================= *)
(** ** Domain model ([model/types.ts]) *)

Module ElementType.
Inductive t : Type :=
| TestPlan | ThreadGroup | SetupThreadGroup | PostThreadGroup
| HTTPSamplerProxy | JSR223Sampler | JSR223PreProcessor | Arguments
| HeaderManager | RegexExtractor | JSONExtractor | XPathExtractor
| BoundaryExtractor | ResponseAssertion | JSONAssertion | XPathAssertion
| DurationAssertion | SizeAssertion | BeanShellAssertion | JSR223PostProcessor
| ResultCollector | SummaryReport | AggregateReport | ViewResultsTree
| SimpleDataWriter | BackendListener | LoopController | IfController
| WhileController | ForeachController | TransactionController | TestAction
| ConstantTimer | UniformRandomTimer | GaussianRandomTimer
| ConstantThroughputTimer | CSVDataSet | UserDefinedVariables
| CookieManager | CacheManager | AuthManager | Counter.

Definition to_string (k : t) : string :=
  match k with
  | TestPlan => "TestPlan" | ThreadGroup => "ThreadGroup"
  | SetupThreadGroup => "SetupThreadGroup" | PostThreadGroup => "PostThreadGroup"
  | HTTPSamplerProxy => "HTTPSamplerProxy" | JSR223Sampler => "JSR223Sampler"
  | JSR223PreProcessor => "JSR223PreProcessor" | Arguments => "Arguments"
  | HeaderManager => "HeaderManager" | RegexExtractor => "RegexExtractor"
  | JSONExtractor => "JSONExtractor" | XPathExtractor => "XPathExtractor"
  | BoundaryExtractor => "BoundaryExtractor" | ResponseAssertion => "ResponseAssertion"
  | JSONAssertion => "JSONAssertion" | XPathAssertion => "XPathAssertion"
  | DurationAssertion => "DurationAssertion" | SizeAssertion => "SizeAssertion"
  | BeanShellAssertion => "BeanShellAssertion"
  | JSR223PostProcessor => "JSR223PostProcessor"
  | ResultCollector => "ResultCollector" | SummaryReport => "SummaryReport"
  | AggregateReport => "AggregateReport" | ViewResultsTree => "ViewResultsTree"
  | SimpleDataWriter => "SimpleDataWriter" | BackendListener => "BackendListener"
  | LoopController => "LoopController" | IfController => "IfController"
  | WhileController => "WhileController" | ForeachController => "ForeachController"
  | TransactionController => "TransactionController" | TestAction => "TestAction"
  | ConstantTimer => "ConstantTimer" | UniformRandomTimer => "UniformRandomTimer"
  | GaussianRandomTimer => "GaussianRandomTimer"
  | ConstantThroughputTimer => "ConstantThroughputTimer"
  | CSVDataSet => "CSVDataSet" | UserDefinedVariables => "UserDefinedVariables"
  | CookieManager => "CookieManager" | CacheManager => "CacheManager"
  | AuthManager => "AuthManager" | Counter => "Counter"
  end.
End ElementType.

Record LoopController : Type := mkLoopController {
  loops : numOrStr;
  continueForever : bool
}.

Module Header.
Record t : Type := mk { name : string; value : string }.
End Header.

Module Argument.
Record t : Type := mk { name : string; value : string; metadata : option string }.
End Argument.

Module HTTPArgument.
Record t : Type := mk {
  name : string; value : string; metadata : string; alwaysEncode : bool
}.
End HTTPArgument.

Record ThreadGroupFields : Type := mkThreadGroup {
  numThreads : numOrStr;
  rampTime : numOrStr;
  duration : option numOrStr;
  delay : option numOrStr;
  scheduler : bool;
  sameUserOnNextIteration : bool;
  onSampleError : string;
  loopController : LoopController
}.

Record HTTPSamplerFields : Type := mkHTTPSampler {
  domain : string;
  port : option number;
  protocol : string;
  path : string;
  method : string;
  followRedirects : bool;
  useKeepAlive : bool;
  postBodyRaw : bool;
  bodyData : option string;
  arguments : list HTTPArgument.t;
  concurrentPool : option number;
  implementation : option string
}.

Record RegexExtractorFields : Type := mkRegexExtractor {
  refName : string;
  regex : string;
  template : string;
  defaultValue : string;
  matchNumber : numOrStr;
  useHeaders : bool;
  defaultEmptyValue : bool;
  scope : option string
}.

Record ResponseAssertionFields : Type := mkResponseAssertion {
  testField : string;
  testType : number;
  testStrings : list string;
  assumeSuccess : bool;
  customMessage : option string
}.

Record BeanShellAssertionFields : Type := mkBeanShellAssertion {
  query : string;
  filename : option string;
  parameters : option string;
  resetInterpreter : bool
}.

Record TestPlanFields : Type := mkTestPlan {
  functionalMode : bool;
  serializeThreadGroups : bool;
  userDefinedVariables : list Argument.t
}.

(** [JSR223Sampler], [JSR223PreProcessor] and [JSR223PostProcessor] declare
    the same fields. *)
Module JSR223.
Record t : Type := mk {
  scriptLanguage : string;
  script : string;
  parameters : option string;
  filename : option string;
  cacheKey : option string
}.
End JSR223.

Module TestAction.
Record t : Type := mk { action : number; target : number; duration : numOrStr }.
End TestAction.

Module ConstantThroughputTimer.
Record t : Type := mk { throughput : numOrStr; calcMode : number }.
End ConstantThroughputTimer.

(** The fields an interface adds to [BaseElement], for the kinds the parser
    or the serializer has a case for; [NoExtra] is an object with the fields
    of [BaseElement] only, as the parser builds for [Arguments] (which has
    no interface) and for the JSR223 kinds, [TestAction] and the throughput
    timer (whose declared fields it does not fill).  The kinds neither of
    them has a case for are never written or read, and their fields are
    left out. *)
Inductive Extra : Type :=
| NoExtra
| TestPlanX (f : TestPlanFields)
| ThreadGroupX (f : ThreadGroupFields)
| HTTPSamplerX (f : HTTPSamplerFields)
| RegexExtractorX (f : RegexExtractorFields)
| ResponseAssertionX (f : ResponseAssertionFields)
| HeaderManagerX (headers : list Header.t)
| BeanShellAssertionX (f : BeanShellAssertionFields)
| ResultCollectorX (errorLogging : bool) (filename : option string)
| JSR223X (f : JSR223.t)
| TestActionX (f : TestAction.t)
| ConstantThroughputTimerX (f : ConstantThroughputTimer.t).

Inductive BaseElement : Type := mkElement {
  id : string;
  type : ElementType.t;
  testClass : string;
  guiClass : string;
  name : string;
  enabled : bool;
  comments : option string;
  extra : Extra;
  children : list BaseElement
}.

(** [root.version], [root.properties], [root.jmeter] are stored as read. *)
Record JMeterTestPlan : Type := mkJMeterTestPlan {
  version : any;
  properties : any;
  jmeter : any;
  testPlan : BaseElement
}.

(* ================================================================= *)
(** ** Identity generation: a state monad over the draw counter *)

(** [generateId] draws from the clock and the random source; the parser is
    run against a supply [fresh], the [n]-th draw being [fresh n]. *)
Definition M (A : Type) : Type := nat -> A * nat.

Definition ret {A : Type} (a : A) : M A := fun n => (a, n).

Definition bind {A B : Type} (m : M A) (f : A -> M B) : M B :=
  fun n => let (a, n') := m n in f a n'.

Declare Scope jmx_scope.
Delimit Scope jmx_scope with jmx.
Notation "x <- c1 ;; c2" := (bind c1 (fun x => c2))
  (at level 61, c1 at next level, right associativity) : jmx_scope.
Open Scope jmx_scope.

(** [for (const x of xs) acc = body(acc, x)] *)
Fixpoint forOf {A S : Type} (xs : list A) (body : S -> A -> M S) (acc : S) : M S :=
  match xs with
  | [] => ret acc
  | x :: rest => acc' <- body acc x ;; forOf rest body acc'
  end.

(* ================================================================= *)
(** ** Property accessors ([JMXParser.ts], lines 437-505) *)

(** [x[kind]?.find(p => getStringValue(p[attr]) === name)] *)
Definition findBy (attr : string) (x : node) (kind name : string) : option node :=
  find (fun p => is_str (getStringValue (get p attr)) name) (items (get x kind)).

Definition parseStringProp (xml : node) (name : string) : option string :=
  match findBy "name" xml "stringProp" name with
  | None => None
  | Some prop => as_string (getStringValue (get prop "_"))
  end.

Definition parseIntProp (xml : node) (name : string) : option number :=
  match findBy "name" xml "intProp" name with
  | None => None
  | Some prop =>
      let value := getStringValue (get prop "_") in
      if truthy value then option_map parseInt (as_string value) else None
  end.

Definition parseBoolProp (xml : node) (name : string) : bool :=
  match findBy "name" xml "boolProp" name with
  | None => false
  | Some prop => is_str (getStringValue (get prop "_")) "true"
  end.

Definition parseIntOrStringProp (xml : node) (name : string) : option numOrStr :=
  match parseIntProp xml name with
  | Some intVal => Some (Int intVal)
  | None =>
      match parseStringProp xml name with
      | Some strVal =>
          if truthy_string strVal && includes strVal "${" then Some (Str strVal)
          else if truthy_string strVal then
            Some (let n := parseInt strVal in
                  if truthy_number n then Int n else Str strVal)
          else None
      | None => None
      end
  end.

Definition parseCollectionProp (xml : node) (name : string) : list string :=
  match findBy "name" xml "collectionProp" name with
  | None => []
  | Some collection =>
      map (fun p => orString (as_string (getStringValue (get p "_"))) "")
          (items (get collection "stringProp"))
  end.

Definition findStringProp (elem : node) (name : string) : option string :=
  match findBy "name" elem "stringProp" name with
  | None => None
  | Some prop => as_string (getStringValue (get prop "_"))
  end.

Definition findBoolProp (elem : node) (name : string) : bool :=
  match findBy "name" elem "boolProp" name with
  | None => false
  | Some prop => is_str (getStringValue (get prop "_")) "true"
  end.

(** The [elementProp] entries of the [Arguments.arguments] collection under
    the element property called [owner]. *)
Definition argumentElems (xml : node) (owner : string) : list node :=
  match findBy "name" xml "elementProp" owner with
  | None => []
  | Some argsProp =>
      match findBy "name" argsProp "collectionProp" "Arguments.arguments" with
      | None => []
      | Some collection => items (get collection "elementProp")
      end
  end.

Definition parseLoopController (xml : node) : LoopController :=
  match findBy "elementType" xml "elementProp" "LoopController" with
  | Some loopControllerProp =>
      {| loops := orNumOrStr (parseIntOrStringProp loopControllerProp "LoopController.loops")
                             (Int (Num 1));
         continueForever := parseBoolProp loopControllerProp "LoopController.continue_forever" |}
  | None => {| loops := Int (Num 1); continueForever := false |}
  end.

Definition parseUserDefinedVariables (xml : node) : list Argument.t :=
  map (fun elem =>
         Argument.mk (orString (findStringProp elem "Argument.name") "")
                     (orString (findStringProp elem "Argument.value") "")
                     (findStringProp elem "Argument.metadata"))
      (argumentElems xml "TestPlan.user_defined_variables").

Definition parseBodyData (xml : node) : option string :=
  match argumentElems xml "HTTPsampler.Arguments" with
  | elem :: _ => findStringProp elem "Argument.value"
  | [] => None
  end.

Definition parseHTTPArguments (xml : node) : list HTTPArgument.t :=
  map (fun elem =>
         HTTPArgument.mk (orString (findStringProp elem "Argument.name") "")
                         (orString (findStringProp elem "Argument.value") "")
                         (orString (findStringProp elem "Argument.metadata") "")
                         (findBoolProp elem "HTTPArgument.always_encode"))
      (argumentElems xml "HTTPsampler.Arguments").

Definition parseHeaders (xml : node) : list Header.t :=
  match findBy "name" xml "collectionProp" "HeaderManager.headers" with
  | None => []
  | Some headersProp =>
      flat_map (fun elem =>
                  let name := findStringProp elem "Header.name" in
                  let value := findStringProp elem "Header.value" in
                  if truthy_string (orString name "") || truthy_string (orString value "")
                  then [Header.mk (orString name "") (orString value "")]
                  else [])
               (items (get headersProp "elementProp"))
  end.

(* ================================================================= *)
(** ** Tree reconstruction ([JMXParser.ts], lines 25-347, 507-521) *)

(** [getStringValue(xml[k]) || dflt], stored in a [string] field. *)
Definition attrOr (xml : node) (k dflt : string) : string :=
  let v := getStringValue (get xml k) in
  if truthy v then orString (as_string v) dflt else dflt.

(** [getStringValue(xml.enabled) !== 'false'] *)
Definition enabledOf (xml : node) : bool :=
  negb (is_str (getStringValue (get xml "enabled")) "false").

Section Parser.

Variable fresh : nat -> string.

Definition generateId : M string := fun n => (fresh n, S n).

(** In the decoders below [childElements] stands for
    [childHashTree ? this.parseHashTree(childHashTree) : []], the decoding
    of the paired container, which runs after the element's own id is
    drawn. *)

Definition parseThreadGroup (xml : node) (childElements : M (list BaseElement))
           (type : ElementType.t) : M BaseElement :=
  id <- generateId ;;
  children <- childElements ;;
  ret {| id := id;
         type := type;
         testClass := ElementType.to_string type;
         guiClass := attrOr xml "guiclass" "ThreadGroupGui";
         name := attrOr xml "testname" "Thread Group";
         enabled := enabledOf xml;
         comments := parseStringProp xml "TestPlan.comments";
         extra := ThreadGroupX
           {| numThreads := orNumOrStr (parseIntOrStringProp xml "ThreadGroup.num_threads")
                                       (Int (Num 1));
              rampTime := orNumOrStr (parseIntOrStringProp xml "ThreadGroup.ramp_time")
                                     (Int (Num 1));
              duration := parseIntOrStringProp xml "ThreadGroup.duration";
              delay := parseIntOrStringProp xml "ThreadGroup.delay";
              scheduler := parseBoolProp xml "ThreadGroup.scheduler";
              sameUserOnNextIteration :=
                parseBoolProp xml "ThreadGroup.same_user_on_next_iteration";
              onSampleError :=
                orString (parseStringProp xml "ThreadGroup.on_sample_error") "continue";
              loopController := parseLoopController xml |};
         children := children |}.

Definition parseHTTPSampler (xml : node) (childElements : M (list BaseElement))
  : M BaseElement :=
  id <- generateId ;;
  children <- childElements ;;
  ret {| id := id;
         type := ElementType.HTTPSamplerProxy;
         testClass := "HTTPSamplerProxy";
         guiClass := attrOr xml "guiclass" "HttpTestSampleGui";
         name := attrOr xml "testname" "HTTP Request";
         enabled := enabledOf xml;
         comments := parseStringProp xml "TestPlan.comments";
         extra := HTTPSamplerX
           {| domain := orString (parseStringProp xml "HTTPSampler.domain") "";
              port := parseIntProp xml "HTTPSampler.port";
              protocol := orString (parseStringProp xml "HTTPSampler.protocol") "https";
              path := orString (parseStringProp xml "HTTPSampler.path") "/";
              method := orString (parseStringProp xml "HTTPSampler.method") "GET";
              followRedirects := parseBoolProp xml "HTTPSampler.follow_redirects";
              useKeepAlive := parseBoolProp xml "HTTPSampler.use_keepalive";
              postBodyRaw := parseBoolProp xml "HTTPSampler.postBodyRaw";
              bodyData := parseBodyData xml;
              arguments := parseHTTPArguments xml;
              concurrentPool := parseIntProp xml "HTTPSampler.concurrentPool";
              implementation := parseStringProp xml "HTTPSampler.implementation" |};
         children := children |}.

(** The decoders of the kinds that take no children from the file:
    [children: []]. *)
Definition leaf (xml : node) (type : ElementType.t) (testClass guiDflt nameDflt : string)
           (extra : Extra) : M BaseElement :=
  id <- generateId ;;
  ret {| id := id;
         type := type;
         testClass := testClass;
         guiClass := attrOr xml "guiclass" guiDflt;
         name := attrOr xml "testname" nameDflt;
         enabled := enabledOf xml;
         comments := None;
         extra := extra;
         children := [] |}.

Definition parseRegexExtractor (xml : node) : M BaseElement :=
  leaf xml ElementType.RegexExtractor "RegexExtractor"
       "RegexExtractorGui" "Regular Expression Extractor"
       (RegexExtractorX
          {| refName := orString (parseStringProp xml "RegexExtractor.refname") "";
             regex := orString (parseStringProp xml "RegexExtractor.regex") "";
             template := orString (parseStringProp xml "RegexExtractor.template") "$1$";
             defaultValue := orString (parseStringProp xml "RegexExtractor.default") "";
             matchNumber :=
               orNumOrStr (parseIntOrStringProp xml "RegexExtractor.match_number")
                          (Int (Num 1));
             useHeaders := parseBoolProp xml "RegexExtractor.useHeaders";
             defaultEmptyValue := parseBoolProp xml "RegexExtractor.default_empty_value";
             scope := parseStringProp xml "Sample.scope" |}).

Definition parseResponseAssertion (xml : node) : M BaseElement :=
  leaf xml ElementType.ResponseAssertion "ResponseAssertion"
       "AssertionGui" "Response Assertion"
       (ResponseAssertionX
          {| testField :=
               orString (parseStringProp xml "Assertion.test_field") "response_data";
             testType := orNumber (parseIntProp xml "Assertion.test_type") (Num 2);
             testStrings := parseCollectionProp xml "Asserion.test_strings";
             assumeSuccess := parseBoolProp xml "Assertion.assume_success";
             customMessage := parseStringProp xml "Assertion.custom_message" |}).

Definition parseHeaderManager (xml : node) : M BaseElement :=
  leaf xml ElementType.HeaderManager "HeaderManager"
       "HeaderPanel" "HTTP Header Manager" (HeaderManagerX (parseHeaders xml)).

Definition parseArguments (xml : node) : M BaseElement :=
  leaf xml ElementType.Arguments "Arguments"
       "ArgumentsPanel" "User Defined Variables" NoExtra.

Definition parseJSR223Sampler (xml : node) (childElements : M (list BaseElement))
  : M BaseElement :=
  leaf xml ElementType.JSR223Sampler "JSR223Sampler" "TestBeanGUI" "JSR223 Sampler" NoExtra.

Definition parseJSR223PostProcessor (xml : node) : M BaseElement :=
  leaf xml ElementType.JSR223PostProcessor "JSR223PostProcessor"
       "TestBeanGUI" "JSR223 PostProcessor" NoExtra.

Definition parseBeanShellAssertion (xml : node) : M BaseElement :=
  leaf xml ElementType.BeanShellAssertion "BeanShellAssertion"
       "BeanShellAssertionGui" "BeanShell Assertion"
       (BeanShellAssertionX
          {| query := orString (parseStringProp xml "BeanShellAssertion.query") "";
             filename := parseStringProp xml "BeanShellAssertion.filename";
             parameters := parseStringProp xml "BeanShellAssertion.parameters";
             resetInterpreter := parseBoolProp xml "BeanShellAssertion.resetInterpreter" |}).

Definition parseResultCollector (xml : node) : M BaseElement :=
  leaf xml ElementType.ResultCollector "ResultCollector"
       "ViewResultsFullVisualizer" "View Results Tree"
       (ResultCollectorX (parseBoolProp xml "ResultCollector.error_logging") None).

Definition parseTestAction (xml : node) (childElements : M (list BaseElement))
  : M BaseElement :=
  id <- generateId ;;
  children <- childElements ;;
  ret {| id := id;
         type := ElementType.TestAction;
         testClass := "TestAction";
         guiClass := attrOr xml "guiclass" "TestActionGui";
         name := attrOr xml "testname" "Test Action";
         enabled := enabledOf xml;
         comments := None;
         extra := NoExtra;
         children := children |}.

Definition parseConstantThroughputTimer (xml : node) : M BaseElement :=
  leaf xml ElementType.ConstantThroughputTimer "ConstantThroughputTimer"
       "TestBeanGUI" "Constant Throughput Timer" NoExtra.

(** The [switch (testClass)] of [parseElement]; [None] is its [default]. *)
Definition decoderFor (testClass : string) (xml : node)
           (childElements : M (list BaseElement)) : option (M BaseElement) :=
  if testClass =? "ThreadGroup" then
    Some (parseThreadGroup xml childElements ElementType.ThreadGroup)
  else if testClass =? "SetupThreadGroup" then
    Some (parseThreadGroup xml childElements ElementType.SetupThreadGroup)
  else if testClass =? "PostThreadGroup" then
    Some (parseThreadGroup xml childElements ElementType.PostThreadGroup)
  else if testClass =? "HTTPSamplerProxy" then Some (parseHTTPSampler xml childElements)
  else if testClass =? "RegexExtractor" then Some (parseRegexExtractor xml)
  else if testClass =? "ResponseAssertion" then Some (parseResponseAssertion xml)
  else if testClass =? "HeaderManager" then Some (parseHeaderManager xml)
  else if testClass =? "Arguments" then Some (parseArguments xml)
  else if testClass =? "JSR223Sampler" then Some (parseJSR223Sampler xml childElements)
  else if testClass =? "JSR223PostProcessor" then Some (parseJSR223PostProcessor xml)
  else if testClass =? "BeanShellAssertion" then Some (parseBeanShellAssertion xml)
  else if testClass =? "ResultCollector" then Some (parseResultCollector xml)
  else if testClass =? "TestAction" then Some (parseTestAction xml childElements)
  else if testClass =? "ConstantThroughputTimer" then
    Some (parseConstantThroughputTimer xml)
  else None.

Definition parseElement (tagName : string) (xml : node)
           (childElements : M (list BaseElement)) : M (option BaseElement) :=
  match getStringValue (get xml "testclass") with
  | Some (NStr testClass) =>
      if truthy_string testClass then
        match decoderFor testClass xml childElements with
        | Some decode => e <- decode ;; ret (Some e)
        | None => ret None
        end
      else ret None
  | _ => ret None
  end.

(** The inner loop of [parseHashTree]: the elements under one key.  The
    state is [elements] and [hashTreeIndex]; [hashTrees] holds, for each
    container of the object, the decoding of that container. *)
Definition forElements (hashTrees : list (M (list BaseElement)))
           (key : string) (elementArray : list node)
           (acc : list BaseElement * nat) : M (list BaseElement * nat) :=
  forOf elementArray
        (fun acc elementXml =>
           let childElements := nth (snd acc) hashTrees (ret []) in
           element <- parseElement key elementXml childElements ;;
           ret (match element with
                | Some e => fst acc ++ [e]
                | None => fst acc
                end, S (snd acc)))
        acc.

(** The decodings of the entries under key [k], in order. *)
Fixpoint lookupMap {B : Type} (f : node -> B) (k : string)
         (ps : list (string * list node)) : list B :=
  match ps with
  | [] => []
  | (k', vs) :: rest => if String.eqb k' k then map f vs else lookupMap f k rest
  end.

(** [Object.keys(hashTree).filter(k => k !== 'hashTree')], with the arrays
    they lead to.  (The key ["_"], when present, leads to a string, which
    the loop skips.) *)
Definition elementKeys (props : list (string * list node)) : list (string * list node) :=
  filter (fun kv => negb (String.eqb (fst kv) "hashTree")) props.

Fixpoint parseHashTree (hashTree : node) : M (list BaseElement) :=
  match hashTree with
  | NStr _ => ret []
  | NObj _ props =>
      let hashTrees := lookupMap parseHashTree "hashTree" props in
      acc <- forOf (elementKeys props)
                   (fun acc kv => forElements hashTrees (fst kv) (snd kv) acc)
                   ([], 0) ;;
      ret (fst acc)
  end.

(** [childHashTree ? this.parseHashTree(childHashTree) : []] *)
Definition childElementsOf (childHashTree : option node) : M (list BaseElement) :=
  match childHashTree with
  | Some h => parseHashTree h
  | None => ret []
  end.

Definition parseTestPlan (xml : node) (childrenHashTree : option node) : M BaseElement :=
  id <- generateId ;;
  children <- childElementsOf childrenHashTree ;;
  ret {| id := id;
         type := ElementType.TestPlan;
         testClass := "TestPlan";
         guiClass := "TestPlanGui";
         name := match get xml "testname" with
                 | arr (x :: _) => orString (as_string (Some x)) ""
                 | _ => "Test Plan"
                 end;
         enabled := true;
         comments := None;
         extra := TestPlanX
           {| functionalMode := parseBoolProp xml "TestPlan.functional_mode";
              serializeThreadGroups := parseBoolProp xml "TestPlan.serialize_threadgroups";
              userDefinedVariables := parseUserDefinedVariables xml |};
         children := children |}.

(** [parse], from the result of [parseStringPromise] on.  Reading a
    property of [undefined] throws. *)
Definition parse (parsed : Parsed) : M (outcome JMeterTestPlan) :=
  if negb (rootName parsed =? "jmeterTestPlan") then ret TypeError
  else
    let root := rootObj parsed in
    match get root "hashTree" with
    | arr (hashTree :: _) =>
        match get hashTree "TestPlan", get hashTree "hashTree" with
        | arr (testPlanXml :: _), arr hashTrees =>
            tp <- parseTestPlan testPlanXml (hd_error hashTrees) ;;
            ret (Returned {| version := get root "version";
                             properties := get root "properties";
                             jmeter := get root "jmeter";
                             testPlan := tp |})
        | _, _ => ret TypeError
        end
    | _ => ret TypeError
    end.

End Parser.

(* ================================================================= *)
(** ** Tree flattening ([JMXSerializer.ts]) *)

(** The builder calls [parent.ele(...)] append to [parent]; here each
    function returns what it appends, in order. *)

Definition obind {A B : Type} (o : outcome A) (f : A -> outcome B) : outcome B :=
  match o with
  | Returned a => f a
  | TypeError => TypeError
  end.

(** The nodes appended by a sequence of steps, or the first throw. *)
Fixpoint collect (steps : list (outcome (list xml))) : outcome (list xml) :=
  match steps with
  | [] => Returned []
  | s :: rest => obind s (fun a => obind (collect rest) (fun b => Returned (a ++ b)))
  end.

(** [parent.ele(propType, { name }).txt(text)] *)
Definition propElem (propType name text : string) : xml :=
  XElem propType [("name", name)] text [].

(** [addProp] *)
Definition addProp (propType name : string) (value : numOrStr) : xml :=
  propElem propType name (numOrStr_toString value).

(** [if (s) parent.ele('stringProp', { name }).txt(s)] *)
Definition stringPropIf (name : string) (s : option string) : list xml :=
  match s with
  | Some v => if truthy_string v then [propElem "stringProp" name v] else []
  | None => []
  end.

(** [if (n) parent.ele('intProp', { name }).txt(n.toString())] *)
Definition intPropIf (name : string) (n : option number) : list xml :=
  match n with
  | Some v => if truthy_number v then [propElem "intProp" name (number_toString v)] else []
  | None => []
  end.

Definition boolProp (name : string) (b : bool) : xml :=
  propElem "boolProp" name (bool_toString b).

(** The four attributes every element tag carries. *)
Definition elementAttrs (element : BaseElement) : list (string * string) :=
  [("guiclass", guiClass element); ("testclass", testClass element);
   ("testname", name element); ("enabled", bool_toString (enabled element))].

Definition serializeThreadGroup (tg : BaseElement) : outcome (list xml) :=
  match extra tg with
  | ThreadGroupX f =>
      let loopElem :=
        XElem "elementProp"
              [("name", "ThreadGroup.main_controller"); ("elementType", "LoopController");
               ("guiclass", "LoopControlPanel"); ("testclass", "LoopController");
               ("testname", "Loop Controller")] ""
              [addProp "intProp" "LoopController.loops" (loops (loopController f));
               boolProp "LoopController.continue_forever"
                        (continueForever (loopController f))] in
      Returned
        [XElem (ElementType.to_string (type tg)) (elementAttrs tg) ""
               (stringPropIf "TestPlan.comments" (comments tg)
                ++ [addProp "intProp" "ThreadGroup.num_threads" (numThreads f);
                    addProp "intProp" "ThreadGroup.ramp_time" (rampTime f)]
                ++ match duration f with
                   | Some d => [addProp "stringProp" "ThreadGroup.duration" d]
                   | None => []
                   end
                ++ match delay f with
                   | Some d => [addProp "stringProp" "ThreadGroup.delay" d]
                   | None => []
                   end
                ++ [boolProp "ThreadGroup.same_user_on_next_iteration"
                             (sameUserOnNextIteration f);
                    boolProp "ThreadGroup.scheduler" (scheduler f);
                    propElem "stringProp" "ThreadGroup.on_sample_error" (onSampleError f);
                    loopElem])]
  | _ => TypeError
  end.

Definition serializeHTTPArgument (arg : HTTPArgument.t) : xml :=
  XElem "elementProp"
        [("name", orString (Some (HTTPArgument.name arg)) ""); ("elementType", "HTTPArgument")]
        ""
        [boolProp "HTTPArgument.always_encode" (HTTPArgument.alwaysEncode arg);
         propElem "stringProp" "Argument.value" (HTTPArgument.value arg);
         propElem "stringProp" "Argument.metadata" (HTTPArgument.metadata arg)].

Definition serializeHTTPSampler (sampler : BaseElement) : outcome (list xml) :=
  match extra sampler with
  | HTTPSamplerX f =>
      let argsElem :=
        XElem "elementProp"
              [("name", "HTTPsampler.Arguments"); ("elementType", "Arguments")] ""
              [XElem "collectionProp" [("name", "Arguments.arguments")] ""
                     (map serializeHTTPArgument (arguments f))] in
      Returned
        [XElem "HTTPSamplerProxy" (elementAttrs sampler) ""
               (stringPropIf "TestPlan.comments" (comments sampler)
                ++ intPropIf "HTTPSampler.concurrentPool" (concurrentPool f)
                ++ [propElem "stringProp" "HTTPSampler.domain" (domain f);
                    propElem "stringProp" "HTTPSampler.protocol" (protocol f);
                    propElem "stringProp" "HTTPSampler.path" (path f);
                    boolProp "HTTPSampler.follow_redirects" (followRedirects f);
                    propElem "stringProp" "HTTPSampler.method" (method f);
                    boolProp "HTTPSampler.use_keepalive" (useKeepAlive f);
                    boolProp "HTTPSampler.postBodyRaw" (postBodyRaw f)]
                ++ intPropIf "HTTPSampler.port" (port f)
                ++ stringPropIf "HTTPSampler.implementation" (implementation f)
                ++ [argsElem])]
  | _ => TypeError
  end.

Definition serializeRegexExtractor (extractor : BaseElement) : outcome (list xml) :=
  match extra extractor with
  | RegexExtractorX f =>
      Returned
        [XElem "RegexExtractor" (elementAttrs extractor) ""
               ([boolProp "RegexExtractor.useHeaders" (useHeaders f);
                 propElem "stringProp" "RegexExtractor.refname" (refName f);
                 propElem "stringProp" "RegexExtractor.regex" (regex f);
                 propElem "stringProp" "RegexExtractor.template" (template f);
                 propElem "stringProp" "RegexExtractor.default" (defaultValue f);
                 addProp "intProp" "RegexExtractor.match_number" (matchNumber f);
                 boolProp "RegexExtractor.default_empty_value" (defaultEmptyValue f)]
                ++ stringPropIf "Sample.scope" (scope f))]
  | _ => TypeError
  end.

Definition serializeResponseAssertion (assertion : BaseElement) : outcome (list xml) :=
  match extra assertion with
  | ResponseAssertionX f =>
      Returned
        [XElem "ResponseAssertion" (elementAttrs assertion) ""
               ([XElem "collectionProp" [("name", "Asserion.test_strings")] ""
                       (map (fun str => propElem "stringProp" (substring0 10 str) str)
                            (testStrings f))]
                ++ stringPropIf "Assertion.custom_message" (customMessage f)
                ++ [propElem "stringProp" "Assertion.test_field" (testField f);
                    boolProp "Assertion.assume_success" (assumeSuccess f);
                    propElem "intProp" "Assertion.test_type" (number_toString (testType f))])]
  | _ => TypeError
  end.

Definition serializeHeader (header : Header.t) : xml :=
  XElem "elementProp"
        [("name", orString (Some (Header.name header)) ""); ("elementType", "Header")] ""
        [propElem "stringProp" "Header.name" (Header.name header);
         propElem "stringProp" "Header.value" (Header.value header)].

Definition serializeHeaderManager (manager : BaseElement) : outcome (list xml) :=
  match extra manager with
  | HeaderManagerX headers =>
      Returned
        [XElem "HeaderManager" (elementAttrs manager) ""
               (stringPropIf "TestPlan.comments" (comments manager)
                ++ [XElem "collectionProp" [("name", "HeaderManager.headers")] ""
                          (map serializeHeader headers)])]
  | _ => TypeError
  end.

Definition serializeBeanShellAssertion (assertion : BaseElement) : outcome (list xml) :=
  match extra assertion with
  | BeanShellAssertionX f =>
      Returned
        [XElem "BeanShellAssertion" (elementAttrs assertion) ""
               ([propElem "stringProp" "BeanShellAssertion.query" (query f)]
                ++ stringPropIf "BeanShellAssertion.filename" (filename f)
                ++ stringPropIf "BeanShellAssertion.parameters" (parameters f)
                ++ [boolProp "BeanShellAssertion.resetInterpreter" (resetInterpreter f)])]
  | _ => TypeError
  end.

Definition serializeArguments (element : BaseElement) : outcome (list xml) :=
  Returned [XElem "Arguments" (elementAttrs element) ""
                  [XElem "collectionProp" [("name", "Arguments.arguments")] "" []]].

Definition serializeJSR223Element (element : BaseElement) : outcome (list xml) :=
  Returned [XElem (ElementType.to_string (type element)) (elementAttrs element) ""
                  [propElem "stringProp" "scriptLanguage" "groovy";
                   propElem "stringProp" "parameters" "";
                   propElem "stringProp" "filename" "";
                   propElem "stringProp" "cacheKey" "true";
                   propElem "stringProp" "script" ""]].

Definition serializeResultCollector (element : BaseElement) : outcome (list xml) :=
  Returned [XElem "ResultCollector" (elementAttrs element) ""
                  [propElem "boolProp" "ResultCollector.error_logging" "false";
                   propElem "stringProp" "filename" ""]].

Definition serializeTestAction (element : BaseElement) : outcome (list xml) :=
  Returned [XElem "TestAction" (elementAttrs element) ""
                  [propElem "intProp" "ActionProcessor.action" "1";
                   propElem "intProp" "ActionProcessor.target" "0";
                   propElem "stringProp" "ActionProcessor.duration" "0"]].

Definition serializeConstantThroughputTimer (element : BaseElement) : outcome (list xml) :=
  Returned [XElem "ConstantThroughputTimer" (elementAttrs element) ""
                  [propElem "intProp" "calcMode" "0";
                   propElem "stringProp" "throughput" "0"]].

(** The [switch (element.type)] of [serializeElement]; it has no [default]. *)
Definition serializeElement (element : BaseElement) : outcome (list xml) :=
  match type element with
  | ElementType.ThreadGroup
  | ElementType.SetupThreadGroup
  | ElementType.PostThreadGroup => serializeThreadGroup element
  | ElementType.HTTPSamplerProxy => serializeHTTPSampler element
  | ElementType.RegexExtractor => serializeRegexExtractor element
  | ElementType.ResponseAssertion => serializeResponseAssertion element
  | ElementType.HeaderManager => serializeHeaderManager element
  | ElementType.BeanShellAssertion => serializeBeanShellAssertion element
  | ElementType.Arguments => serializeArguments element
  | ElementType.JSR223Sampler
  | ElementType.JSR223PostProcessor => serializeJSR223Element element
  | ElementType.ResultCollector => serializeResultCollector element
  | ElementType.TestAction => serializeTestAction element
  | ElementType.ConstantThroughputTimer => serializeConstantThroughputTimer element
  | _ => Returned []
  end.

(** One turn of the loop of [serializeChildren]: the element's own tag, then
    its [hashTree] holding the serialization of its children. *)
Fixpoint serializeChild (child : BaseElement) : outcome (list xml) :=
  obind (serializeElement child) (fun own =>
  obind (collect (map serializeChild (children child))) (fun inner =>
  Returned (own ++ [XElem "hashTree" [] "" inner]))).

Definition serializeChildren (children : list BaseElement) : outcome (list xml) :=
  collect (map serializeChild children).

Definition serializeArgument (arg : Argument.t) : xml :=
  XElem "elementProp" [("name", Argument.name arg); ("elementType", "Argument")] ""
        ([propElem "stringProp" "Argument.name" (Argument.name arg);
          propElem "stringProp" "Argument.value" (Argument.value arg)]
         ++ stringPropIf "Argument.metadata" (Argument.metadata arg)).

Definition serializeTestPlan (testPlan : BaseElement) : outcome (list xml) :=
  match extra testPlan with
  | TestPlanX f =>
      let userVarsElem :=
        XElem "elementProp"
              [("name", "TestPlan.user_defined_variables"); ("elementType", "Arguments");
               ("guiclass", "ArgumentsPanel"); ("testclass", "Arguments");
               ("testname", "User Defined Variables")] ""
              [XElem "collectionProp" [("name", "Arguments.arguments")] ""
                     (map serializeArgument (userDefinedVariables f))] in
      let testPlanElem :=
        XElem "TestPlan"
              [("guiclass", guiClass testPlan); ("testclass", testClass testPlan);
               ("testname", name testPlan)] ""
              [userVarsElem;
               boolProp "TestPlan.functional_mode" (functionalMode f);
               boolProp "TestPlan.serialize_threadgroups" (serializeThreadGroups f)] in
      obind (serializeChildren (children testPlan)) (fun inner =>
      Returned [testPlanElem; XElem "hashTree" [] "" inner])
  | _ => TypeError
  end.

(** [v + ""], as the builder coerces an attribute value; an absent value
    leaves the attribute out. *)
Definition node_toString (n : node) : string :=
  match n with
  | NStr s => s
  | NObj _ _ => "[object Object]"
  end.

Definition attrValue (k : string) (v : any) : list (string * string) :=
  match v with
  | undefined => []
  | val n => [(k, node_toString n)]
  | arr l => [(k, String.concat "," (map node_toString l))]
  end.

(** The document built by [serialize], before [root.end(...)] prints it. *)
Definition serializeTree (plan : JMeterTestPlan) : outcome xml :=
  obind (serializeTestPlan (testPlan plan)) (fun inner =>
  Returned (XElem "jmeterTestPlan"
                  (attrValue "version" (version plan)
                   ++ attrValue "properties" (properties plan)
                   ++ attrValue "jmeter" (jmeter plan)) ""
                  [XElem "hashTree" [] "" inner])).

Section Printer.

(** [root.end({ prettyPrint: true, indent: '  ' })], the builder's printer. *)
Variable end_ : xml -> string.

Definition serialize (plan : JMeterTestPlan) : outcome string :=
  obind (serializeTree plan) (fun root => Returned (end_ root)).

End Printer.

(* ================================================================= *)
(** ** Editing by id ([extension/JMeterEditorProvider.ts], lines 118-144) *)

(** The loop of [findElementById] over [elements], [below] being the call
    on the children of an element. *)
Definition findAmong (below : BaseElement -> option BaseElement) (id' : string)
  : list BaseElement -> option BaseElement :=
  fix each (elements : list BaseElement) : option BaseElement :=
    match elements with
    | [] => None
    | element :: rest =>
        if String.eqb (id element) id' then Some element
        else match below element with
             | Some found => Some found
             | None => each rest
             end
    end.

(** [findElementById(element.children, id)] *)
Fixpoint findBelow (id' : string) (element : BaseElement) : option BaseElement :=
  findAmong (findBelow id') id' (children element).

Definition findElementById (elements : list BaseElement) (id' : string)
  : option BaseElement :=
  findAmong (findBelow id') id' elements.

(** The element with its [children] array as a removal left it. *)
Definition withChildren (e : BaseElement) (ch : list BaseElement) : BaseElement :=
  {| id := id e; type := type e; testClass := testClass e; guiClass := guiClass e;
     name := name e; enabled := enabled e; comments := comments e; extra := extra e;
     children := ch |}.

(** The loop of [removeElementById] over [elements].  The call splices, in
    place, the array in which it finds the id; here arrays are values, and
    the function returns [Some] of [elements] as it is after the call when
    the call returns [true], and [None] when it returns [false], having
    changed nothing.  The value is what the call leaves when no element is
    reached twice from [elements], which is so when no two elements share
    an id; where an array is reached along two paths, as the children of the
    root are in the array [searched] below, the splice is seen along both,
    and the value returned here shows it along the first only.  The
    statements about a removal that has taken place are made for elements
    whose ids are distinct. *)
Definition removeAmong (below : BaseElement -> option (list BaseElement)) (id' : string)
  : list BaseElement -> option (list BaseElement) :=
  fix each (elements : list BaseElement) : option (list BaseElement) :=
    match elements with
    | [] => None
    | element :: rest =>
        if String.eqb (id element) id' then Some rest
        else match below element with
             | Some ch => Some (withChildren element ch :: rest)
             | None =>
                 match each rest with
                 | Some rest' => Some (element :: rest')
                 | None => None
                 end
             end
    end.

(** [removeElementById(element.children, id)] *)
Fixpoint removeBelow (id' : string) (element : BaseElement) : option (list BaseElement) :=
  removeAmong (removeBelow id') id' (children element).

Definition removeElementById (elements : list BaseElement) (id' : string)
  : option (list BaseElement) :=
  removeAmong (removeBelow id') id' elements.

(** The array the three edit handlers search:
    [[testPlan.testPlan, ...testPlan.testPlan.children]]. *)
Definition searched (plan : JMeterTestPlan) : list BaseElement :=
  testPlan plan :: children (testPlan plan).

(* ================================================================= *)
(** ** Element constructors ([model/types.ts], lines 366-495) *)

Definition isThreadGroup (element : BaseElement) : bool :=
  match type element with
  | ElementType.ThreadGroup | ElementType.SetupThreadGroup | ElementType.PostThreadGroup =>
      true
  | _ => false
  end.

Definition isHTTPSampler (element : BaseElement) : bool :=
  match type element with
  | ElementType.HTTPSamplerProxy => true
  | _ => false
  end.

Section Constructors.

(** [generateId] of [model/types.ts] draws from the clock and the random
    source as the parser's does; the constructors are run against the same
    supply. *)
Variable fresh : nat -> string.

Definition createHTTPSampler (name : string) : M BaseElement :=
  id <- generateId fresh ;;
  ret {| id := id;
         type := ElementType.HTTPSamplerProxy;
         testClass := "HTTPSamplerProxy";
         guiClass := "HttpTestSampleGui";
         name := name;
         enabled := true;
         comments := None;
         extra := HTTPSamplerX
           {| domain := ""; port := None; protocol := "https"; path := "/";
              method := "GET"; followRedirects := true; useKeepAlive := true;
              postBodyRaw := false; bodyData := None; arguments := [];
              concurrentPool := None; implementation := None |};
         children := [] |}.

Definition createThreadGroup (name : string) : M BaseElement :=
  id <- generateId fresh ;;
  ret {| id := id;
         type := ElementType.ThreadGroup;
         testClass := "ThreadGroup";
         guiClass := "ThreadGroupGui";
         name := name;
         enabled := true;
         comments := None;
         extra := ThreadGroupX
           {| numThreads := Int (Num 1); rampTime := Int (Num 1);
              duration := None; delay := None; scheduler := false;
              sameUserOnNextIteration := true; onSampleError := "continue";
              loopController := {| loops := Int (Num 1); continueForever := false |} |};
         children := [] |}.

Definition createRegexExtractor (name refName : string) : M BaseElement :=
  id <- generateId fresh ;;
  ret {| id := id;
         type := ElementType.RegexExtractor;
         testClass := "RegexExtractor";
         guiClass := "RegexExtractorGui";
         name := name;
         enabled := true;
         comments := None;
         extra := RegexExtractorX
           {| refName := refName; regex := ""; template := "$1$"; defaultValue := "";
              matchNumber := Int (Num 1); useHeaders := false;
              defaultEmptyValue := false; scope := None |};
         children := [] |}.

Definition createResponseAssertion (name : string) : M BaseElement :=
  id <- generateId fresh ;;
  ret {| id := id;
         type := ElementType.ResponseAssertion;
         testClass := "ResponseAssertion";
         guiClass := "AssertionGui";
         name := name;
         enabled := true;
         comments := None;
         extra := ResponseAssertionX
           {| testField := "response_code"; testType := Num 8; testStrings := ["200"];
              assumeSuccess := false; customMessage := None |};
         children := [] |}.

End Constructors.

(* ================================================================= *)
(** ** Analysis ([ai/TestPlanAnalyzer.ts]) *)

Module Severity.
Inductive t : Type := info | warning | error.
End Severity.

Module Category.
Inductive t : Type := performance | bestPractice | security | maintainability.
End Category.

Module AnalysisResult.
Record t : Type := mk {
  severity : Severity.t;
  category : Category.t;
  message : string;
  element : option string;
  suggestion : option string
}.
End AnalysisResult.

(** The loop that [findElementsByType], [findAllSamplers] and
    [flattenElements] share: an element is pushed when [pick] holds of it,
    then what the call on its children returns. *)
Definition walkAmong (pick : BaseElement -> bool) (below : BaseElement -> list BaseElement)
  : list BaseElement -> list BaseElement :=
  fix each (elements : list BaseElement) : list BaseElement :=
    match elements with
    | [] => []
    | element :: rest =>
        (if pick element then [element] else []) ++ below element ++ each rest
    end.

Fixpoint walkBelow (pick : BaseElement -> bool) (element : BaseElement)
  : list BaseElement :=
  walkAmong pick (walkBelow pick) (children element).

Definition findElementsByType (elements : list BaseElement)
           (predicate : BaseElement -> bool) : list BaseElement :=
  walkAmong predicate (walkBelow predicate) elements.

Definition isSampler (element : BaseElement) : bool :=
  match type element with
  | ElementType.HTTPSamplerProxy | ElementType.JSR223Sampler => true
  | _ => false
  end.

Definition findAllSamplers (elements : list BaseElement) : list BaseElement :=
  walkAmong isSampler (walkBelow isSampler) elements.

Definition flattenElements (elements : list BaseElement) : list BaseElement :=
  walkAmong (fun _ => true) (walkBelow (fun _ => true)) elements.

(** The double quote of the messages. *)
Definition quote : string :=
  String (Ascii.Ascii false true false false false true false false) EmptyString.

Definition quoted (s : string) : string := quote ++ s ++ quote.

(** [a > z] and [a < z]; both are false of [NaN]. *)
Definition number_gt (a : number) (z : Z) : bool :=
  match a with
  | Num x => Z.ltb z x
  | Infinity negative => negb negative
  | NaN => false
  end.

Definition number_lt (a : number) (z : Z) : bool :=
  match a with
  | Num x => Z.ltb x z
  | Infinity negative => negative
  | NaN => false
  end.

(** [typeof v === 'number' ? v : 0] *)
Definition numberOrZero (v : option numOrStr) : number :=
  match v with
  | Some (Int n) => n
  | _ => Num 0
  end.

(** The steps of a loop that may throw: what they pushed, or the throw. *)
Fixpoint gather {A : Type} (steps : list (outcome (list A))) : outcome (list A) :=
  match steps with
  | [] => Returned []
  | s :: rest =>
      match s with
      | Returned a =>
          match gather rest with
          | Returned b => Returned (a ++ b)
          | TypeError => TypeError
          end
      | TypeError => TypeError
      end
  end.

(** One turn of the loop of [analyzeThreadGroups].  Reading
    [tg.loopController.loops] throws when [tg] has no loop controller. *)
Definition threadGroupFindings (tg : BaseElement) : outcome (list AnalysisResult.t) :=
  let fields := match extra tg with ThreadGroupX f => Some f | _ => None end in
  let threads := numberOrZero (option_map numThreads fields) in
  let rampTime := numberOrZero (option_map rampTime fields) in
  let rampUp :=
    if number_gt threads 100 && number_lt rampTime 60 then
      [AnalysisResult.mk Severity.warning Category.performance
         ("Thread group " ++ quoted (name tg) ++ " has " ++ number_toString threads
          ++ " threads with only " ++ number_toString rampTime ++ "s ramp-up")
         (Some (name tg))
         (Some "Consider increasing ramp-up time to avoid overwhelming the target system")]
    else [] in
  match fields with
  | None => TypeError
  | Some f =>
      let runaway :=
        if match loops (loopController f) with
           | Int (Num z) => Z.eqb z (-1)
           | _ => false
           end
           && negb (match duration f with
                    | Some d => truthy_numOrStr d
                    | None => false
                    end)
        then
          [AnalysisResult.mk Severity.warning Category.bestPractice
             ("Thread group " ++ quoted (name tg)
              ++ " has infinite loops without duration limit")
             (Some (name tg))
             (Some "Set a duration or use finite loop count to prevent runaway tests")]
        else [] in
      let empty :=
        match children tg with
        | [] =>
            [AnalysisResult.mk Severity.info Category.maintainability
               ("Thread group " ++ quoted (name tg) ++ " is empty")
               (Some (name tg))
               (Some "Add samplers or remove unused thread group")]
        | _ => []
        end in
      Returned (rampUp ++ runaway ++ empty)
  end.

Definition analyzeThreadGroups (elements : list BaseElement)
  : outcome (list AnalysisResult.t) :=
  let threadGroups := findElementsByType elements isThreadGroup in
  let none :=
    match threadGroups with
    | [] =>
        [AnalysisResult.mk Severity.warning Category.bestPractice
           "No thread groups found in test plan" None
           (Some "Add at least one thread group to execute samplers")]
    | _ => []
    end in
  match gather (map threadGroupFindings threadGroups) with
  | Returned found => Returned (none ++ found)
  | TypeError => TypeError
  end.

(** One turn of the loop of [analyzeSamplers].  Calling
    [sampler.path.includes] throws when [sampler] has no path. *)
Definition samplerFindings (sampler : BaseElement) : outcome (list AnalysisResult.t) :=
  if isHTTPSampler sampler then
    let hasAssertions :=
      existsb (fun c => match type c with
                        | ElementType.ResponseAssertion
                        | ElementType.BeanShellAssertion => true
                        | _ => false
                        end) (children sampler) in
    let unchecked :=
      if negb hasAssertions then
        [AnalysisResult.mk Severity.info Category.bestPractice
           ("HTTP Sampler " ++ quoted (name sampler) ++ " has no assertions")
           (Some (name sampler))
           (Some "Add response assertions to validate server responses")]
      else [] in
    match extra sampler with
    | HTTPSamplerX f =>
        let credentials :=
          if includes (path f) "password" || includes (path f) "token" then
            [AnalysisResult.mk Severity.warning Category.security
               ("HTTP Sampler " ++ quoted (name sampler)
                ++ " may contain credentials in URL")
               (Some (name sampler))
               (Some "Use variables or property files for sensitive data")]
          else [] in
        let noDomain :=
          if negb (truthy_string (domain f)) then
            [AnalysisResult.mk Severity.error Category.bestPractice
               ("HTTP Sampler " ++ quoted (name sampler) ++ " has no domain configured")
               (Some (name sampler))
               (Some "Configure the server domain or use a variable")]
          else [] in
        Returned (unchecked ++ credentials ++ noDomain)
    | _ => TypeError
    end
  else Returned [].

Definition analyzeSamplers (elements : list BaseElement)
  : outcome (list AnalysisResult.t) :=
  gather (map samplerFindings (findAllSamplers elements)).

Definition securityFindings (element : BaseElement) : list AnalysisResult.t :=
  (match type element with
   | ElementType.Arguments =>
       [AnalysisResult.mk Severity.info Category.security
          "Review user-defined variables for hardcoded credentials"
          (Some (name element))
          (Some "Use property files or environment variables for sensitive data")]
   | _ => []
   end)
  ++ (match type element with
      | ElementType.HeaderManager =>
          [AnalysisResult.mk Severity.info Category.security
             "Review HTTP headers for hardcoded tokens or credentials"
             (Some (name element))
             (Some "Use variables for Authorization headers and API keys")]
      | _ => []
      end).

Definition analyzeSecurityIssues (elements : list BaseElement) : list AnalysisResult.t :=
  flat_map securityFindings (flattenElements elements).

Definition analyzeStructure (elements : list BaseElement) : list AnalysisResult.t :=
  let allElements := flattenElements elements in
  let disabledElements := filter (fun e => negb (enabled e)) allElements in
  let listeners :=
    filter (fun e => match type e with
                     | ElementType.ResultCollector => true
                     | _ => false
                     end) allElements in
  (if Nat.ltb 5 (length disabledElements) then
     [AnalysisResult.mk Severity.info Category.maintainability
        ("Test plan has " ++ number_toString (Num (Z.of_nat (length disabledElements)))
         ++ " disabled elements")
        None
        (Some "Consider removing unused elements to improve maintainability")]
   else [])
  ++ (if Nat.ltb 3 (length listeners) then
        [AnalysisResult.mk Severity.warning Category.performance
           ("Test plan has " ++ number_toString (Num (Z.of_nat (length listeners)))
            ++ " listeners")
           None
           (Some "Disable listeners during load tests to reduce overhead")]
      else []).

Definition analyze (plan : JMeterTestPlan) : outcome (list AnalysisResult.t) :=
  let elements := children (testPlan plan) in
  match analyzeThreadGroups elements with
  | TypeError => TypeError
  | Returned a =>
      match analyzeSamplers elements with
      | TypeError => TypeError
      | Returned b =>
          Returned (a ++ b ++ analyzeSecurityIssues elements ++ analyzeStructure elements)
      end
  end.

(* ================================================================= *)
(** ** Results of a run ([execution/TestExecutor.ts], lines 368-428) *)

(** [s.split(c)] for a separator of one character. *)
Fixpoint split (c : ascii) (s : string) : list string :=
  match s with
  | EmptyString => [EmptyString]
  | String a r =>
      if Ascii.eqb a c then EmptyString :: split c r
      else match split c r with
           | piece :: pieces => String a piece :: pieces
           | [] => [String a EmptyString]
           end
  end.

Definition newline : ascii := Ascii.Ascii false true false true false false false false.
Definition comma : ascii := Ascii.Ascii false false true true false true false false.

(** [!l.trim()]: the line holds nothing but white space and line
    terminators, a character standing for the code unit of its number. *)
Definition isTrimmed (c : ascii) : bool := isWhiteSpace c.

Fixpoint trimsToEmpty (s : string) : bool :=
  match s with
  | String c r => isTrimmed c && trimsToEmpty r
  | EmptyString => true
  end.

Record Totals : Type := mkTotals { totalSamples : nat; errors : nat }.

(** [content.split('\n').filter(l => l.trim() && !l.startsWith('<?xml'))] *)
Definition resultLines (content : string) : list string :=
  filter (fun l => negb (trimsToEmpty l) && negb (String.prefix "<?xml" l))
         (split newline content).

(** [l.split(',')[7] === 'false'] *)
Definition failed (l : string) : bool :=
  match nth_error (split comma l) 7 with
  | Some field => String.eqb field "false"
  | None => false
  end.

(** The counts both [parseJTLProgress] and [parseJTLFinal] take from a
    file of comma-separated lines. *)
Definition countLines (content : string) : Totals :=
  let lines := resultLines content in
  if Nat.ltb (length lines) 2 then mkTotals 0 0
  else
    let samples := filter (fun l => includes l ",") (skipn 1 lines) in
    mkTotals (length samples) (length (filter failed samples)).

Section Executor.

(** What the callback of [xml2js.parseString] leaves in [result] for a
    file that holds ["<?xml"]. *)
Variable xmlTotals : string -> Totals.

(** [parseJTLFinal]; [content] is what [readFileSync] returns, [None]
    when it throws. *)
Definition parseJTLFinal (content : option string) : Totals :=
  match content with
  | None => mkTotals 0 0
  | Some content =>
      if includes content "<?xml" then xmlTotals content else countLines content
  end.

End Executor.

(** [addRecentResult]: the list [recentResults] after the call. *)
Definition addRecentResult {A : Type} (recentResults : list A) (result : A) : list A :=
  let recentResults := result :: recentResults in
  if Nat.ltb 10 (length recentResults) then firstn 10 recentResults
  else recentResults.

(* ================================================================= *)
(** ** Vocabulary of the statements *)

(** The [case] labels of [parseElement]: the kinds the parser decodes. *)
Definition codecKinds : list string :=
  ["ThreadGroup"; "SetupThreadGroup"; "PostThreadGroup"; "HTTPSamplerProxy";
   "RegexExtractor"; "ResponseAssertion"; "HeaderManager"; "Arguments";
   "JSR223Sampler"; "JSR223PostProcessor"; "BeanShellAssertion"; "ResultCollector";
   "TestAction"; "ConstantThroughputTimer"].

Definition knownKind (testClass : string) : bool :=
  existsb (String.eqb testClass) codecKinds.

(** The [case] labels of [serializeElement]. *)
Definition handled (k : ElementType.t) : bool :=
  match k with
  | ElementType.ThreadGroup | ElementType.SetupThreadGroup | ElementType.PostThreadGroup
  | ElementType.HTTPSamplerProxy | ElementType.RegexExtractor
  | ElementType.ResponseAssertion | ElementType.HeaderManager
  | ElementType.BeanShellAssertion | ElementType.Arguments
  | ElementType.JSR223Sampler | ElementType.JSR223PostProcessor
  | ElementType.ResultCollector | ElementType.TestAction
  | ElementType.ConstantThroughputTimer => true
  | _ => false
  end.

(** The tree with every [id] blanked: what is left when identity is ignored. *)
Fixpoint eraseIds (e : BaseElement) : BaseElement :=
  {| id := "";
     type := type e;
     testClass := testClass e;
     guiClass := guiClass e;
     name := name e;
     enabled := enabled e;
     comments := comments e;
     extra := extra e;
     children := map eraseIds (children e) |}.

Definition eraseIdsPlan (plan : JMeterTestPlan) : JMeterTestPlan :=
  {| version := version plan;
     properties := properties plan;
     jmeter := jmeter plan;
     testPlan := eraseIds (testPlan plan) |}.

(** A thread-group node without an explicit loop count: no [elementProp]
    of element type [LoopController], or one that has neither an [intProp]
    nor a [stringProp] called [LoopController.loops]. *)
Definition lacksLoopCount (xml : node) : Prop :=
  match findBy "elementType" xml "elementProp" "LoopController" with
  | None => True
  | Some loopControllerProp =>
      findBy "name" loopControllerProp "intProp" "LoopController.loops" = None /\
      findBy "name" loopControllerProp "stringProp" "LoopController.loops" = None
  end.

(** The entries the loops of [parseHashTree] visit, in the order they are
    visited (key by key), and the containers of the object. *)
Definition entriesOf (hashTree : node) : list node :=
  match hashTree with
  | NStr _ => []
  | NObj _ props => concat (map snd (elementKeys props))
  end.

Definition hashTreesOf (hashTree : node) : list node :=
  items (get hashTree "hashTree").

(** The children of a container in the file: container tags are those
    called [hashTree], element tags are the others. *)
Definition isContainerTag (x : xml) : bool := String.eqb (xml_tag x) "hashTree".

Definition elementTags (kids : list xml) : list xml :=
  filter (fun k => negb (isContainerTag k)) kids.

Definition containerTags (kids : list xml) : list xml :=
  filter isContainerTag kids.

(** Entry [i], [i+1], ... each with the container of the same index, when
    there is one. *)
Fixpoint pairFrom (i : nat) (entries hashTrees : list node) : list (node * option node) :=
  match entries with
  | [] => []
  | e :: rest => (e, nth_error hashTrees i) :: pairFrom (S i) rest hashTrees
  end.

Section Pairs.

Variable fresh : nat -> string.

(** Decoding a list of (entry, container) pairs, keeping what decodes. *)
Fixpoint decodePairs (pairs : list (node * option node)) : M (list BaseElement) :=
  match pairs with
  | [] => ret []
  | (e, c) :: rest =>
      element <- parseElement fresh "" e (childElementsOf fresh c) ;;
      elements <- decodePairs rest ;;
      ret (match element with
           | Some x => x :: elements
           | None => elements
           end)
  end.

(** Follows the words of the specification: pairing stops at the shorter
    of the two counts, and what lies beyond is ignored. *)
Definition decodeUpToShorter (hashTree : node) : M (list BaseElement) :=
  decodePairs (map (fun ec => (fst ec, Some (snd ec)))
                   (combine (entriesOf hashTree) (hashTreesOf hashTree))).

End Pairs.

(** The loop count a decoded thread group carries. *)
Definition loopsOf (e : BaseElement) : option numOrStr :=
  match extra e with
  | ThreadGroupX f => Some (loops (loopController f))
  | _ => None
  end.

(** The property tags called [name] anywhere in a document. *)
Fixpoint propsNamed (name : string) (x : xml) : list xml :=
  match x with
  | XElem tag attrs text kids =>
      (if existsb (fun kv => String.eqb (fst kv) "name" && String.eqb (snd kv) name) attrs
       then [XElem tag attrs text []] else [])
      ++ flat_map (propsNamed name) kids
  end.

(** [o || []] *)
Definition orEmpty (o : option (list node)) : list node :=
  match o with
  | Some l => l
  | None => []
  end.

Section ElementInduction.

Variable P : BaseElement -> Prop.
Hypothesis step : forall e, Forall P (children e) -> P e.

(** Induction over a tree, with the property known of all children. *)
Fixpoint element_ind (e : BaseElement) : P e :=
  match e with
  | mkElement i t tc g nm en c x ch =>
      step (mkElement i t tc g nm en c x ch)
           ((fix all (l : list BaseElement) : Forall P l :=
               match l with
               | [] => Forall_nil P
               | y :: r => Forall_cons y (element_ind y) (all r)
               end) ch)
  end.

End ElementInduction.

(** The tag names of a document, in document order. *)
Fixpoint tagsOf (x : xml) : list string :=
  match x with
  | XElem tag _ _ kids => tag :: flat_map tagsOf kids
  end.

(** The elements of a tree, the root first. *)
Fixpoint flatten (e : BaseElement) : list BaseElement :=
  e :: flat_map flatten (children e).

(** Names of the elements with the names of their children, for reading
    the shape of a decoded container. *)
Definition shape (elements : list BaseElement) : list (string * list string) :=
  map (fun e => (name e, map name (children e))) elements.

(* ================================================================= *)
(** ** Sample documents *)

Module Samples.

(** An id supply for running the parser. *)
Definition fresh (n : nat) : string :=
  "jmeter-" ++ number_toString (Num (Z.of_nat n)).

Definition hashTree (kids : list xml) : xml := XElem "hashTree" [] "" kids.

(** An element tag whose tag name is its test class. *)
Definition tag (testclass testname : string) (props : list xml) : xml :=
  XElem testclass [("testclass", testclass); ("testname", testname)] "" props.

Definition sampler (testname : string) : list xml :=
  [tag "HTTPSamplerProxy" testname []; hashTree []].

(** A whole file around the top-level sequence [top]. *)
Definition document (top : list xml) : xml :=
  XElem "jmeterTestPlan" [("version", "1.2"); ("properties", "5.0"); ("jmeter", "5.6.3")] ""
        [hashTree [XElem "TestPlan"
                         [("guiclass", "TestPlanGui"); ("testclass", "TestPlan");
                          ("testname", "Plan")] "" [];
                   hashTree top]].

(** A listener that logs errors only. *)
Definition collectorDoc : xml :=
  document
    [tag "ResultCollector" "Errors"
         [propElem "boolProp" "ResultCollector.error_logging" "true"];
     hashTree []].

(** [A, ca, B, cb, C, cc] with [A] and [C] thread groups and [B] a sampler. *)
Definition interleaved : xml :=
  hashTree
    [tag "ThreadGroup" "A" []; hashTree (sampler "a1");
     tag "HTTPSamplerProxy" "B" []; hashTree (tag "RegexExtractor" "b1" [] :: [hashTree []]);
     tag "ThreadGroup" "C" []; hashTree (sampler "c1")].

(** [A, ca, X, cx, B, cb] with [X] of a kind the parser has no case for. *)
Definition withUnknown : xml :=
  hashTree
    [tag "ThreadGroup" "A" []; hashTree (sampler "a1");
     tag "IfController" "X" []; hashTree (sampler "x1");
     tag "ThreadGroup" "B" []; hashTree (sampler "b1")].

(** A thread group whose loop count is the expression [${LOOP_COUNT}]. *)
Definition loopCountGroup : xml :=
  tag "ThreadGroup" "Users"
      [XElem "elementProp"
             [("name", "ThreadGroup.main_controller"); ("elementType", "LoopController")] ""
             [propElem "boolProp" "LoopController.continue_forever" "false";
              propElem "stringProp" "LoopController.loops" "${LOOP_COUNT}"]].

Definition loopCountDoc : xml := document [loopCountGroup; hashTree []].

(** A thread group with a start delay of zero. *)
Definition zeroDelay : xml :=
  tag "ThreadGroup" "Users" [propElem "stringProp" "ThreadGroup.delay" "0"].

(** A thread group whose [enabled] attribute is spelled in capitals. *)
Definition upperFalse : xml :=
  XElem "ThreadGroup" [("testclass", "ThreadGroup"); ("enabled", "FALSE")] "" [].

(** Two element tags and one container. *)
Definition twoTagsOneContainer : xml :=
  hashTree [tag "ThreadGroup" "A" []; hashTree (sampler "a1"); tag "ThreadGroup" "B" []].

(** A thread group whose loop controller has no loop count and runs forever. *)
Definition foreverGroup : xml :=
  tag "ThreadGroup" "Users"
      [XElem "elementProp"
             [("name", "ThreadGroup.main_controller"); ("elementType", "LoopController")] ""
             [propElem "boolProp" "LoopController.continue_forever" "true"]].

Definition element (id : string) (type : ElementType.t) (name : string)
           (extra : Extra) (children : list BaseElement) : BaseElement :=
  {| id := id; type := type; testClass := ElementType.to_string type;
     guiClass := "Gui"; name := name; enabled := true; comments := None;
     extra := extra; children := children |}.

(** A JSON extractor, as the editor adds one, over a child. *)
Definition jsonExtractor : BaseElement :=
  element "jmeter-7" ElementType.JSONExtractor "JSON Extractor" NoExtra
          [element "jmeter-8" ElementType.Arguments "Vars" NoExtra []].

Definition planOf (id : string) (children : list BaseElement) : JMeterTestPlan :=
  {| version := arr [NStr "1.2"]; properties := arr [NStr "5.0"]; jmeter := undefined;
     testPlan := element id ElementType.TestPlan "Plan"
                         (TestPlanX {| functionalMode := false;
                                       serializeThreadGroups := false;
                                       userDefinedVariables := [] |})
                         children |}.

Definition planA : JMeterTestPlan :=
  planOf "jmeter-1" [element "jmeter-2" ElementType.Arguments "Vars" NoExtra []].

Definition planB : JMeterTestPlan :=
  planOf "jmeter-51" [element "jmeter-52" ElementType.Arguments "Vars" NoExtra []].

(** The tree [parse] returns for a document, if it returns one. *)
Definition parsePlan (doc : xml) : outcome JMeterTestPlan :=
  fst (parse fresh (parseStringPromise doc) 0).

(** Parse, serialize, parse again. *)
Definition reparse (doc : xml) : outcome JMeterTestPlan :=
  obind (parsePlan doc) (fun plan =>
  obind (serializeTree plan) (fun doc' => parsePlan doc')).

End Samples.

(* ================================================================= *)
(** ** Vocabulary of the further statements *)

(** The value of a digit sequence, read from the left onto [acc]. *)
Fixpoint horner (d : Decimal.uint) (acc : Z) : Z :=
  match d with
  | Decimal.Nil => acc
  | Decimal.D0 l => horner l (10 * acc)
  | Decimal.D1 l => horner l (10 * acc + 1)
  | Decimal.D2 l => horner l (10 * acc + 2)
  | Decimal.D3 l => horner l (10 * acc + 3)
  | Decimal.D4 l => horner l (10 * acc + 4)
  | Decimal.D5 l => horner l (10 * acc + 5)
  | Decimal.D6 l => horner l (10 * acc + 6)
  | Decimal.D7 l => horner l (10 * acc + 7)
  | Decimal.D8 l => horner l (10 * acc + 8)
  | Decimal.D9 l => horner l (10 * acc + 9)
  end%Z.

(** The ids of a tree, the root first. *)
Fixpoint idsOf (e : BaseElement) : list string :=
  id e :: flat_map idsOf (children e).

(** The kinds whose decoder reads the paired container. *)
Definition takesChildren (k : ElementType.t) : bool :=
  match k with
  | ElementType.ThreadGroup | ElementType.SetupThreadGroup | ElementType.PostThreadGroup
  | ElementType.HTTPSamplerProxy | ElementType.TestAction => true
  | _ => false
  end.

(** The element has the fields the encoder of its kind reads. *)
Definition fieldsPresent (e : BaseElement) : bool :=
  match type e, extra e with
  | (ElementType.ThreadGroup | ElementType.SetupThreadGroup | ElementType.PostThreadGroup),
    ThreadGroupX _ => true
  | (ElementType.ThreadGroup | ElementType.SetupThreadGroup | ElementType.PostThreadGroup),
    _ => false
  | ElementType.HTTPSamplerProxy, HTTPSamplerX _ => true
  | ElementType.HTTPSamplerProxy, _ => false
  | ElementType.RegexExtractor, RegexExtractorX _ => true
  | ElementType.RegexExtractor, _ => false
  | ElementType.ResponseAssertion, ResponseAssertionX _ => true
  | ElementType.ResponseAssertion, _ => false
  | ElementType.HeaderManager, HeaderManagerX _ => true
  | ElementType.HeaderManager, _ => false
  | ElementType.BeanShellAssertion, BeanShellAssertionX _ => true
  | ElementType.BeanShellAssertion, _ => false
  | _, _ => true
  end.

(** An entry of a container that [parseElement] decodes. *)
Definition knownEntry (x : node) : bool :=
  match getStringValue (get x "testclass") with
  | Some (NStr testClass) => knownKind testClass
  | _ => false
  end.

(** The test class of an entry, when it is a string. *)
Definition entryClass (x : node) : string :=
  match getStringValue (get x "testclass") with
  | Some (NStr testClass) => testClass
  | _ => ""
  end.

(** A supply of pairwise different ids. *)
Fixpoint tally (n : nat) : string :=
  match n with
  | 0 => "jmeter"
  | S k => String "i" (tally k)
  end.

(** Text that xml2js keeps: not blank. *)
Definition kept (s : string) : bool := negb (isBlank s).

(** Text that comes back through [parseStringProp(...) || '']: empty, or
    not blank. *)
Definition keptOrEmpty (s : string) : bool :=
  negb (truthy_string s) || negb (isBlank s).

(** An optional text that comes back through [parseStringProp]: absent, or
    not blank. *)
Definition keptIfAny (o : option string) : bool :=
  match o with
  | Some s => negb (isBlank s)
  | None => true
  end.

(** A count that comes back through an [intProp] and [|| 1]: a nonzero
    integer that is printed digit by digit. *)
Definition nonzero (v : numOrStr) : bool :=
  match v with
  | Int (Num z) => negb (Z.eqb z 0) && printable z
  | _ => false
  end.

(** An optional number that comes back through [if (n)] and
    [parseIntProp]: absent, or a nonzero integer that is printed digit by
    digit. *)
Definition nonzeroIfAny (n : option number) : bool :=
  match n with
  | Some (Num z) => negb (Z.eqb z 0) && printable z
  | Some _ => false
  | None => true
  end.

(** An optional value that comes back through a [stringProp] and
    [parseIntOrStringProp]: absent, a nonzero integer that is printed digit
    by digit, or a text that is not blank and either holds an expression or
    does not read as a number other than zero. *)
Definition durable (v : option numOrStr) : bool :=
  match v with
  | None => true
  | Some (Int (Num z)) => negb (Z.eqb z 0) && printable z
  | Some (Int _) => false
  | Some (Str s) =>
      negb (isBlank s) && (includes s "${" || negb (truthy_number (parseInt s)))
  end.

(** Text without white space and without a dollar sign. *)
Definition plainChar (c : ascii) : bool :=
  negb (isWhiteSpace c) && negb (Ascii.eqb c "$").

Fixpoint plainText (s : string) : bool :=
  match s with
  | String c r => plainChar c && plainText r
  | EmptyString => true
  end.

(** The attributes every decoder reads back: a gui class and a name that
    are not empty, and the test class of the kind. *)
Definition baseKept (e : BaseElement) : bool :=
  truthy_string (guiClass e) && truthy_string (name e)
  && String.eqb (testClass e) (ElementType.to_string (type e)).

(** The element with another id and other children. *)
Definition withIdAndChildren (e : BaseElement) (i : string) (ch : list BaseElement)
  : BaseElement :=
  {| id := i; type := type e; testClass := testClass e; guiClass := guiClass e;
     name := name e; enabled := enabled e; comments := comments e; extra := extra e;
     children := ch |}.

(** The element written by [serializeElement] and read again by
    [parseElement], [childElements] being the decoding of its container. *)
Definition reloadElement (fresh : nat -> string) (e : BaseElement)
           (childElements : M (list BaseElement)) : M (option BaseElement) :=
  fun n =>
    match serializeElement e with
    | Returned [tag] => parseElement fresh (xml_tag tag) (xml2js tag) childElements n
    | _ => (None, n)
    end.

(** What of a BeanShell assertion comes back when reloaded. *)
Definition persistableBeanShell (e : BaseElement) : bool :=
  match type e, extra e, comments e with
  | ElementType.BeanShellAssertion, BeanShellAssertionX f, None =>
      baseKept e && keptOrEmpty (query f) && keptIfAny (filename f)
      && keptIfAny (parameters f)
  | _, _, _ => false
  end.

(** The kinds whose serializer writes constants and whose decoder reads
    the attributes only (and [ResultCollector.error_logging]). *)
Definition plainKind (k : ElementType.t) : bool :=
  match k with
  | ElementType.Arguments | ElementType.JSR223Sampler | ElementType.JSR223PostProcessor
  | ElementType.TestAction | ElementType.ConstantThroughputTimer
  | ElementType.ResultCollector => true
  | _ => false
  end.

(** The element without its comments and without the fields its interface
    declares, as the decoders of these kinds build it: a [ResultCollector]
    that does not log errors only and has no file name, and the fields of
    [BaseElement] alone for the other kinds. *)
Definition withoutFields (e : BaseElement) : BaseElement :=
  {| id := id e; type := type e; testClass := testClass e; guiClass := guiClass e;
     name := name e; enabled := enabled e; comments := None;
     extra := match type e with
              | ElementType.ResultCollector => ResultCollectorX false None
              | _ => NoExtra
              end;
     children := children e |}.

(** What of an element of one of these kinds comes back: one without
    comments that carries none of the fields its interface declares
    ([Arguments], the two JSR223 kinds, [TestAction], the throughput timer),
    and a [ResultCollector] that does not log errors only and has no file
    name. *)
Definition persistablePlain (e : BaseElement) : bool :=
  match type e, extra e, comments e with
  | (ElementType.Arguments | ElementType.JSR223Sampler | ElementType.JSR223PostProcessor
     | ElementType.TestAction | ElementType.ConstantThroughputTimer), NoExtra, None =>
      baseKept e
  | ElementType.ResultCollector, ResultCollectorX false None, None => baseKept e
  | _, _, _ => false
  end.

(** What of a regular expression extractor comes back. *)
Definition persistableRegexExtractor (e : BaseElement) : bool :=
  match type e, extra e, comments e with
  | ElementType.RegexExtractor, RegexExtractorX f, None =>
      baseKept e && keptOrEmpty (refName f) && keptOrEmpty (regex f)
      && kept (template f) && keptOrEmpty (defaultValue f)
      && nonzero (matchNumber f) && keptIfAny (scope f)
  | _, _, _ => false
  end.

(** What of a thread group comes back. *)
Definition persistableThreadGroup (e : BaseElement) : bool :=
  match type e, extra e with
  | (ElementType.ThreadGroup | ElementType.SetupThreadGroup | ElementType.PostThreadGroup),
    ThreadGroupX f =>
      baseKept e && keptIfAny (comments e)
      && nonzero (numThreads f) && nonzero (rampTime f)
      && durable (duration f) && durable (delay f)
      && kept (onSampleError f) && nonzero (loops (loopController f))
  | _, _ => false
  end.

(** The object xml2js makes of attributes, text and the already converted
    children, each under its tag name. *)
Definition objectOf (attrs : list (string * string)) (text : string)
           (entries : list (string * node)) : node :=
  let withAttrs :=
    fold_left (fun o kv => assignOrPush o (fst kv) (NStr (snd kv))) attrs [] in
  let obj := fold_left (fun o e => assignOrPush o (fst e) (snd e)) entries withAttrs in
  match obj with
  | [] => NStr text
  | _ => NObj (if isBlank text then None else Some text) obj
  end.

Definition headerKept (h : Header.t) : bool :=
  keptOrEmpty (Header.name h) && keptOrEmpty (Header.value h)
  && (truthy_string (Header.name h) || truthy_string (Header.value h)).

(** What of a header manager comes back: headers with a name or a value. *)
Definition persistableHeaderManager (e : BaseElement) : bool :=
  match type e, extra e, comments e with
  | ElementType.HeaderManager, HeaderManagerX headers, None =>
      baseKept e && forallb headerKept headers
  | _, _, _ => false
  end.

(** What of a response assertion comes back. *)
Definition persistableResponseAssertion (e : BaseElement) : bool :=
  match type e, extra e, comments e with
  | ElementType.ResponseAssertion, ResponseAssertionX f, None =>
      baseKept e && kept (testField f) && nonzeroIfAny (Some (testType f))
      && forallb keptOrEmpty (testStrings f) && keptIfAny (customMessage f)
  | _, _, _ => false
  end.

Definition argumentKept (a : HTTPArgument.t) : bool :=
  negb (truthy_string (HTTPArgument.name a))
  && keptOrEmpty (HTTPArgument.value a) && keptOrEmpty (HTTPArgument.metadata a).

(** What [parseBodyData] reads from the arguments the serializer wrote. *)
Definition bodyOf (args : list HTTPArgument.t) : option string :=
  match args with
  | a :: _ => if truthy_string (HTTPArgument.value a) then Some (HTTPArgument.value a)
              else None
  | [] => None
  end.

Definition option_string_eqb (a b : option string) : bool :=
  match a, b with
  | Some x, Some y => String.eqb x y
  | None, None => true
  | _, _ => false
  end.

(** What of an HTTP sampler comes back: its arguments must be nameless
    (the name of an argument is not written where it is read), and its
    body data must be what the first argument holds. *)
Definition persistableHTTPSampler (e : BaseElement) : bool :=
  match type e, extra e with
  | ElementType.HTTPSamplerProxy, HTTPSamplerX f =>
      baseKept e && keptIfAny (comments e)
      && keptOrEmpty (domain f) && nonzeroIfAny (port f)
      && kept (protocol f) && kept (path f) && kept (method f)
      && option_string_eqb (bodyData f) (bodyOf (arguments f))
      && forallb argumentKept (arguments f)
      && nonzeroIfAny (concurrentPool f) && keptIfAny (implementation f)
  | _, _ => false
  end.

(** The element and all below it have their fields. *)
Fixpoint fieldsPresentDeep (e : BaseElement) : bool :=
  fieldsPresent e && forallb fieldsPresentDeep (children e).

(** What holds of every tree the parser builds: each element is of a kind
    the serializer has a case for and has the fields of its kind, and only
    the kinds that read their container have children. *)
Fixpoint sound (e : BaseElement) : bool :=
  handled (type e) && fieldsPresent e
  && (takesChildren (type e) || match children e with [] => true | _ => false end)
  && forallb sound (children e).

(** The state of the id supply after a run, and the ids it handed out. *)
Definition idsDrawn (fresh : nat -> string) (n n' : nat) : list string :=
  map fresh (seq n (n' - n)).

(** What a run of the parser over a container keeps: the id supply only
    advances, the ids of the trees it built are the ids it drew, in order,
    and the trees are sound. *)
Definition Inv (fresh : nat -> string) (m : M (list BaseElement)) : Prop :=
  forall n,
    n <= snd (m n) /\
    flat_map idsOf (fst (m n)) = idsDrawn fresh n (snd (m n)) /\
    forallb sound (fst (m n)) = true.

(** [assignOrPush] over values of any type: the grouping by key that
    xml2js makes of the children of an element. *)
Fixpoint pushUnder {A : Type} (groups : list (string * list A)) (key : string) (x : A)
  : list (string * list A) :=
  match groups with
  | [] => [(key, [x])]
  | (k, xs) :: rest =>
      if String.eqb k key then (k, xs ++ [x]) :: rest
      else (k, xs) :: pushUnder rest key x
  end.

Definition groupsOf {A : Type} (key : A -> string) (l : list A)
           (groups : list (string * list A)) : list (string * list A) :=
  fold_left (fun o x => pushUnder o (key x) x) l groups.

(** The order in which the loops of [parseHashTree] visit what was written
    in the order [l]: key by key, the keys in the order of their first
    occurrence. *)
Definition regroup {A : Type} (key : A -> string) (l : list A) : list A :=
  concat (map snd (groupsOf key l [])).

Definition mapGroups {A B : Type} (f : A -> B) (groups : list (string * list A))
  : list (string * list B) :=
  map (fun kv => (fst kv, map f (snd kv))) groups.

(** The tag name under which an element is written. *)
Definition kindName (e : BaseElement) : string := ElementType.to_string (type e).

(** The element as it is decoded next to a container that decodes to
    [kids], its id left blank. *)
Definition graft (e : BaseElement) (kids : list BaseElement) : BaseElement :=
  withIdAndChildren e "" (if takesChildren (type e) then kids else []).

Definition graftAll (elements : list BaseElement) (containers : list (list BaseElement))
  : list BaseElement :=
  map (fun p => graft (fst p) (snd p)) (combine elements containers).

(** What the container written for [d] decodes to, ids left blank: the
    children of [d] in the order they are visited, the [i]-th visited with
    what the container of the [i]-th written decodes to. *)
Fixpoint attached (d : BaseElement) : list BaseElement :=
  graftAll (regroup kindName (children d)) (map attached (children d)).

(** An element that is read back as it was written, its id and children
    apart: one of the seven shapes above. *)
Definition persistable (e : BaseElement) : bool :=
  persistableThreadGroup e || persistableHTTPSampler e || persistableRegexExtractor e
  || persistableResponseAssertion e || persistableHeaderManager e
  || persistableBeanShell e || persistablePlain e.

Fixpoint persistableDeep (e : BaseElement) : bool :=
  persistable e && forallb persistableDeep (children e).

(** The tag written for an element, and the container written after it. *)
Definition tagOf (e : BaseElement) : list xml :=
  match serializeElement e with
  | Returned own => own
  | TypeError => []
  end.

Definition theTag (e : BaseElement) : xml :=
  hd (XElem (kindName e) [] "" []) (tagOf e).

Fixpoint containerOf (e : BaseElement) : xml :=
  XElem "hashTree" [] "" (flat_map (fun c => tagOf c ++ [containerOf c]) (children e)).

(** Tags in the order they are written: a tag name, once left, does not
    come back. [seen] holds the names met so far, the latest first. *)
Fixpoint together (seen : list string) (tags : list string) : bool :=
  match tags with
  | [] => true
  | t :: rest =>
      match seen with
      | c :: _ =>
          if String.eqb c t then together seen rest
          else negb (existsb (String.eqb t) seen) && together (t :: seen) rest
      | [] => together [t] rest
      end
  end.

(** A tree that is written in the order it is read: at every level the
    elements of one kind stand together, and only the kinds that read their
    container have children. *)
Fixpoint settled (e : BaseElement) : bool :=
  (takesChildren (type e) || match children e with [] => true | _ => false end)
  && together [] (map kindName (children e))
  && forallb settled (children e).

(** The same of a plan, whose root always reads its container. *)
Definition settledPlan (plan : JMeterTestPlan) : bool :=
  together [] (map kindName (children (testPlan plan)))
  && forallb settled (children (testPlan plan)).

Definition variableKept (a : Argument.t) : bool :=
  keptOrEmpty (Argument.name a) && keptOrEmpty (Argument.value a)
  && keptIfAny (Argument.metadata a).

(** What of the root element comes back: the parser fixes its classes, and
    reads neither [enabled] nor comments for it. *)
Definition persistableRoot (e : BaseElement) : bool :=
  match type e, extra e, comments e with
  | ElementType.TestPlan, TestPlanX f, None =>
      String.eqb (testClass e) "TestPlan" && String.eqb (guiClass e) "TestPlanGui"
      && enabled e && forallb variableKept (userDefinedVariables f)
  | _, _, _ => false
  end.

(** An attribute of the root as the parser stores it: absent, or an array
    of one string. *)
Definition attrKept (v : any) : bool :=
  match v with
  | undefined => true
  | arr [NStr _] => true
  | _ => false
  end.

Definition persistablePlan (plan : JMeterTestPlan) : bool :=
  persistableRoot (testPlan plan)
  && attrKept (version plan) && attrKept (properties plan) && attrKept (jmeter plan)
  && forallb persistableDeep (children (testPlan plan)).

(** The elements the analysis reads fields of have them. *)
Definition analyzable (e : BaseElement) : bool :=
  match type e, extra e with
  | (ElementType.ThreadGroup | ElementType.SetupThreadGroup | ElementType.PostThreadGroup),
    ThreadGroupX _ => true
  | (ElementType.ThreadGroup | ElementType.SetupThreadGroup | ElementType.PostThreadGroup),
    _ => false
  | ElementType.HTTPSamplerProxy, HTTPSamplerX _ => true
  | ElementType.HTTPSamplerProxy, _ => false
  | _, _ => true
  end.

(** An HTTP sampler without a domain. *)
Definition lacksDomain (e : BaseElement) : bool :=
  match type e, extra e with
  | ElementType.HTTPSamplerProxy, HTTPSamplerX f => negb (truthy_string (domain f))
  | _, _ => false
  end.

Definition isError (r : AnalysisResult.t) : bool :=
  match AnalysisResult.severity r with
  | Severity.error => true
  | _ => false
  end.

(** [lines.join('\n')] *)
Fixpoint joinLines (lines : list string) : string :=
  match lines with
  | [] => EmptyString
  | [l] => l
  | l :: rest => (l ++ String newline (joinLines rest))%string
  end.

(** Groups as [pushUnder] makes them: no key twice, no group empty, and
    every member of a group under its own key. *)
Definition grouped {A : Type} (key : A -> string) (g : list (string * list A)) : Prop :=
  NoDup (map fst g)
  /\ Forall (fun kv => snd kv <> [] /\ Forall (fun x => key x = fst kv) (snd kv)) g.

Section NodeInduction.

Variable P : node -> Prop.
Hypothesis onString : forall s, P (NStr s).
Hypothesis onObject :
  forall text props, Forall (fun kv => Forall P (snd kv)) props -> P (NObj text props).

(** Induction over a node, with the property known of every array entry. *)
Fixpoint node_induction (x : node) : P x :=
  match x with
  | NStr s => onString s
  | NObj text props =>
      onObject text
        ((fix keys (ps : list (string * list node))
            : Forall (fun kv => Forall P (snd kv)) ps :=
            match ps with
            | [] => Forall_nil _
            | (k, vs) :: rest =>
                Forall_cons (k, vs)
                  ((fix entries (l : list node) : Forall P l :=
                      match l with
                      | [] => Forall_nil P
                      | y :: r => Forall_cons y (node_induction y) (entries r)
                      end) vs)
                  (keys rest)
            end) props)
  end.

End NodeInduction.

(* ================================================================= *)
(** ** Sample trees *)

Module Cases.

Definition headers : BaseElement :=
  {| id := "h"; type := ElementType.HeaderManager; testClass := "HeaderManager";
     guiClass := "HeaderPanel"; name := "Headers"; enabled := true; comments := None;
     extra := HeaderManagerX [Header.mk "Accept" "application/json";
                              Header.mk "X-Trace" ""];
     children := [] |}.

Definition extractor : BaseElement :=
  {| id := "x"; type := ElementType.RegexExtractor; testClass := "RegexExtractor";
     guiClass := "RegexExtractorGui"; name := "Order id"; enabled := false;
     comments := None;
     extra := RegexExtractorX
       {| refName := "order"; regex := "id=(\d+)"; template := "$1$";
          defaultValue := ""; matchNumber := Int (Num 1); useHeaders := false;
          defaultEmptyValue := true; scope := Some "all" |};
     children := [] |}.

Definition assertion : BaseElement :=
  {| id := "a"; type := ElementType.ResponseAssertion; testClass := "ResponseAssertion";
     guiClass := "AssertionGui"; name := "Is 200"; enabled := true; comments := None;
     extra := ResponseAssertionX
       {| testField := "Assertion.response_code"; testType := Num 8;
          testStrings := ["200"; "a longer pattern"]; assumeSuccess := false;
          customMessage := Some "unexpected status" |};
     children := [] |}.

Definition beanShell : BaseElement :=
  {| id := "b"; type := ElementType.BeanShellAssertion; testClass := "BeanShellAssertion";
     guiClass := "BeanShellAssertionGui"; name := "Check"; enabled := true;
     comments := None;
     extra := BeanShellAssertionX
       {| query := "Failure = false;"; filename := None; parameters := Some "p";
          resetInterpreter := true |};
     children := [] |}.

Definition timer : BaseElement :=
  {| id := "t"; type := ElementType.ConstantThroughputTimer;
     testClass := "ConstantThroughputTimer"; guiClass := "TestBeanGUI";
     name := "Pace"; enabled := true; comments := None; extra := NoExtra;
     children := [] |}.

Definition sampler : BaseElement :=
  {| id := "s"; type := ElementType.HTTPSamplerProxy; testClass := "HTTPSamplerProxy";
     guiClass := "HttpTestSampleGui"; name := "Add to cart"; enabled := true;
     comments := Some "posts one item";
     extra := HTTPSamplerX
       {| domain := "example.org"; port := Some (Num 8443); protocol := "https";
          path := "/cart"; method := "POST"; followRedirects := true;
          useKeepAlive := true; postBodyRaw := true; bodyData := Some "{}";
          arguments := [HTTPArgument.mk "" "{}" "=" false];
          concurrentPool := None; implementation := Some "HttpClient4" |};
     children := [headers; extractor; assertion; beanShell] |}.

(** A sampler that names no server. *)
Definition bare : BaseElement :=
  {| id := "n"; type := ElementType.HTTPSamplerProxy; testClass := "HTTPSamplerProxy";
     guiClass := "HttpTestSampleGui"; name := "Home"; enabled := true; comments := None;
     extra := HTTPSamplerX
       {| domain := ""; port := None; protocol := "https"; path := "/";
          method := "GET"; followRedirects := true; useKeepAlive := true;
          postBodyRaw := false; bodyData := None; arguments := [];
          concurrentPool := None; implementation := None |};
     children := [] |}.

Definition group : BaseElement :=
  {| id := "g"; type := ElementType.ThreadGroup; testClass := "ThreadGroup";
     guiClass := "ThreadGroupGui"; name := "Shoppers"; enabled := true;
     comments := None;
     extra := ThreadGroupX
       {| numThreads := Int (Num 25); rampTime := Int (Num 10);
          duration := Some (Int (Num 300)); delay := Some (Str "${DELAY}");
          scheduler := true; sameUserOnNextIteration := false;
          onSampleError := "continue";
          loopController := {| loops := Int (Num (-1)); continueForever := false |} |};
     children := [sampler; bare; timer] |}.

Definition teardown : BaseElement :=
  {| id := "d"; type := ElementType.PostThreadGroup; testClass := "PostThreadGroup";
     guiClass := "PostThreadGroupGui"; name := "Clean up"; enabled := true;
     comments := None;
     extra := ThreadGroupX
       {| numThreads := Int (Num 1); rampTime := Int (Num 1);
          duration := None; delay := None;
          scheduler := false; sameUserOnNextIteration := true;
          onSampleError := "stoptest";
          loopController := {| loops := Int (Num 1); continueForever := false |} |};
     children := [bare] |}.

Definition browsers : BaseElement :=
  {| id := "w"; type := ElementType.ThreadGroup; testClass := "ThreadGroup";
     guiClass := "ThreadGroupGui"; name := "Browsers"; enabled := true;
     comments := None;
     extra := ThreadGroupX
       {| numThreads := Int (Num 200); rampTime := Int (Num 5);
          duration := None; delay := None;
          scheduler := false; sameUserOnNextIteration := true;
          onSampleError := "continue";
          loopController := {| loops := Int (Num 3); continueForever := false |} |};
     children := [bare] |}.

(** A scripted sampler as the editor holds it. *)
Definition scripted : BaseElement :=
  {| id := "j"; type := ElementType.JSR223Sampler; testClass := "JSR223Sampler";
     guiClass := "TestBeanGUI"; name := "Keep token"; enabled := true;
     comments := Some "reads the token";
     extra := JSR223X (JSR223.mk "groovy"
                         "vars.put('token', prev.getResponseDataAsString())"
                         None None None);
     children := [] |}.

Definition collector : BaseElement :=
  {| id := "c"; type := ElementType.ResultCollector; testClass := "ResultCollector";
     guiClass := "ViewResultsFullVisualizer"; name := "Results"; enabled := true;
     comments := None; extra := ResultCollectorX false None; children := [] |}.

Definition root (children : list BaseElement) : BaseElement :=
  {| id := "r"; type := ElementType.TestPlan; testClass := "TestPlan";
     guiClass := "TestPlanGui"; name := "Checkout"; enabled := true; comments := None;
     extra := TestPlanX
       {| functionalMode := false; serializeThreadGroups := true;
          userDefinedVariables := [Argument.mk "host" "example.org" (Some "=");
                                   Argument.mk "token" "" None] |};
     children := children |}.

Definition planOf (children : list BaseElement) : JMeterTestPlan :=
  {| version := arr [NStr "1.2"]; properties := arr [NStr "5.0"]; jmeter := undefined;
     testPlan := root children |}.

(** A plan written in the order it is read, and one whose thread groups
    stand apart. *)
Definition plan : JMeterTestPlan := planOf [group; teardown; collector].
Definition mixed : JMeterTestPlan := planOf [group; collector; browsers].

(** What the serializer writes. *)
Definition written (l : list BaseElement) : list xml :=
  match serializeChildren l with
  | Returned out => out
  | TypeError => []
  end.

Definition documentOf (p : JMeterTestPlan) : xml :=
  match serializeTree p with
  | Returned doc => doc
  | TypeError => XElem "" [] "" []
  end.

(** What the parser reads from it, the id supply at [n]. *)
Definition readAt (n : nat) (p : JMeterTestPlan) : JMeterTestPlan :=
  match fst (parse tally (parseStringPromise (documentOf p)) n) with
  | Returned p' => p'
  | TypeError => p
  end.

Definition findingsOf (p : JMeterTestPlan) : list AnalysisResult.t :=
  match analyze p with
  | Returned findings => findings
  | TypeError => []
  end.

(** The lines of a results file: a header and two samples, the second
    failed. *)
Definition results : list string :=
  ["timeStamp,elapsed,label,responseCode,responseMessage,threadName,dataType,success";
   "1700000000000,20,Home,200,OK,Shoppers 1-1,text,true";
   "1700000000050,35,Add to cart,500,Server Error,Shoppers 1-1,text,false"].

(** The two samples without the header, after an empty line, with a line
    of spaces between them and a line break at the end. *)
Definition headless : string :=
  joinLines [""; nth 1 results ""; "   "; nth 2 results ""; ""].

(** A JSON extractor, a kind the serializer has no case for, before a
    thread group. *)
Definition extracted : JMeterTestPlan := planOf [Samples.jsonExtractor; browsers].

End Cases.

(* ================================================================= *)
(** ** The state monad *)

Lemma bind_run {A B : Type} (m : M A) (f : A -> M B) (n : nat) :
  bind m f n = f (fst (m n)) (snd (m n)).
Proof.
  unfold bind. destruct (m n); reflexivity.
Qed.

Lemma ret_run {A : Type} (a : A) (n : nat) : ret a n = (a, n).
Proof. reflexivity. Qed.

(* ================================================================= *)
(** ** Property accessors *)

Lemma parseIntOrStringProp_absent (xml : node) (name : string) :
  findBy "name" xml "intProp" name = None ->
  findBy "name" xml "stringProp" name = None ->
  parseIntOrStringProp xml name = None.
Proof.
  intros Hi Hs. unfold parseIntOrStringProp, parseIntProp, parseStringProp.
  rewrite Hi, Hs. reflexivity.
Qed.

(** An expression in a string property comes back verbatim. *)
Lemma parseIntOrStringProp_expression (xml : node) (name strVal : string) :
  parseIntProp xml name = None ->
  parseStringProp xml name = Some strVal ->
  includes strVal "${" = true ->
  parseIntOrStringProp xml name = Some (Str strVal).
Proof.
  intros Hi Hs Hx. unfold parseIntOrStringProp. rewrite Hi, Hs, Hx.
  destruct strVal; [discriminate Hx | reflexivity].
Qed.

(** A string property whose text reads as a nonzero integer gives it. *)
Lemma parseIntOrStringProp_nonzero (xml : node) (name strVal : string) (z : Z) :
  parseIntProp xml name = None ->
  parseStringProp xml name = Some strVal ->
  includes strVal "${" = false ->
  parseInt strVal = Num z ->
  z <> 0%Z ->
  parseIntOrStringProp xml name = Some (Int (Num z)).
Proof.
  intros Hi Hs Hx Hp Hz. unfold parseIntOrStringProp. rewrite Hi, Hs, Hx, Hp.
  rewrite andb_false_r.
  destruct strVal as [|c r]; [discriminate Hp |].
  simpl. apply Z.eqb_neq in Hz. rewrite Hz. reflexivity.
Qed.

(** An integer property with text comes first, whatever its text reads as. *)
Lemma parseIntOrStringProp_int (xml : node) (name : string) (intVal : number) :
  parseIntProp xml name = Some intVal ->
  parseIntOrStringProp xml name = Some (Int intVal).
Proof.
  intros Hi. unfold parseIntOrStringProp. rewrite Hi. reflexivity.
Qed.

(** Text that reads as no integer, or as zero, comes back as it is. *)
Lemma parseIntOrStringProp_raw (xml : node) (name strVal : string) :
  parseIntProp xml name = None ->
  parseStringProp xml name = Some strVal ->
  truthy_string strVal = true ->
  truthy_number (parseInt strVal) = false ->
  parseIntOrStringProp xml name = Some (Str strVal).
Proof.
  intros Hi Hs Ht Hp. unfold parseIntOrStringProp. rewrite Hi, Hs, Ht, Hp.
  destruct (includes strVal "${"); reflexivity.
Qed.

(** (C6) The accessor on a string property holding the text 0: the text
    reads as the integer 0, which is falsy, so the raw string "0" is
    returned and not the integer. *)
Theorem zero_text_is_returned_as_string :
  parseInt "0" = Num 0 /\
  parseIntOrStringProp (xml2js Samples.zeroDelay) "ThreadGroup.delay" = Some (Str "0").
Proof.
  split; reflexivity.
Qed.

(* ================================================================= *)
(** ** Decoding of single elements *)

Lemma knownKind_decoder (testClass : string) (xml : node) (kids : M (list BaseElement))
      (fresh : nat -> string) :
  knownKind testClass = true ->
  exists decode, decoderFor fresh testClass xml kids = Some decode /\
                 forall n, enabled (fst (decode n)) = enabledOf xml.
Proof.
  intros Hk. unfold decoderFor.
  repeat match goal with
         | |- context [if String.eqb testClass ?k then _ else _] =>
             destruct (String.eqb testClass k) eqn:?
         end;
    try (eexists; split; [reflexivity |];
         intro n;
         unfold parseThreadGroup, parseHTTPSampler, parseTestAction, parseRegexExtractor,
           parseResponseAssertion, parseHeaderManager, parseArguments, parseJSR223Sampler,
           parseJSR223PostProcessor, parseBeanShellAssertion, parseResultCollector,
           parseConstantThroughputTimer, leaf;
         rewrite ?bind_run; reflexivity).
  unfold knownKind, codecKinds in Hk. simpl in Hk.
  repeat match goal with
         | H : String.eqb testClass _ = false |- _ => rewrite H in Hk; clear H
         end.
  discriminate Hk.
Qed.

(** (C10) For every element node whose test class is one the parser
    decodes, the element is decoded and its [enabled] flag is false exactly
    when the node's [enabled] attribute is the string "false"; an absent
    attribute and every other value give [enabled = true]. *)
Theorem enabled_unless_literal_false
        (fresh : nat -> string) (tagName testClass : string) (xml : node)
        (kids : M (list BaseElement)) (n : nat) :
  getStringValue (get xml "testclass") = Some (NStr testClass) ->
  knownKind testClass = true ->
  exists e, fst (parseElement fresh tagName xml kids n) = Some e /\
            (enabled e = false <-> getStringValue (get xml "enabled") = Some (NStr "false")).
Proof.
  intros Hc Hk.
  destruct (knownKind_decoder testClass xml kids fresh Hk) as [decode [Hd He]].
  unfold parseElement. rewrite Hc.
  assert (Ht : truthy_string testClass = true).
  { destruct testClass; [discriminate Hk | reflexivity]. }
  rewrite Ht, Hd, bind_run. simpl.
  eexists; split; [reflexivity |].
  rewrite He. unfold enabledOf, is_str.
  destruct (getStringValue (get xml "enabled")) as [[s | t ps] |]; simpl.
  - destruct (String.eqb_spec s "false") as [-> | Hne]; simpl.
    + split; reflexivity.
    + split; [discriminate |]. intros H. inversion H. contradiction.
  - split; discriminate.
  - split; discriminate.
Qed.

Lemma enabled_unless_literal_false_witness :
  knownKind "ThreadGroup" = true /\
  exists e,
    fst (parseElement Samples.fresh "ThreadGroup" (xml2js Samples.upperFalse) (ret []) 0)
    = Some e /\
    (enabled e = false <->
     getStringValue (get (xml2js Samples.upperFalse) "enabled") = Some (NStr "false")).
Proof.
  split; [reflexivity |].
  apply (@enabled_unless_literal_false Samples.fresh "ThreadGroup" "ThreadGroup"
           (xml2js Samples.upperFalse) (ret []) 0); reflexivity.
Defined.

(** The values the attribute is most often mistaken for all leave the
    element enabled. *)
Lemma enabledOf_examples :
  enabledOf (xml2js Samples.upperFalse) = true /\
  enabledOf (NObj None [("testclass", [NStr "ThreadGroup"])]) = true /\
  enabledOf (NObj None [("enabled", [NStr "0"])]) = true /\
  enabledOf (NObj None [("enabled", [NStr ""])]) = true /\
  enabledOf (NObj None [("enabled", [NStr "false"])]) = false.
Proof.
  repeat split; reflexivity.
Qed.

(** The root plan is decoded apart, by [parseTestPlan], and is always
    enabled; a [TestPlan] tag met inside a container has no decoder. *)
Lemma parseTestPlan_enabled (fresh : nat -> string) (xml : node)
      (childrenHashTree : option node) (n : nat) :
  enabled (fst (parseTestPlan fresh xml childrenHashTree n)) = true /\
  knownKind "TestPlan" = false.
Proof.
  unfold parseTestPlan. rewrite !bind_run. split; reflexivity.
Qed.

(* ================================================================= *)
(** ** Thread groups and their loop controller *)

Lemma parseThreadGroup_loopController (fresh : nat -> string) (xml : node)
      (kids : M (list BaseElement)) (type : ElementType.t) (n : nat) :
  exists f, extra (fst (parseThreadGroup fresh xml kids type n)) = ThreadGroupX f /\
            loopController f = parseLoopController xml.
Proof.
  unfold parseThreadGroup. rewrite !bind_run. simpl.
  eexists; split; reflexivity.
Qed.

(** (C9, as stated, fails) A thread group whose loop controller block has
    no loop count but says [continue_forever = true] decodes to one loop
    that continues forever. *)
Lemma forever_without_loop_count :
  lacksLoopCount (xml2js Samples.foreverGroup) /\
  parseLoopController (xml2js Samples.foreverGroup)
  = {| loops := Int (Num 1); continueForever := true |} /\
  parseLoopController (xml2js Samples.foreverGroup)
  <> {| loops := Int (Num 1); continueForever := false |}.
Proof.
  split; [| split].
  - vm_compute. split; reflexivity.
  - reflexivity.
  - vm_compute. discriminate.
Qed.

(** (C9, amended) For every thread-group node without an explicit loop
    count, the decoded loop controller has [loops] equal to the integer 1;
    [continueForever] is true exactly when the loop controller block is
    present and its [LoopController.continue_forever] flag reads true, so
    it is false whenever the block is absent. *)
Theorem default_loop_count_is_one
        (fresh : nat -> string) (xml : node) (kids : M (list BaseElement))
        (type : ElementType.t) (n : nat) :
  lacksLoopCount xml ->
  exists f,
    extra (fst (parseThreadGroup fresh xml kids type n)) = ThreadGroupX f /\
    loops (loopController f) = Int (Num 1) /\
    (continueForever (loopController f) = true <->
     exists loopControllerProp,
       findBy "elementType" xml "elementProp" "LoopController" = Some loopControllerProp /\
       parseBoolProp loopControllerProp "LoopController.continue_forever" = true).
Proof.
  intros Hl.
  destruct (parseThreadGroup_loopController fresh xml kids type n) as [f [Hx Hf]].
  exists f. split; [exact Hx |]. rewrite Hf. clear Hx Hf.
  unfold lacksLoopCount in Hl. unfold parseLoopController.
  destruct (findBy "elementType" xml "elementProp" "LoopController") as [p |].
  - destruct Hl as [Hi Hs].
    rewrite (parseIntOrStringProp_absent _ _ Hi Hs). simpl. split; [reflexivity |].
    split.
    + intros Hc. exists p. split; [reflexivity | exact Hc].
    + intros [q [Hq Hc]]. inversion Hq. subst q. exact Hc.
  - simpl. split; [reflexivity |]. split; [discriminate |].
    intros [q [Hq _]]. discriminate Hq.
Qed.

Lemma default_loop_count_is_one_witness :
  lacksLoopCount (xml2js Samples.foreverGroup) /\
  exists f,
    extra (fst (parseThreadGroup Samples.fresh (xml2js Samples.foreverGroup) (ret [])
                                 ElementType.ThreadGroup 0)) = ThreadGroupX f /\
    loops (loopController f) = Int (Num 1).
Proof.
  assert (H : lacksLoopCount (xml2js Samples.foreverGroup)).
  { vm_compute. split; reflexivity. }
  split; [exact H |].
  destruct (@default_loop_count_is_one Samples.fresh (xml2js Samples.foreverGroup) (ret [])
              ElementType.ThreadGroup 0 H) as [f [Hx [Hl _]]].
  exists f. split; [exact Hx | exact Hl].
Defined.

(** (C5) The loop count [${LOOP_COUNT}] is decoded as that string and is
    written back with the same text, but under an [intProp] tag; decoding
    the written document reads the tag as an integer, gets [NaN], and falls
    back to the default 1: the expression is lost. *)
Theorem loop_count_expression_lost_on_reparse :
  (exists plan,
      Samples.parsePlan Samples.loopCountDoc = Returned plan /\
      map loopsOf (children (testPlan plan)) = [Some (Str "${LOOP_COUNT}")]) /\
  (exists doc',
      obind (Samples.parsePlan Samples.loopCountDoc) serializeTree = Returned doc' /\
      propsNamed "LoopController.loops" doc'
      = [XElem "intProp" [("name", "LoopController.loops")] "${LOOP_COUNT}" []]) /\
  (exists plan',
      Samples.reparse Samples.loopCountDoc = Returned plan' /\
      map loopsOf (children (testPlan plan')) = [Some (Int (Num 1))]).
Proof.
  split; [| split]; eexists; split; vm_compute; reflexivity.
Qed.

(* ================================================================= *)
(** ** Round trip *)

(** (C1) A document with one listener whose [ResultCollector.error_logging]
    is true is accepted with no element dropped; the serializer writes the
    flag as the constant false, so the tree decoded from the written
    document differs from the first one in [errorLogging]. *)
Theorem roundtrip_resets_errorLogging :
  exists plan plan',
    Samples.parsePlan Samples.collectorDoc = Returned plan /\
    Samples.reparse Samples.collectorDoc = Returned plan' /\
    map extra (children (testPlan plan)) = [ResultCollectorX true None] /\
    map extra (children (testPlan plan')) = [ResultCollectorX false None] /\
    eraseIdsPlan plan <> eraseIdsPlan plan'.
Proof.
  do 2 eexists.
  split; [vm_compute; reflexivity |].
  split; [vm_compute; reflexivity |].
  split; [reflexivity |].
  split; [reflexivity |].
  vm_compute. discriminate.
Qed.

(* ================================================================= *)
(** ** What xml2js makes of a container *)

Lemma lookup_assignOrPush (k key : string) (v : node) (obj : list (string * list node)) :
  lookup k (assignOrPush obj key v)
  = if String.eqb key k then Some (orEmpty (lookup k obj) ++ [v]) else lookup k obj.
Proof.
  induction obj as [| [k0 vs] rest IH]; simpl.
  - destruct (String.eqb key k); reflexivity.
  - destruct (String.eqb_spec k0 key) as [-> | Hne]; simpl.
    + destruct (String.eqb key k); reflexivity.
    + rewrite IH. destruct (String.eqb_spec k0 k) as [-> | Hk].
      * destruct (String.eqb_spec key k) as [-> | _]; [contradiction | reflexivity].
      * reflexivity.
Qed.

(** The array under a tag name holds the children of that name, in
    document order. *)
Lemma lookup_grouped (k : string) (kids : list xml) (obj : list (string * list node)) :
  orEmpty (lookup k (fold_left (fun o x => assignOrPush o (xml_tag x) (xml2js x)) kids obj))
  = orEmpty (lookup k obj)
    ++ map xml2js (filter (fun x => String.eqb (xml_tag x) k) kids).
Proof.
  revert obj. induction kids as [| x rest IH]; intros obj; simpl.
  - rewrite app_nil_r. reflexivity.
  - rewrite IH, lookup_assignOrPush.
    destruct (String.eqb (xml_tag x) k); simpl.
    + rewrite <- app_assoc. reflexivity.
    + reflexivity.
Qed.

Lemma hashTreesOf_object (text : option string) (obj : list (string * list node)) :
  hashTreesOf (NObj text obj) = orEmpty (lookup "hashTree" obj).
Proof.
  unfold hashTreesOf, get. simpl. destruct (lookup "hashTree" obj); reflexivity.
Qed.

(** The containers of the object are the container tags of the file, in
    document order. *)
Lemma hashTreesOf_xml2js (tag text : string) (kids : list xml) :
  hashTreesOf (xml2js (XElem tag [] text kids)) = map xml2js (containerTags kids).
Proof.
  cbn [xml2js fold_left].
  pose proof (lookup_grouped "hashTree" kids []) as H. simpl in H.
  destruct (fold_left _ kids []) as [| p obj] eqn:E.
  - simpl in H. exact H.
  - rewrite hashTreesOf_object. exact H.
Qed.

Lemma elementKeys_push_container (obj : list (string * list node)) (v : node) :
  elementKeys (assignOrPush obj "hashTree" v) = elementKeys obj.
Proof.
  induction obj as [| [k vs] rest IH]; simpl.
  - reflexivity.
  - destruct (String.eqb_spec k "hashTree") as [-> | Hne]; simpl.
    + reflexivity.
    + apply String.eqb_neq in Hne. rewrite Hne. simpl. rewrite IH. reflexivity.
Qed.

Lemma entries_push_element (obj : list (string * list node)) (key : string) (v : node) :
  String.eqb key "hashTree" = false ->
  Permutation (concat (map snd (elementKeys (assignOrPush obj key v))))
              (concat (map snd (elementKeys obj)) ++ [v]).
Proof.
  intros Hk. induction obj as [| [k vs] rest IH]; simpl.
  - rewrite Hk. simpl. apply Permutation_refl.
  - destruct (String.eqb_spec k key) as [-> | Hne]; simpl.
    + rewrite Hk. simpl. rewrite <- !app_assoc.
      apply Permutation_app_head.
      apply Permutation_app_comm.
    + destruct (String.eqb k "hashTree"); simpl.
      * exact IH.
      * rewrite <- !app_assoc. apply Permutation_app_head. exact IH.
Qed.

Lemma entries_grouped (kids : list xml) (obj : list (string * list node)) :
  Permutation
    (concat (map snd (elementKeys
       (fold_left (fun o x => assignOrPush o (xml_tag x) (xml2js x)) kids obj))))
    (concat (map snd (elementKeys obj)) ++ map xml2js (elementTags kids)).
Proof.
  revert obj. induction kids as [| x rest IH]; intros obj; simpl.
  - rewrite app_nil_r. apply Permutation_refl.
  - eapply Permutation_trans; [apply IH |].
    unfold isContainerTag.
    destruct (String.eqb (xml_tag x) "hashTree") eqn:E; simpl.
    + apply String.eqb_eq in E. rewrite E, elementKeys_push_container.
      apply Permutation_refl.
    + change (xml2js x :: map xml2js (elementTags rest))
        with ([xml2js x] ++ map xml2js (elementTags rest)).
      rewrite app_assoc. apply Permutation_app_tail.
      apply entries_push_element. exact E.
Qed.

(** The entries of the object are the element tags of the file, possibly in
    another order. *)
Lemma entriesOf_xml2js (tag text : string) (kids : list xml) :
  Permutation (entriesOf (xml2js (XElem tag [] text kids))) (map xml2js (elementTags kids)).
Proof.
  cbn [xml2js fold_left].
  pose proof (entries_grouped kids []) as H. simpl in H.
  destruct (fold_left _ kids []) as [| p obj] eqn:E.
  - simpl in H. exact H.
  - exact H.
Qed.

Lemma entries_count (tag text : string) (kids : list xml) :
  length (entriesOf (xml2js (XElem tag [] text kids))) = length (elementTags kids).
Proof.
  rewrite (Permutation_length (entriesOf_xml2js tag text kids)).
  apply length_map.
Qed.

(** When all the element tags bear one tag name, nothing is reordered. *)
Lemma elementKeys_push_same (t : string) (v : node) (obj : list (string * list node))
      (es : list node) :
  String.eqb t "hashTree" = false ->
  (elementKeys obj = [] /\ es = []) \/ elementKeys obj = [(t, es)] ->
  elementKeys (assignOrPush obj t v) = [(t, es ++ [v])].
Proof.
  intros Ht. induction obj as [| [k vs] rest IH]; intros H; simpl.
  - rewrite Ht. simpl. destruct H as [[_ ->] | H]; [reflexivity | discriminate H].
  - simpl in H. destruct (String.eqb_spec k t) as [-> | Hne]; simpl.
    + rewrite Ht in *. simpl in *.
      destruct H as [[H _] | H]; [discriminate H |].
      inversion H. reflexivity.
    + destruct (String.eqb k "hashTree") eqn:Ek; simpl in *.
      * apply IH. exact H.
      * destruct H as [[H _] | H]; [discriminate H |].
        inversion H. contradiction.
Qed.

Lemma entries_same_tag (t : string) (kids : list xml) (obj : list (string * list node))
      (es : list node) :
  String.eqb t "hashTree" = false ->
  Forall (fun x => xml_tag x = t) (elementTags kids) ->
  (elementKeys obj = [] /\ es = []) \/ elementKeys obj = [(t, es)] ->
  concat (map snd (elementKeys
     (fold_left (fun o x => assignOrPush o (xml_tag x) (xml2js x)) kids obj)))
  = es ++ map xml2js (elementTags kids).
Proof.
  intros Ht. revert obj es. induction kids as [| x rest IH]; intros obj es Hall H; simpl.
  - rewrite app_nil_r. destruct H as [[-> ->] | ->]; simpl; auto using app_nil_r.
  - simpl in Hall. unfold isContainerTag in *.
    destruct (String.eqb (xml_tag x) "hashTree") eqn:E; simpl in *.
    + apply String.eqb_eq in E. rewrite E, (IH _ es Hall); [reflexivity |].
      rewrite elementKeys_push_container. exact H.
    + inversion Hall as [| y l Hx Hrest]; subst.
      rewrite (IH _ (es ++ [xml2js x]) Hrest).
      * rewrite <- app_assoc. reflexivity.
      * right. apply elementKeys_push_same; [exact E | exact H].
Qed.

Lemma entriesOf_same_tag (t tag text : string) (kids : list xml) :
  String.eqb t "hashTree" = false ->
  Forall (fun x => xml_tag x = t) (elementTags kids) ->
  entriesOf (xml2js (XElem tag [] text kids)) = map xml2js (elementTags kids).
Proof.
  intros Ht Hall. cbn [xml2js fold_left].
  pose proof (@entries_same_tag t kids [] [] Ht Hall (or_introl (conj eq_refl eq_refl))) as H.
  simpl in H.
  destruct (fold_left _ kids []) as [| p obj] eqn:E.
  - simpl in H. exact H.
  - exact H.
Qed.

(* ================================================================= *)
(** ** Pairing of element tags with containers *)

Section Pairing.

Variable fresh : nat -> string.

(** [parseElement] never looks at the tag name. *)
Lemma parseElement_tagName (k k' : string) (xml : node) (kids : M (list BaseElement)) :
  parseElement fresh k xml kids = parseElement fresh k' xml kids.
Proof. reflexivity. Qed.

Lemma lookupMap_map {B : Type} (f : node -> B) (text : option string)
      (props : list (string * list node)) :
  lookupMap f "hashTree" props = map f (hashTreesOf (NObj text props)).
Proof.
  unfold hashTreesOf, get. simpl.
  induction props as [| [k vs] rest IH]; simpl.
  - reflexivity.
  - destruct (String.eqb k "hashTree"); [reflexivity | exact IH].
Qed.

(** [hashTrees[i]], decoded: the children of the [i]-th container, and no
    children when there is no such container. *)
Lemma nth_decoded (hs : list node) (i : nat) :
  nth i (map (parseHashTree fresh) hs) (ret []) = childElementsOf fresh (nth_error hs i).
Proof.
  revert i. induction hs as [| h rest IH]; intros [| i]; simpl; auto.
Qed.

Lemma pairFrom_app (i : nat) (a b hs : list node) :
  pairFrom i (a ++ b) hs = pairFrom i a hs ++ pairFrom (i + length a) b hs.
Proof.
  revert i. induction a as [| e a IH]; intros i; simpl.
  - rewrite Nat.add_0_r. reflexivity.
  - rewrite IH. rewrite Nat.add_succ_r. reflexivity.
Qed.

Lemma decodePairs_app (a b : list (node * option node)) (n : nat) :
  decodePairs fresh (a ++ b) n
  = (fst (decodePairs fresh a n) ++ fst (decodePairs fresh b (snd (decodePairs fresh a n))),
     snd (decodePairs fresh b (snd (decodePairs fresh a n)))).
Proof.
  revert n. induction a as [| [e c] a IH]; intros n; simpl.
  - destruct (decodePairs fresh b n); reflexivity.
  - rewrite !bind_run. rewrite IH. rewrite !ret_run. cbn [fst snd].
    destruct (fst (parseElement fresh "" e (childElementsOf fresh c) n)); reflexivity.
Qed.

(** The inner loop: the entries under one key are decoded against the
    containers from the running index on. *)
Lemma forElements_pairs (hs : list node) (key : string) (elementArray : list node)
      (elements : list BaseElement) (i n : nat) :
  forElements fresh (map (parseHashTree fresh) hs) key elementArray (elements, i) n
  = ((elements ++ fst (decodePairs fresh (pairFrom i elementArray hs) n),
      i + length elementArray),
     snd (decodePairs fresh (pairFrom i elementArray hs) n)).
Proof.
  unfold forElements.
  revert elements i n. induction elementArray as [| x rest IH]; intros elements i n.
  - simpl. rewrite !ret_run. simpl. rewrite app_nil_r, Nat.add_0_r. reflexivity.
  - cbn [forOf pairFrom decodePairs length].
    rewrite !bind_run. cbn [fst snd].
    rewrite nth_decoded, (parseElement_tagName key "").
    rewrite ret_run. cbn [fst snd].
    rewrite IH. rewrite Nat.add_succ_r. cbn [fst snd].
    destruct (fst (parseElement fresh "" x (childElementsOf fresh (nth_error hs i)) n));
      cbn [fst snd]; rewrite <- ?app_assoc; reflexivity.
Qed.

(** The outer loop, over the keys. *)
Lemma forKeys_pairs (hs : list node) (keys : list (string * list node))
      (elements : list BaseElement) (i n : nat) :
  forOf keys
        (fun acc kv => forElements fresh (map (parseHashTree fresh) hs) (fst kv) (snd kv) acc)
        (elements, i) n
  = ((elements ++ fst (decodePairs fresh (pairFrom i (concat (map snd keys)) hs) n),
      i + length (concat (map snd keys))),
     snd (decodePairs fresh (pairFrom i (concat (map snd keys)) hs) n)).
Proof.
  revert elements i n. induction keys as [| [k vs] rest IH]; intros elements i n.
  - simpl. rewrite !ret_run. simpl. rewrite app_nil_r, Nat.add_0_r. reflexivity.
  - cbn [forOf map concat fst snd].
    rewrite bind_run, forElements_pairs. cbn [fst snd].
    rewrite IH. rewrite pairFrom_app, decodePairs_app. cbn [fst snd].
    rewrite length_app, Nat.add_assoc, <- app_assoc. reflexivity.
Qed.

(** [parseHashTree] decodes the entries in the order it visits them, the
    [i]-th against the [i]-th container. *)
Lemma parseHashTree_pairs (hashTree : node) (n : nat) :
  parseHashTree fresh hashTree n
  = decodePairs fresh (pairFrom 0 (entriesOf hashTree) (hashTreesOf hashTree)) n.
Proof.
  destruct hashTree as [s | text props].
  - reflexivity.
  - cbn [parseHashTree]. rewrite (lookupMap_map _ text).
    rewrite bind_run, forKeys_pairs. rewrite ret_run. cbn [fst snd app entriesOf].
    destruct (decodePairs fresh _ n); reflexivity.
Qed.

(** A container whose element tags all bear one tag name is decoded in
    document order: the [i]-th element tag with the [i]-th container tag. *)
Lemma same_tag_pairing_is_positional (t tag text : string) (kids : list xml) (n : nat) :
  String.eqb t "hashTree" = false ->
  Forall (fun x => xml_tag x = t) (elementTags kids) ->
  parseHashTree fresh (xml2js (XElem tag [] text kids)) n
  = decodePairs fresh
      (pairFrom 0 (map xml2js (elementTags kids)) (map xml2js (containerTags kids))) n.
Proof.
  intros Ht Hall.
  rewrite parseHashTree_pairs, (@entriesOf_same_tag t tag text kids Ht Hall), hashTreesOf_xml2js.
  reflexivity.
Qed.

(** Containers beyond the last entry are never looked up. *)
Lemma pairFrom_firstn (i : nat) (entries hs : list node) :
  pairFrom i entries (firstn (i + length entries) hs) = pairFrom i entries hs.
Proof.
  revert i. induction entries as [| e rest IH]; intros i; simpl.
  - reflexivity.
  - rewrite nth_error_firstn.
    replace (Nat.ltb i (i + S (length rest))) with true
      by (symmetry; apply Nat.ltb_lt; lia).
    replace (i + S (length rest)) with (S i + length rest) by lia.
    rewrite IH. reflexivity.
Qed.

(** (C2) Element tags [A], [B], [C] in document order with containers
    [ca], [cb], [cc], where [A] and [C] are thread groups and [B] a
    sampler: the parser visits the tags grouped by tag name, so it returns
    [A], [C], [B] and gives [C] the children of [cb] and [B] those of [cc]. *)
Theorem interleaved_tags_are_cross_attached :
  map xml_tag (xml_kids Samples.interleaved)
  = ["ThreadGroup"; "hashTree"; "HTTPSamplerProxy"; "hashTree"; "ThreadGroup"; "hashTree"] /\
  shape (fst (parseHashTree Samples.fresh (xml2js Samples.interleaved) 0))
  = [("A", ["a1"]); ("C", ["b1"]); ("B", ["c1"])].
Proof.
  split; reflexivity.
Qed.

(** (C3) Element tags [A], [X], [B] with containers [ca], [cx], [cb],
    where [A] and [B] are thread groups and [X] is of a kind without a
    decoder: [X] is dropped, but [B], visited second, is given the
    children of [cx], and [cb] is dropped in its place. *)
Theorem unknown_kind_shifts_the_pairing :
  map xml_tag (xml_kids Samples.withUnknown)
  = ["ThreadGroup"; "hashTree"; "IfController"; "hashTree"; "ThreadGroup"; "hashTree"] /\
  knownKind "IfController" = false /\
  shape (fst (parseHashTree Samples.fresh (xml2js Samples.withUnknown) 0))
  = [("A", ["a1"]); ("B", ["x1"])].
Proof.
  repeat split; reflexivity.
Qed.

(** (C7, as stated, fails) Two element tags and one container: the second
    tag, which has no container, is decoded all the same and is part of
    the result; stopping at the shorter count would leave it out. *)
Lemma unmatched_element_tag_is_kept :
  length (entriesOf (xml2js Samples.twoTagsOneContainer)) = 2 /\
  length (hashTreesOf (xml2js Samples.twoTagsOneContainer)) = 1 /\
  shape (fst (parseHashTree Samples.fresh (xml2js Samples.twoTagsOneContainer) 0))
  = [("A", ["a1"]); ("B", [])] /\
  shape (fst (decodeUpToShorter Samples.fresh (xml2js Samples.twoTagsOneContainer) 0))
  = [("A", ["a1"])] /\
  fst (parseHashTree Samples.fresh (xml2js Samples.twoTagsOneContainer) 0)
  <> fst (decodeUpToShorter Samples.fresh (xml2js Samples.twoTagsOneContainer) 0).
Proof.
  repeat split; try reflexivity.
  vm_compute. discriminate.
Qed.

(** (C7, amended) Whatever the counts of element tags and container tags,
    parsing returns: every entry is decoded, in the order the parser
    visits them, the [i]-th with the [i]-th container as its
    children-container when there is one and with no children otherwise;
    containers beyond the number of entries are ignored. *)
Theorem mismatched_counts_are_tolerated (hashTree : node) (n : nat) :
  parseHashTree fresh hashTree n
  = decodePairs fresh
      (pairFrom 0 (entriesOf hashTree)
                (firstn (length (entriesOf hashTree)) (hashTreesOf hashTree))) n.
Proof.
  rewrite parseHashTree_pairs.
  rewrite <- (pairFrom_firstn 0 (entriesOf hashTree) (hashTreesOf hashTree)).
  reflexivity.
Qed.

End Pairing.

(* ================================================================= *)
(** ** The serializer *)

Lemma serializeChild_unfold (child : BaseElement) :
  serializeChild child
  = obind (serializeElement child) (fun own =>
    obind (serializeChildren (children child)) (fun inner =>
    Returned (own ++ [XElem "hashTree" [] "" inner]))).
Proof.
  destruct child; reflexivity.
Qed.

Lemma eraseIds_children (e : BaseElement) :
  children (eraseIds e) = map eraseIds (children e).
Proof.
  destruct e; reflexivity.
Qed.

(** No encoder reads [id]. *)
Lemma serializeElement_eraseIds (e : BaseElement) :
  serializeElement (eraseIds e) = serializeElement e.
Proof.
  destruct e as [i t tc g nm en c x ch].
  unfold serializeElement. cbn [eraseIds type].
  destruct t; reflexivity.
Qed.

Lemma serializeChild_eraseIds (e : BaseElement) :
  serializeChild (eraseIds e) = serializeChild e.
Proof.
  induction e as [e IH] using element_ind.
  rewrite !serializeChild_unfold, serializeElement_eraseIds, eraseIds_children.
  unfold serializeChildren. rewrite map_map.
  replace (map (fun x => serializeChild (eraseIds x)) (children e))
    with (map serializeChild (children e)); [reflexivity |].
  induction IH as [| y r Hy _ IHr]; simpl; [reflexivity |].
  rewrite Hy, IHr. reflexivity.
Qed.

Lemma serializeChildren_eraseIds (l : list BaseElement) :
  serializeChildren (map eraseIds l) = serializeChildren l.
Proof.
  unfold serializeChildren. rewrite map_map.
  induction l as [| y r IH]; simpl; [reflexivity |].
  rewrite serializeChild_eraseIds, IH. reflexivity.
Qed.

Lemma serializeTree_eraseIds (plan : JMeterTestPlan) :
  serializeTree (eraseIdsPlan plan) = serializeTree plan.
Proof.
  destruct plan as [v p j tp]. unfold serializeTree. cbn [eraseIdsPlan testPlan version
    properties jmeter].
  replace (serializeTestPlan (eraseIds tp)) with (serializeTestPlan tp); [reflexivity |].
  unfold serializeTestPlan. rewrite eraseIds_children, serializeChildren_eraseIds.
  destruct tp; reflexivity.
Qed.

(** (C8) Two trees that are equal except for the [id] values of their
    elements serialize to the same text, whatever the printer: the output
    does not depend on identity. *)
Theorem serialize_ignores_ids (end_ : xml -> string) (plan1 plan2 : JMeterTestPlan) :
  eraseIdsPlan plan1 = eraseIdsPlan plan2 ->
  serialize end_ plan1 = serialize end_ plan2.
Proof.
  intros H. unfold serialize.
  rewrite <- (serializeTree_eraseIds plan1), <- (serializeTree_eraseIds plan2), H.
  reflexivity.
Qed.

Lemma serialize_ignores_ids_witness :
  Samples.planA <> Samples.planB /\
  eraseIdsPlan Samples.planA = eraseIdsPlan Samples.planB /\
  serialize (fun doc => String.concat "/" (tagsOf doc)) Samples.planA
  = serialize (fun doc => String.concat "/" (tagsOf doc)) Samples.planB.
Proof.
  split; [discriminate |].
  split; [reflexivity |].
  apply (@serialize_ignores_ids (fun doc => String.concat "/" (tagsOf doc))
                                Samples.planA Samples.planB).
  reflexivity.
Defined.

(** (C4) Serializing a tree that holds an element of a kind without a case
    in the serializer does not fail.  Of [Cases.extracted], a JSON extractor
    over [Vars] followed by the thread group [Browsers] over [Home],
    [serializeTree] returns a document: it has no tag for the extractor but
    has the extractor's container with [Vars] in it, so the document holds
    one element tag and two containers at the top; read again, [Browsers]
    is given the extractor's container: it has lost [Home] and has [Vars]
    as its child. *)
Theorem unhandled_kind_corrupts_the_document :
  handled (type Samples.jsonExtractor) = false /\
  shape (children (testPlan Cases.extracted))
  = [("JSON Extractor", ["Vars"]); ("Browsers", ["Home"])] /\
  exists doc top plan',
    serializeTree Cases.extracted = Returned doc /\
    xml_kids doc = [XElem "hashTree" [] "" top] /\
    map xml_tag top = ["TestPlan"; "hashTree"] /\
    map (fun container => map xml_tag (xml_kids container)) (skipn 1 top)
    = [["hashTree"; "ThreadGroup"; "hashTree"]] /\
    existsb (String.eqb "JSONExtractor") (tagsOf doc) = false /\
    fst (parse tally (parseStringPromise doc) 0) = Returned plan' /\
    shape (children (testPlan plan')) = [("Browsers", ["Vars"])].
Proof.
  split; [reflexivity |].
  split; [reflexivity |].
  eexists. eexists. eexists.
  split; [vm_compute; reflexivity |].
  split; [reflexivity |].
  repeat split; vm_compute; reflexivity.
Qed.

(* ================================================================= *)
(** ** Numbers written and read back *)

Lemma digitsPrefix_step (c : ascii) (r : string) (acc : option Z) :
  digitsPrefix (String c r) acc
  = match digitValue c with
    | Some d => digitsPrefix r (Some (match acc with Some a => 10 * a + d | None => d end)%Z)
    | None => acc
    end.
Proof. reflexivity. Qed.

Ltac read_digit :=
  rewrite digitsPrefix_step;
  match goal with
  | |- context [digitValue ?c] =>
      let v := eval vm_compute in (digitValue c) in
      change (digitValue c) with v; cbv iota beta
  end.

Lemma digitsPrefix_uint (d : Decimal.uint) (acc : Z) :
  digitsPrefix (NilEmpty.string_of_uint d) (Some acc) = Some (horner d acc).
Proof.
  revert acc.
  induction d; intros acc; cbn [NilEmpty.string_of_uint horner];
    try reflexivity; read_digit; rewrite IHd, ?Z.add_0_r; reflexivity.
Qed.

Lemma digitsPrefix_uint_start (d : Decimal.uint) :
  d <> Decimal.Nil ->
  digitsPrefix (NilEmpty.string_of_uint d) None = Some (horner d 0).
Proof.
  destruct d; intros H; [contradiction | ..]; cbn [NilEmpty.string_of_uint horner];
    read_digit; rewrite digitsPrefix_uint; reflexivity.
Qed.

Lemma horner_acc (d : Decimal.uint) (acc : positive) :
  horner d (Zpos acc) = Zpos (Pos.of_uint_acc d acc).
Proof.
  revert acc.
  induction d; intros acc; cbn [horner Pos.of_uint_acc]; try reflexivity;
    rewrite <- IHd; f_equal; lia.
Qed.

Lemma horner_of_uint (d : Decimal.uint) : horner d 0 = Z.of_N (Pos.of_uint d).
Proof.
  induction d; cbn [horner Pos.of_uint]; try reflexivity;
    first [exact IHd | exact (horner_acc d _)].
Qed.

Lemma horner_to_uint (p : positive) : horner (Pos.to_uint p) 0 = Zpos p.
Proof.
  rewrite horner_of_uint, DecimalPos.Unsigned.of_to. reflexivity.
Qed.

(** A string of digits that starts with a digit is read whole. *)
Lemma parseInt_digits (s : string) (v : Z) :
  digitsPrefix s None = Some v ->
  parseInt s = toDouble v.
Proof.
  intros H. destruct s as [| c r]; [discriminate H |].
  rewrite digitsPrefix_step in H.
  destruct (digitValue c) as [d |] eqn:Hc; [| discriminate H].
  assert (Hw : isWhiteSpace c = false /\ c <> "-"%char /\ c <> "+"%char).
  { unfold digitValue in Hc.
    destruct (Nat.leb 48 (nat_of_ascii c) && Nat.leb (nat_of_ascii c) 57) eqn:E;
      [| discriminate Hc].
    apply andb_true_iff in E. destruct E as [E1 E2].
    apply Nat.leb_le in E1. apply Nat.leb_le in E2.
    repeat split.
    - unfold isWhiteSpace. apply orb_false_iff. split; [apply orb_false_iff; split |].
      + apply Nat.eqb_neq. lia.
      + apply andb_false_iff. right. apply Nat.leb_gt. lia.
      + apply Nat.eqb_neq. lia.
    - intros ->. vm_compute in E1. lia.
    - intros ->. vm_compute in E1. lia. }
  destruct Hw as [Hw [Hm Hp]].
  unfold parseInt. cbn [skipWhiteSpace]. rewrite Hw.
  assert (Hd : digitsPrefix (String c r) None = Some v).
  { rewrite digitsPrefix_step, Hc. exact H. }
  destruct c as [[|] [|] [|] [|] [|] [|] [|] [|]];
    try (rewrite Hd, Z.mul_1_l; reflexivity);
    first [exfalso; apply Hm; reflexivity | exfalso; apply Hp; reflexivity].
Qed.

Lemma string_of_uint_nonnil (d : Decimal.uint) :
  d <> Decimal.Nil -> NilZero.string_of_uint d = NilEmpty.string_of_uint d.
Proof.
  destruct d; intros H; [contradiction | ..]; reflexivity.
Qed.

Lemma digitsOf_pos (p : positive) :
  digitsOf (Zpos p) = NilEmpty.string_of_uint (Pos.to_uint p).
Proof.
  unfold digitsOf. cbn [Z.to_int NilZero.string_of_int].
  apply string_of_uint_nonnil, DecimalPos.Unsigned.to_uint_nonnil.
Qed.

Lemma digitsPrefix_digitsOf (p : positive) :
  digitsPrefix (digitsOf (Zpos p)) None = Some (Zpos p).
Proof.
  rewrite digitsOf_pos,
    (digitsPrefix_uint_start (DecimalPos.Unsigned.to_uint_nonnil p)), horner_to_uint.
  reflexivity.
Qed.

Lemma parseInt_digitsOf (v : Z) :
  (0 < v)%Z -> parseInt (digitsOf v) = toDouble v.
Proof.
  destruct v as [| p | p]; try (intros H; exfalso; lia). intros _.
  apply parseInt_digits, digitsPrefix_digitsOf.
Qed.

Lemma parseInt_minus_digitsOf (v : Z) :
  (0 < v)%Z -> parseInt ("-" ++ digitsOf v) = toDouble (- v).
Proof.
  destruct v as [| p | p]; try (intros H; exfalso; lia). intros _.
  unfold parseInt. cbn [append skipWhiteSpace].
  change (isWhiteSpace "-") with false. cbv iota beta.
  rewrite digitsPrefix_digitsOf. reflexivity.
Qed.

Lemma roundsTo_spec (v a : Z) : roundsTo v a = true -> toDouble v = Num a.
Proof.
  unfold roundsTo. destruct (toDouble v); try discriminate.
  intros H. apply Z.eqb_eq in H. subst. reflexivity.
Qed.

Lemma isDouble_spec (z : Z) : isDouble z = true -> toDouble z = Num z.
Proof. exact (@roundsTo_spec z z). Qed.

Lemma toDouble_opp (v a : Z) : toDouble v = Num a -> toDouble (- v) = Num (- a).
Proof.
  unfold toDouble. rewrite Z.abs_opp, Z.sgn_opp. cbv zeta.
  match goal with |- context [Z.leb 1024 ?m] => destruct (Z.leb 1024 m) end;
    [discriminate |].
  intros H. inversion H. f_equal. apply Z.mul_opp_l.
Qed.

(** The digits [toString] chooses read back as the number printed. *)
Lemma shortestFrom_spec (a : Z) (n fuel k : nat) :
  (0 < a)%Z -> toDouble a = Num a ->
  (0 < shortestFrom a n k fuel)%Z /\ toDouble (shortestFrom a n k fuel) = Num a.
Proof.
  intros Ha Hd. revert k.
  induction fuel as [| fuel IH]; intros k; [split; assumption |].
  cbn [shortestFrom]. cbv zeta.
  set (p := (10 ^ Z.of_nat (n - k))%Z).
  assert (Hp : (0 < p)%Z) by (apply Z.pow_pos_nonneg; lia).
  assert (Hlo : (0 <= a / p * p)%Z).
  { apply Z.mul_nonneg_nonneg; [apply Z.div_pos |]; lia. }
  destruct (Z.ltb 0 (a / p * p)) eqn:E0; cbn [andb];
    destruct (roundsTo (a / p * p) a) eqn:El;
    destruct (roundsTo (a / p * p + p) a) eqn:Eh; cbn [andb];
    repeat match goal with
           | |- context [if ?b then _ else _] => destruct b
           end;
    first [ apply IH
          | split; [apply Z.ltb_lt in E0; exact E0 | apply roundsTo_spec; exact El]
          | split; [lia | apply roundsTo_spec; exact Eh] ].
Qed.

Lemma shortest_spec (a : Z) :
  (0 < a)%Z -> toDouble a = Num a ->
  (0 < shortest a)%Z /\ toDouble (shortest a) = Num a.
Proof. intros Ha Hd. apply shortestFrom_spec; assumption. Qed.

(** [parseInt(n.toString(), 10)] is [n], for every integer that is printed
    digit by digit. *)
Lemma parseInt_toString (z : Z) :
  printable z = true -> parseInt (number_toString (Num z)) = Num z.
Proof.
  unfold printable. intros H. apply andb_true_iff in H. destruct H as [Hd Hs].
  apply isDouble_spec in Hd.
  unfold number_toString. rewrite Hd.
  destruct (Z.eqb_spec z 0) as [-> | Hz]; [vm_compute; reflexivity |].
  rewrite Hs.
  destruct (Z.ltb_spec z 0) as [Hn | Hn].
  - assert (Ha : Z.abs z = (- z)%Z) by lia. rewrite Ha.
    destruct (@shortest_spec (- z)) as [Hv Hr]; [lia | apply toDouble_opp; exact Hd |].
    rewrite parseInt_minus_digitsOf by exact Hv.
    rewrite (toDouble_opp _ Hr). f_equal. lia.
  - assert (Ha : Z.abs z = z) by lia. rewrite Ha.
    destruct (@shortest_spec z) as [Hv Hr]; [lia | exact Hd |].
    cbn [append]. rewrite parseInt_digitsOf by exact Hv. exact Hr.
Qed.

Lemma plainText_app (a b : string) :
  plainText (a ++ b) = plainText a && plainText b.
Proof.
  induction a as [| c a IH]; cbn [append plainText]; [reflexivity |].
  rewrite IH, andb_assoc. reflexivity.
Qed.

Lemma plainText_not_blank (s : string) :
  plainText s = true -> s <> "" -> isBlank s = false.
Proof.
  destruct s as [| c r]; [intros _ H; contradiction H; reflexivity |].
  cbn [plainText isBlank]. intros H _.
  apply andb_true_iff in H. destruct H as [H _].
  unfold plainChar in H. apply andb_true_iff in H. destruct H as [H _].
  apply negb_true_iff in H. rewrite H. reflexivity.
Qed.

Lemma plainText_has_no_expression (s : string) :
  plainText s = true -> includes s "${" = false.
Proof.
  induction s as [| c r IH]; [reflexivity |].
  cbn [plainText]. intros H.
  apply andb_true_iff in H. destruct H as [Hc Hr].
  unfold plainChar in Hc. apply andb_true_iff in Hc. destruct Hc as [_ Hc].
  apply negb_true_iff in Hc.
  cbn [includes]. rewrite (IH Hr), orb_false_r.
  cbn [String.prefix].
  destruct (ascii_dec "$" c) as [E | E]; [| reflexivity].
  subst c. discriminate Hc.
Qed.

Lemma uint_text_is_plain (d : Decimal.uint) :
  plainText (NilEmpty.string_of_uint d) = true.
Proof.
  induction d; cbn [NilEmpty.string_of_uint plainText]; try reflexivity;
    rewrite IHd; reflexivity.
Qed.

Lemma digitsOf_is_plain (a : Z) : plainText (digitsOf a) = true /\ digitsOf a <> "".
Proof.
  unfold digitsOf.
  assert (Hu : forall d, plainText (NilZero.string_of_uint d) = true
                         /\ NilZero.string_of_uint d <> "").
  { intros d. destruct d; cbn [NilZero.string_of_uint NilEmpty.string_of_uint plainText];
      try (split; [reflexivity | discriminate]);
      rewrite uint_text_is_plain; split; try reflexivity; discriminate. }
  destruct (Z.to_int a) as [d | d]; cbn [NilZero.string_of_int].
  - apply Hu.
  - cbn [plainText]. destruct (Hu d) as [H _]. rewrite H.
    split; [reflexivity | discriminate].
Qed.

Lemma stripZeros_is_plain (s : string) :
  plainText s = true -> plainText (stripZeros s) = true.
Proof.
  induction s as [| c r IH]; [reflexivity |].
  cbn [plainText stripZeros]. intros H.
  apply andb_true_iff in H. destruct H as [Hc Hr]. specialize (IH Hr).
  destruct (stripZeros r).
  - destruct (Ascii.eqb c "0"); cbn [plainText]; rewrite ?Hc; reflexivity.
  - cbn [plainText] in *. rewrite Hc, IH. reflexivity.
Qed.

Lemma exponentForm_is_plain (v : Z) :
  plainText (exponentForm v) = true /\ exponentForm v <> "".
Proof.
  unfold exponentForm.
  destruct (digitsOf_is_plain v) as [Hp Hn].
  destruct (digitsOf v) as [| c r]; [contradiction Hn; reflexivity |].
  cbn [plainText] in Hp. apply andb_true_iff in Hp. destruct Hp as [Hc Hr].
  pose proof (stripZeros_is_plain _ Hr) as Hs.
  split; [| discriminate].
  destruct (digitsOf_is_plain (Z.of_nat (String.length r))) as [He _].
  change (String c ?f ++ ?t)%string with (String c (f ++ t)).
  cbn [plainText]. rewrite Hc, plainText_app.
  replace (plainText ("e+" ++ digitsOf (Z.of_nat (String.length r)))) with true
    by (cbn [append plainText]; rewrite He; reflexivity).
  destruct (stripZeros r); [reflexivity |].
  change ("." ++ ?f)%string with (String "." f).
  cbn [plainText] in *. rewrite Hs. reflexivity.
Qed.

Lemma toString_is_plain (n : number) :
  plainText (number_toString n) = true /\ number_toString n <> "".
Proof.
  assert (Hi : forall b : bool,
             plainText (if b then "-Infinity" else "Infinity") = true
             /\ (if b then "-Infinity" else "Infinity") <> "").
  { intros [|]; split; first [reflexivity | discriminate]. }
  destruct n as [| z | b]; [split; [reflexivity | discriminate] | | apply Hi].
  unfold number_toString.
  destruct (toDouble z) as [| x | b];
    [split; [reflexivity | discriminate] | | apply Hi].
  destruct (Z.eqb x 0); [split; [reflexivity | discriminate] |].
  cbv zeta.
  assert (Hb : plainText (if Z.ltb (Z.abs x) (10 ^ 21) then digitsOf (shortest (Z.abs x))
                          else exponentForm (shortest (Z.abs x))) = true
               /\ (if Z.ltb (Z.abs x) (10 ^ 21) then digitsOf (shortest (Z.abs x))
                   else exponentForm (shortest (Z.abs x))) <> "").
  { destruct (Z.ltb (Z.abs x) (10 ^ 21));
      [apply digitsOf_is_plain | apply exponentForm_is_plain]. }
  destruct Hb as [Hb Hn].
  destruct (Z.ltb x 0); cbn [append plainText].
  - rewrite Hb. split; [reflexivity | discriminate].
  - split; assumption.
Qed.

(** The text of a number is never blank. *)
Lemma toString_not_blank (n : number) : isBlank (number_toString n) = false.
Proof.
  destruct (toString_is_plain n) as [Hp Hn]. apply plainText_not_blank; assumption.
Qed.

Lemma not_blank_truthy (s : string) : isBlank s = false -> truthy_string s = true.
Proof.
  destruct s; [discriminate | reflexivity].
Qed.

(** The text of a number holds no expression marker. *)
Lemma toString_has_no_expression (n : number) :
  includes (number_toString n) "${" = false.
Proof.
  apply plainText_has_no_expression, toString_is_plain.
Qed.

Lemma toString_truthy (n : number) : truthy_string (number_toString n) = true.
Proof.
  apply not_blank_truthy, toString_not_blank.
Qed.

(* ================================================================= *)
(** ** Elements written and read back *)

Lemma keptOrEmpty_cases (s : string) :
  keptOrEmpty s = true -> s = "" \/ isBlank s = false.
Proof.
  unfold keptOrEmpty. destruct s; simpl; [auto |].
  intros H. right. apply negb_true_iff in H. exact H.
Qed.

Lemma bool_text_not_blank (b : bool) : isBlank (bool_toString b) = false.
Proof. destruct b; reflexivity. Qed.

Lemma bool_text_read (b : bool) : String.eqb (bool_toString b) "true" = b.
Proof. destruct b; reflexivity. Qed.

Lemma bool_text_enabled (b : bool) : negb (String.eqb (bool_toString b) "false") = b.
Proof. destruct b; reflexivity. Qed.

Lemma baseKept_cases (e : BaseElement) :
  baseKept e = true ->
  truthy_string (guiClass e) = true /\ truthy_string (name e) = true /\
  testClass e = ElementType.to_string (type e).
Proof.
  unfold baseKept. intros H.
  apply andb_true_iff in H. destruct H as [H H3].
  apply andb_true_iff in H. destruct H as [H1 H2].
  apply String.eqb_eq in H3. auto.
Qed.

Arguments number_toString : simpl never.
Arguments parseInt : simpl never.
Arguments bool_toString : simpl never.

(** Splitting the conditions into equations to rewrite with. *)
Ltac split_conditions :=
  repeat match goal with
         | H : (_ && _) = true |- _ => apply andb_true_iff in H; destruct H
         | H : negb _ = true |- _ => apply negb_true_iff in H
         | H : keptOrEmpty ?s = true |- _ =>
             destruct (keptOrEmpty_cases _ H) as [-> | ?]; clear H
         | H : kept ?s = true |- _ => unfold kept in H
         | H : keptIfAny ?o = true |- _ => destruct o; cbn [keptIfAny] in H
         | H : baseKept _ = true |- _ =>
             apply baseKept_cases in H; cbn in H; destruct H as [? [? ?]]
         end;
  repeat match goal with
         | H : isBlank ?s = false |- _ =>
             lazymatch goal with
             | _ : truthy_string s = true |- _ => fail
             | _ => pose proof (not_blank_truthy _ H)
             end
         end.

Ltac rewrite_conditions :=
  repeat match goal with
         | H : isBlank _ = false |- _ => rewrite H
         | H : truthy_string _ = true |- _ => rewrite H
         | H : Z.eqb _ _ = false |- _ => rewrite H
         | H : includes _ _ = _ |- _ => rewrite H
         | H : truthy_number _ = _ |- _ => rewrite H
         | |- _ => rewrite bool_text_not_blank
         | |- _ => rewrite bool_text_read
         | |- _ => rewrite bool_text_enabled
         | |- _ => rewrite toString_not_blank
         | |- _ => rewrite toString_truthy
         | |- _ => rewrite toString_has_no_expression
         | |- _ => rewrite parseInt_toString by assumption
         end.

Ltac unfold_accessors :=
  unfold ret, attrOr, enabledOf, parseStringProp, parseIntProp, parseBoolProp,
    parseIntOrStringProp, parseCollectionProp, findStringProp, findBoolProp,
    parseLoopController, parseBodyData, parseHTTPArguments, parseHeaders,
    argumentElems, findBy, orString, orNumOrStr, orNumber, truthy, is_str, as_string.

Ltac reload := repeat (progress (cbn; unfold_accessors; cbn; rewrite_conditions)).

Lemma reload_beanShell (fresh : nat -> string) (e : BaseElement)
        (kids : M (list BaseElement)) (n : nat) :
  persistableBeanShell e = true ->
  reloadElement fresh e kids n = (Some (withIdAndChildren e (fresh n) []), S n).
Proof.
  destruct e as [i t tc g nm en c x ch]. unfold persistableBeanShell, reloadElement.
  cbn [type extra comments].
  destruct t; try discriminate; destruct x as [| | | | | | | f | | | |]; try discriminate.
  destruct c; [discriminate |]. destruct f as [q fn pa ri].
  cbn [query filename parameters]. intros H. split_conditions; subst tc.
  all: unfold serializeElement, withIdAndChildren; reload; reflexivity.
Qed.

Lemma reload_plain (fresh : nat -> string) (e : BaseElement)
        (kids : M (list BaseElement)) (n : nat) :
  persistablePlain e = true ->
  reloadElement fresh e kids n
  = if takesChildren (type e)
    then (Some (withIdAndChildren e (fresh n) (fst (kids (S n)))), snd (kids (S n)))
    else (Some (withIdAndChildren e (fresh n) []), S n).
Proof.
  destruct e as [i t tc g nm en c x ch]. unfold persistablePlain, reloadElement.
  cbn [type extra comments].
  destruct t; try discriminate; destruct x as [| | | | | | | | [|] [fn |] | | |]; try discriminate;
    (destruct c; [discriminate |]); intros H; split_conditions; subst tc;
    unfold serializeElement, withIdAndChildren; reload;
    try reflexivity.
  unfold parseTestAction. rewrite !bind_run. reload. destruct (kids (S n)); reflexivity.
Qed.

(** The serializers of these kinds read the attributes only: whatever else
    the element carries is not written. *)
Lemma reload_plain_kind (fresh : nat -> string) (e : BaseElement)
        (kids : M (list BaseElement)) (n : nat) :
  plainKind (type e) = true ->
  baseKept e = true ->
  reloadElement fresh e kids n
  = if takesChildren (type e)
    then (Some (withIdAndChildren (withoutFields e) (fresh n) (fst (kids (S n)))),
          snd (kids (S n)))
    else (Some (withIdAndChildren (withoutFields e) (fresh n) []), S n).
Proof.
  destruct e as [i t tc g nm en c x ch]. unfold reloadElement.
  cbn [type].
  destruct t; try discriminate; intros _ H; split_conditions; subst tc;
    unfold serializeElement, withIdAndChildren, withoutFields; reload;
    try reflexivity.
  unfold parseTestAction. rewrite !bind_run. reload. destruct (kids (S n)); reflexivity.
Qed.

Lemma withoutFields_fixed (e : BaseElement) :
  plainKind (type e) = true ->
  baseKept e = true ->
  (withoutFields e = e <-> persistablePlain e = true).
Proof.
  destruct e as [i t tc g nm en c x ch]. unfold withoutFields, persistablePlain.
  cbn [type extra comments id testClass guiClass name enabled children].
  intros Hk Hb. rewrite Hb. split.
  - intros H. injection H as Hc Hx. subst c x. destruct t; try discriminate Hk; reflexivity.
  - destruct t; try discriminate Hk;
      destruct x as [| | | | | | | | [|] [fn |] | | |]; try discriminate;
      destruct c; try discriminate; reflexivity.
Qed.

Lemma nonzero_cases (v : numOrStr) :
  nonzero v = true ->
  exists z, v = Int (Num z) /\ Z.eqb z 0 = false /\ printable z = true.
Proof.
  destruct v as [[| z | b] | s]; try discriminate. cbn [nonzero]. intros H.
  apply andb_true_iff in H. destruct H as [H Hp].
  exists z. split; [reflexivity |]. split; [apply negb_true_iff in H; exact H | exact Hp].
Qed.

Lemma reload_regexExtractor (fresh : nat -> string) (e : BaseElement)
        (kids : M (list BaseElement)) (n : nat) :
  persistableRegexExtractor e = true ->
  reloadElement fresh e kids n = (Some (withIdAndChildren e (fresh n) []), S n).
Proof.
  destruct e as [i t tc g nm en c x ch]. unfold persistableRegexExtractor, reloadElement.
  cbn [type extra comments].
  destruct t; try discriminate; destruct x as [| | | | f | | | | | | |]; try discriminate.
  destruct c; [discriminate |]. destruct f as [rn rx tp dv mn uh de sc].
  cbn [refName regex template defaultValue matchNumber scope]. intros H.
  repeat match goal with
         | H : (_ && _) = true |- _ => apply andb_true_iff in H; destruct H
         end.
  match goal with
  | H : nonzero mn = true |- _ =>
      destruct (nonzero_cases _ H) as [z [-> [Hz Hp]]]; clear H
  end.
  split_conditions; subst tc.
  all: unfold serializeElement, withIdAndChildren; reload; reflexivity.
Qed.

Lemma durable_cases (v : option numOrStr) :
  durable v = true ->
  v = None \/
  (exists z, v = Some (Int (Num z)) /\ Z.eqb z 0 = false /\ printable z = true) \/
  (exists s, v = Some (Str s) /\ isBlank s = false /\
             (includes s "${" = true \/
              (includes s "${" = false /\ truthy_number (parseInt s) = false))).
Proof.
  destruct v as [[[| z | b] | s] |]; cbn [durable]; intros H; try discriminate H.
  - right. left. exists z. apply andb_true_iff in H. destruct H as [H Hp].
    split; [reflexivity |]. split; [apply negb_true_iff in H; exact H | exact Hp].
  - right. right. exists s. apply andb_true_iff in H. destruct H as [Hb Hx].
    apply negb_true_iff in Hb. split; [reflexivity |]. split; [exact Hb |].
    destruct (includes s "${"); [left; reflexivity | right].
    split; [reflexivity |]. apply negb_true_iff. exact Hx.
  - left. reflexivity.
Qed.

Lemma durable_not_blank (d : numOrStr) :
  durable (Some d) = true -> isBlank (numOrStr_toString d) = false.
Proof.
  intros H. destruct (durable_cases _ H) as [H0 | [[z [H0 _]] | [s [H0 [Hb _]]]]];
    inversion H0; subst; cbn [numOrStr_toString].
  - apply toString_not_blank.
  - exact Hb.
Qed.

(** What [parseIntOrStringProp] makes of the text of a durable value. *)
Lemma durable_read (d : numOrStr) :
  durable (Some d) = true ->
  (if truthy_string (numOrStr_toString d) && includes (numOrStr_toString d) "${"
   then Some (Str (numOrStr_toString d))
   else if truthy_string (numOrStr_toString d)
        then Some (if truthy_number (parseInt (numOrStr_toString d))
                   then Int (parseInt (numOrStr_toString d))
                   else Str (numOrStr_toString d))
        else None)
  = Some d.
Proof.
  intros H. pose proof (not_blank_truthy _ (durable_not_blank _ H)) as Ht. rewrite Ht.
  destruct (durable_cases _ H) as [H0 | [[z [H0 [Hz Hq]]] | [s [H0 [Hb Hx]]]]];
    inversion H0; subst; cbn [numOrStr_toString] in *.
  - rewrite toString_has_no_expression, (parseInt_toString _ Hq). cbn. rewrite Hz.
    reflexivity.
  - destruct Hx as [Hx | [Hx Hp]]; rewrite Hx; [reflexivity |].
    cbn. rewrite Hp. reflexivity.
Qed.

Lemma nonzero_not_blank (v : numOrStr) :
  nonzero v = true -> isBlank (numOrStr_toString v) = false.
Proof.
  intros H. destruct (nonzero_cases _ H) as [z [-> Hz]]. apply toString_not_blank.
Qed.

Ltac split_durable v :=
  match goal with
  | H : durable v = true |- _ =>
      destruct (durable_cases _ H) as [-> | [[? [-> [? ?]]] | [? [-> [? [? | [? ?]]]]]]];
      clear H
  end.

(** The equations a value is known to satisfy, without looking into it. *)
Ltac note_texts :=
  repeat match goal with
         | H : nonzero ?v = true |- _ =>
             lazymatch goal with
             | _ : isBlank (numOrStr_toString v) = false |- _ => fail
             | _ => pose proof (nonzero_not_blank _ H)
             end
         | H : durable (Some ?d) = true |- _ =>
             lazymatch goal with
             | _ : isBlank (numOrStr_toString d) = false |- _ => fail
             | _ => pose proof (durable_not_blank _ H)
             end
         end.

(** Looking into the values, once the node has been read. *)
Ltac settle_values :=
  repeat match goal with
         | H : nonzero ?v = true |- _ =>
             let z := fresh "z" in
             let Hz := fresh "Hz" in
             destruct (nonzero_cases _ H) as [z [-> [Hz ?]]]; clear H
         | H : durable (Some ?d) = true |- _ =>
             let H0 := fresh "H" in
             destruct (durable_cases _ H)
               as [H0 | [[? [H0 [? ?]]] | [? [H0 [? [? | [? ?]]]]]]];
             inversion H0; subst; clear H H0
         | H : durable None = true |- _ => clear H
         end;
  repeat (progress (cbn [numOrStr_toString truthy_number truthy_numOrStr negb andb orb];
                    rewrite_conditions));
  try reflexivity.

(** The three thread group kinds are decoded by [parseThreadGroup]. *)
Lemma threadGroup_dispatch (fresh : nat -> string) (t : ElementType.t) (xml : node)
      (kids : M (list BaseElement)) :
  match t with
  | ElementType.ThreadGroup | ElementType.SetupThreadGroup | ElementType.PostThreadGroup =>
      True
  | _ => False
  end ->
  truthy_string (ElementType.to_string t) = true /\
  decoderFor fresh (ElementType.to_string t) xml kids
  = Some (parseThreadGroup fresh xml kids t).
Proof.
  destruct t; intros H; try contradiction; split; reflexivity.
Qed.

Ltac split_nonzero v :=
  match goal with
  | H : nonzero v = true |- _ =>
      let z := fresh "z" in
      let Hz := fresh "Hz" in
      destruct (nonzero_cases _ H) as [z [-> [Hz ?]]]; clear H
  end.

Lemma reload_threadGroup (fresh : nat -> string) (e : BaseElement)
        (kids : M (list BaseElement)) (n : nat) :
  persistableThreadGroup e = true ->
  reloadElement fresh e kids n
  = (Some (withIdAndChildren e (fresh n) (fst (kids (S n)))), snd (kids (S n))).
Proof.
  destruct e as [i t tc g nm en c x ch]. unfold persistableThreadGroup, reloadElement.
  cbn [type extra comments].
  assert (Ht : persistableThreadGroup (mkElement i t tc g nm en c x ch) = true ->
               match t with
               | ElementType.ThreadGroup | ElementType.SetupThreadGroup
               | ElementType.PostThreadGroup => True
               | _ => False
               end /\ exists f, x = ThreadGroupX f).
  { unfold persistableThreadGroup. cbn [type extra].
    destruct t; try discriminate; destruct x; try discriminate; eauto. }
  intros H.
  assert (H' : persistableThreadGroup (mkElement i t tc g nm en c x ch) = true).
  { unfold persistableThreadGroup. cbn [type extra comments]. exact H. }
  destruct (Ht H') as [Hk [f ->]]. clear Ht H'.
  assert (Hc : baseKept (mkElement i t tc g nm en c (ThreadGroupX f) ch)
               && keptIfAny c && nonzero (numThreads f) && nonzero (rampTime f)
               && durable (duration f) && durable (delay f) && kept (onSampleError f)
               && nonzero (loops (loopController f)) = true).
  { destruct t; try contradiction; exact H. }
  clear H.
  assert (Hs : serializeElement (mkElement i t tc g nm en c (ThreadGroupX f) ch)
               = serializeThreadGroup (mkElement i t tc g nm en c (ThreadGroupX f) ch)).
  { unfold serializeElement. cbn [type]. destruct t; try contradiction; reflexivity. }
  rewrite Hs. clear Hs.
  destruct f as [nt rt du dl sc su ose [lp cf]].
  cbn [numThreads rampTime duration delay onSampleError loopController loops] in Hc.
  repeat match goal with
         | H : (_ && _) = true |- _ => apply andb_true_iff in H; destruct H
         end.
  note_texts.
  destruct du as [du |]; destruct dl as [dl |]; note_texts;
    split_conditions; subst tc;
    destruct (threadGroup_dispatch fresh t) with (xml := NStr "") (kids := kids)
      as [Htt _]; try exact Hk.
  all: unfold serializeThreadGroup;
    cbn [type extra comments numThreads rampTime duration delay onSampleError
         loopController loops scheduler sameUserOnNextIteration continueForever elementAttrs
         guiClass testClass name enabled stringPropIf app];
    rewrite_conditions; cbn [app];
    cbn [xml2js fold_left assignOrPush fst snd xml_tag addProp propElem boolProp
         String.eqb Ascii.eqb Bool.eqb app isBlank isWhiteSpace];
    rewrite_conditions;
    match goal with
    | |- parseElement _ _ ?x _ _ = _ => set (node := x)
    end;
    unfold parseElement;
    replace (getStringValue (get node "testclass"))
      with (Some (NStr (ElementType.to_string t))) by (subst node; reflexivity);
    rewrite Htt, (proj2 (threadGroup_dispatch fresh t node kids Hk));
    unfold parseThreadGroup, withIdAndChildren; rewrite !bind_run;
    cbn [generateId fst snd ret];
    destruct (kids (S n)); cbn [fst snd type testClass guiClass name enabled comments extra].
  all: subst node; reload.
  all: settle_values.
Qed.

(* ================================================================= *)
(** ** Collections written and read back *)

Lemma xml2js_unfold (t : string) (attrs : list (string * string)) (text : string)
      (kids : list xml) :
  xml2js (XElem t attrs text kids)
  = objectOf attrs text (map (fun k => (xml_tag k, xml2js k)) kids).
Proof.
  unfold objectOf. cbn [xml2js].
  set (o := fold_left _ attrs []). clearbody o.
  replace (fold_left (fun o0 e => assignOrPush o0 (fst e) (snd e))
                     (map (fun k => (xml_tag k, xml2js k)) kids) o)
    with (fold_left (fun o0 k => assignOrPush o0 (xml_tag k) (xml2js k)) kids o);
    [reflexivity |].
  revert o. induction kids as [| k rest IH]; intros o; simpl; [reflexivity | apply IH].
Qed.

Lemma lookup_attrs (k : string) (attrs : list (string * string))
      (obj : list (string * list node)) :
  orEmpty (lookup k (fold_left (fun o kv => assignOrPush o (fst kv) (NStr (snd kv))) attrs obj))
  = orEmpty (lookup k obj)
    ++ map (fun kv => NStr (snd kv)) (filter (fun kv => String.eqb (fst kv) k) attrs).
Proof.
  revert obj. induction attrs as [| [a v] rest IH]; intros obj; simpl.
  - rewrite app_nil_r. reflexivity.
  - rewrite IH, lookup_assignOrPush. simpl.
    destruct (String.eqb a k); simpl.
    + rewrite <- app_assoc. reflexivity.
    + reflexivity.
Qed.

(** The entries under a key of a converted tag: the values of the
    attributes of that name, then the children of that name. *)
Lemma entries_under (k t text : string) (attrs : list (string * string)) (kids : list xml) :
  String.eqb k "_" = false ->
  items (get (xml2js (XElem t attrs text kids)) k)
  = map (fun kv => NStr (snd kv)) (filter (fun kv => String.eqb (fst kv) k) attrs)
    ++ map xml2js (filter (fun x => String.eqb (xml_tag x) k) kids).
Proof.
  intros Hk. cbn [xml2js].
  set (o := fold_left _ attrs []).
  pose proof (lookup_grouped k kids o) as H.
  unfold o in H at 2. rewrite lookup_attrs in H. simpl in H.
  destruct (fold_left _ kids o) as [| p obj] eqn:E.
  - simpl in H |- *. exact H.
  - unfold get. rewrite Hk. destruct (lookup k (p :: obj)); simpl in H |- *; exact H.
Qed.

Lemma filter_all {A : Type} (p : A -> bool) (l : list A) :
  Forall (fun x => p x = true) l -> filter p l = l.
Proof.
  induction 1 as [| x r Hx _ IH]; simpl; [reflexivity |]. rewrite Hx, IH. reflexivity.
Qed.

(** What the parser sees of a collection: its name, and its entries in
    order. *)
Lemma collection_facts (N kind : string) (kids : list xml) :
  String.eqb kind "_" = false ->
  String.eqb "name" kind = false ->
  Forall (fun x => String.eqb (xml_tag x) kind = true) kids ->
  getStringValue (get (xml2js (XElem "collectionProp" [("name", N)] "" kids)) "name")
  = Some (NStr N) /\
  items (get (xml2js (XElem "collectionProp" [("name", N)] "" kids)) kind)
  = map xml2js kids.
Proof.
  intros Hk Hn Hall. split.
  - pose proof (@entries_under "name" "collectionProp" "" [("name", N)] kids eq_refl) as H.
    remember (xml2js (XElem "collectionProp" [("name", N)] "" kids)) as c eqn:Ec.
    clear Ec. cbn in H.
    destruct (get c "name") as [| x | [| y r]]; cbn in H; try discriminate H.
    inversion H. reflexivity.
  - rewrite (@entries_under kind "collectionProp" "" [("name", N)] kids Hk).
    cbn [filter fst map]. rewrite Hn. cbn [map app].
    rewrite (filter_all _ Hall). reflexivity.
Qed.

Lemma header_read (h : Header.t) :
  headerKept h = true ->
  (let elem := xml2js (serializeHeader h) in
   let name := findStringProp elem "Header.name" in
   let value := findStringProp elem "Header.value" in
   if truthy_string (orString name "") || truthy_string (orString value "")
   then [Header.mk (orString name "") (orString value "")]
   else [])
  = [h].
Proof.
  destruct h as [hn hv]. unfold headerKept. cbn [Header.name Header.value]. intros H.
  apply andb_true_iff in H. destruct H as [H Ht].
  apply andb_true_iff in H. destruct H as [H1 H2].
  split_conditions; unfold serializeHeader; reload; try reflexivity; discriminate Ht.
Qed.

Lemma headers_read (headers : list Header.t) :
  forallb headerKept headers = true ->
  flat_map (fun elem =>
              let name := findStringProp elem "Header.name" in
              let value := findStringProp elem "Header.value" in
              if truthy_string (orString name "") || truthy_string (orString value "")
              then [Header.mk (orString name "") (orString value "")]
              else [])
           (map xml2js (map serializeHeader headers))
  = headers.
Proof.
  induction headers as [| h rest IH]; intros H; [reflexivity |].
  cbn [forallb] in H. apply andb_true_iff in H. destruct H as [Hh Hr].
  change (map xml2js (map serializeHeader (h :: rest)))
    with (xml2js (serializeHeader h) :: map xml2js (map serializeHeader rest)).
  match goal with
  | |- flat_map ?f (?x :: ?l) = _ => change (flat_map f (x :: l)) with (f x ++ flat_map f l)
  end.
  rewrite (IH Hr).
  pose proof (header_read h Hh) as Hd. cbv zeta in Hd. cbv beta zeta.
  rewrite Hd. reflexivity.
Qed.


Arguments parseHeaders : simpl never.
Arguments parseCollectionProp : simpl never.
Arguments parseHTTPArguments : simpl never.
Arguments parseBodyData : simpl never.

Lemma parseHeaders_read (xml coll : node) (headers : list Header.t) :
  findBy "name" xml "collectionProp" "HeaderManager.headers" = Some coll ->
  items (get coll "elementProp") = map xml2js (map serializeHeader headers) ->
  forallb headerKept headers = true ->
  parseHeaders xml = headers.
Proof.
  intros H1 H2 H3. unfold parseHeaders. rewrite H1, H2. apply headers_read. exact H3.
Qed.

Lemma reload_headerManager (fresh : nat -> string) (e : BaseElement)
        (kids : M (list BaseElement)) (n : nat) :
  persistableHeaderManager e = true ->
  reloadElement fresh e kids n = (Some (withIdAndChildren e (fresh n) []), S n).
Proof.
  destruct e as [i t tc g nm en c x ch]. unfold persistableHeaderManager, reloadElement.
  cbn [type extra comments].
  destruct t; try discriminate; destruct x as [| | | | | | hs | | | | |]; try discriminate.
  destruct c; [discriminate |]. intros H.
  apply andb_true_iff in H. destruct H as [H Hh].
  split_conditions; subst tc.
  unfold serializeElement, serializeHeaderManager, withIdAndChildren, elementAttrs.
  cbn [type extra comments stringPropIf app guiClass testClass name enabled].
  rewrite xml2js_unfold. cbn [map xml_tag].
  destruct (@collection_facts "HeaderManager.headers" "elementProp"
              (map serializeHeader hs) eq_refl eq_refl) as [Hname Hitems].
  { apply Forall_forall. intros y Hy. apply in_map_iff in Hy.
    destruct Hy as [h [<- _]]. reflexivity. }
  set (coll := xml2js (XElem "collectionProp" _ _ _)) in *. clearbody coll.
  unfold objectOf. cbn [fold_left assignOrPush fst snd String.eqb Ascii.eqb Bool.eqb app isBlank].
  match goal with |- parseElement _ _ ?x _ _ = _ => set (node := x) end.
  assert (Hp : parseHeaders node = hs).
  { apply (@parseHeaders_read node coll hs); [| exact Hitems | exact Hh].
    unfold findBy. subst node. cbn. rewrite Hname. reflexivity. }
  unfold parseElement.
  replace (getStringValue (get node "testclass")) with (Some (NStr "HeaderManager"))
    by (subst node; reflexivity).
  cbn [truthy_string decoderFor String.eqb Ascii.eqb Bool.eqb].
  unfold parseHeaderManager, leaf. rewrite !bind_run. cbn [generateId fst snd ret].
  rewrite Hp. subst node. unfold attrOr, enabledOf. reload. reflexivity.
Qed.

Lemma testString_read (str : string) :
  keptOrEmpty str = true ->
  orString (as_string (getStringValue
     (get (xml2js (propElem "stringProp" (substring0 10 str) str)) "_"))) "" = str.
Proof.
  intros H. split_conditions; unfold propElem; reload; reflexivity.
Qed.

Lemma testStrings_read (xml coll : node) (strs : list string) :
  findBy "name" xml "collectionProp" "Asserion.test_strings" = Some coll ->
  items (get coll "stringProp")
  = map xml2js (map (fun str => propElem "stringProp" (substring0 10 str) str) strs) ->
  forallb keptOrEmpty strs = true ->
  parseCollectionProp xml "Asserion.test_strings" = strs.
Proof.
  intros H1 H2 H3. unfold parseCollectionProp. rewrite H1, H2. clear H1 H2.
  induction strs as [| str rest IH]; [reflexivity |].
  cbn [forallb] in H3. apply andb_true_iff in H3. destruct H3 as [Hs Hr].
  cbn [map]. rewrite (@testString_read str Hs), (IH Hr). reflexivity.
Qed.

Lemma reload_responseAssertion (fresh : nat -> string) (e : BaseElement)
        (kids : M (list BaseElement)) (n : nat) :
  persistableResponseAssertion e = true ->
  reloadElement fresh e kids n = (Some (withIdAndChildren e (fresh n) []), S n).
Proof.
  destruct e as [i t tc g nm en c x ch]. unfold persistableResponseAssertion, reloadElement.
  cbn [type extra comments].
  destruct t; try discriminate; destruct x as [| | | | | f | | | | | |]; try discriminate.
  destruct c; [discriminate |]. destruct f as [tf tt ts asu cm].
  cbn [testField testType testStrings customMessage]. intros H.
  repeat match goal with
         | H : (_ && _) = true |- _ => apply andb_true_iff in H; destruct H
         end.
  destruct tt as [| z | b]; try discriminate.
  match goal with H : nonzeroIfAny _ = true |- _ =>
    cbn [nonzeroIfAny] in H; apply andb_true_iff in H; destruct H end.
  match goal with H : forallb _ ts = true |- _ => rename H into Hts end.
  split_conditions; subst tc.
  all: unfold serializeElement, serializeResponseAssertion, withIdAndChildren, elementAttrs;
    cbn [type extra comments stringPropIf app guiClass testClass name enabled
         testField testType testStrings customMessage assumeSuccess];
    rewrite_conditions; cbn [app];
    rewrite xml2js_unfold; cbn [map xml_tag];
    destruct (@collection_facts "Asserion.test_strings" "stringProp"
                (map (fun str => propElem "stringProp" (substring0 10 str) str) ts)
                eq_refl eq_refl) as [Hname Hitems];
    [ apply Forall_forall; intros y Hy; apply in_map_iff in Hy;
      destruct Hy as [h [<- _]]; reflexivity | ];
    set (coll := xml2js (XElem "collectionProp" _ _ _)) in *; clearbody coll;
    unfold objectOf;
    cbn [fold_left assignOrPush fst snd String.eqb Ascii.eqb Bool.eqb app isBlank
         xml2js propElem boolProp xml_tag isWhiteSpace];
    rewrite_conditions;
    match goal with |- parseElement _ _ ?x _ _ = _ => set (node := x) end;
    assert (Hp : parseCollectionProp node "Asserion.test_strings" = ts)
      by (apply (@testStrings_read node coll ts); [| exact Hitems | exact Hts];
          unfold findBy; subst node; cbn; rewrite Hname; reflexivity);
    unfold parseElement;
    replace (getStringValue (get node "testclass")) with (Some (NStr "ResponseAssertion"))
      by (subst node; reflexivity);
    cbn [truthy_string decoderFor String.eqb Ascii.eqb Bool.eqb];
    unfold parseResponseAssertion, leaf; rewrite !bind_run; cbn [generateId fst snd ret];
    rewrite Hp; subst node; unfold attrOr, enabledOf; reload; reflexivity.
Qed.

Lemma argument_read (a : HTTPArgument.t) :
  argumentKept a = true ->
  HTTPArgument.mk
    (orString (findStringProp (xml2js (serializeHTTPArgument a)) "Argument.name") "")
    (orString (findStringProp (xml2js (serializeHTTPArgument a)) "Argument.value") "")
    (orString (findStringProp (xml2js (serializeHTTPArgument a)) "Argument.metadata") "")
    (findBoolProp (xml2js (serializeHTTPArgument a)) "HTTPArgument.always_encode")
  = a /\
  findStringProp (xml2js (serializeHTTPArgument a)) "Argument.value"
  = if truthy_string (HTTPArgument.value a) then Some (HTTPArgument.value a) else None.
Proof.
  destruct a as [an av am ae]. unfold argumentKept.
  cbn [HTTPArgument.name HTTPArgument.value HTTPArgument.metadata]. intros H.
  apply andb_true_iff in H. destruct H as [H Hm].
  apply andb_true_iff in H. destruct H as [Hn Hv].
  apply negb_true_iff in Hn. destruct an; [| discriminate Hn]. clear Hn.
  split_conditions; unfold serializeHTTPArgument;
    cbn [HTTPArgument.name HTTPArgument.value HTTPArgument.metadata
         HTTPArgument.alwaysEncode];
    split; reload; reflexivity.
Qed.

Lemma arguments_read (xml argsProp coll : node) (args : list HTTPArgument.t) :
  findBy "name" xml "elementProp" "HTTPsampler.Arguments" = Some argsProp ->
  findBy "name" argsProp "collectionProp" "Arguments.arguments" = Some coll ->
  items (get coll "elementProp") = map xml2js (map serializeHTTPArgument args) ->
  forallb argumentKept args = true ->
  parseHTTPArguments xml = args /\ parseBodyData xml = bodyOf args.
Proof.
  intros H1 H2 H3 H4. unfold parseHTTPArguments, parseBodyData, argumentElems.
  rewrite H1, H2, H3. clear H1 H2 H3. split.
  - induction args as [| a rest IH]; [reflexivity |].
    cbn [forallb] in H4. apply andb_true_iff in H4. destruct H4 as [Ha Hr].
    cbn [map]. rewrite (proj1 (argument_read a Ha)), (IH Hr). reflexivity.
  - destruct args as [| a rest]; [reflexivity |].
    cbn [forallb] in H4. apply andb_true_iff in H4. destruct H4 as [Ha Hr].
    cbn [map bodyOf]. apply (proj2 (argument_read a Ha)).
Qed.

Lemma option_string_eqb_eq (a b : option string) :
  option_string_eqb a b = true -> a = b.
Proof.
  destruct a, b; cbn; intros H; try discriminate; [| reflexivity].
  apply String.eqb_eq in H. subst. reflexivity.
Qed.

Lemma nonzeroIfAny_cases (o : option number) :
  nonzeroIfAny o = true ->
  o = None \/ exists z, o = Some (Num z) /\ Z.eqb z 0 = false /\ printable z = true.
Proof.
  destruct o as [[| z | b] |]; cbn [nonzeroIfAny]; intros H; try discriminate;
    [right | left; reflexivity].
  apply andb_true_iff in H. destruct H as [H Hp].
  exists z. split; [reflexivity |]. split; [apply negb_true_iff in H; exact H | exact Hp].
Qed.

Lemma reload_httpSampler (fresh : nat -> string) (e : BaseElement)
        (kids : M (list BaseElement)) (n : nat) :
  persistableHTTPSampler e = true ->
  reloadElement fresh e kids n
  = (Some (withIdAndChildren e (fresh n) (fst (kids (S n)))), snd (kids (S n))).
Proof.
  destruct e as [i t tc g nm en c x ch]. unfold persistableHTTPSampler, reloadElement.
  cbn [type extra comments].
  destruct t; try discriminate; destruct x as [| | | f | | | | | | | |]; try discriminate.
  destruct f as [dm pt pr pa me fr ka pb bd args cp im].
  cbn [domain port protocol path method bodyData arguments concurrentPool implementation].
  intros H.
  repeat match goal with
         | H : (_ && _) = true |- _ => apply andb_true_iff in H; destruct H
         end.
  match goal with H : option_string_eqb _ _ = true |- _ =>
    apply option_string_eqb_eq in H; subst bd end.
  match goal with H : forallb _ args = true |- _ => rename H into Hargs end.
  repeat match goal with
         | H : nonzeroIfAny ?o = true |- _ =>
             destruct (nonzeroIfAny_cases _ H) as [-> | [? [-> [? ?]]]]; clear H
         end;
    split_conditions; subst tc.
  all: unfold serializeElement, serializeHTTPSampler, withIdAndChildren, elementAttrs;
    cbn [type extra comments stringPropIf intPropIf app guiClass testClass name enabled
         domain port protocol path method bodyData arguments concurrentPool implementation
         followRedirects useKeepAlive postBodyRaw truthy_number negb];
    rewrite_conditions;
    cbn [app negb];
    rewrite xml2js_unfold; cbn [map xml_tag];
    rewrite (xml2js_unfold "elementProp"); cbn [map xml_tag];
    destruct (@collection_facts "Arguments.arguments" "elementProp"
                (map serializeHTTPArgument args) eq_refl eq_refl) as [Hname Hitems];
    [ apply Forall_forall; intros y Hy; apply in_map_iff in Hy;
      destruct Hy as [h [<- _]]; reflexivity | ];
    set (coll := xml2js (XElem "collectionProp" _ _ _)) in *; clearbody coll;
    unfold objectOf;
    cbn [fold_left assignOrPush fst snd String.eqb Ascii.eqb Bool.eqb app isBlank
         xml2js propElem boolProp xml_tag isWhiteSpace];
    rewrite_conditions;
    match goal with |- parseElement _ _ ?x _ _ = _ => set (node := x) end;
    match goal with
    | node := NObj None ?ps |- _ =>
        match ps with
        | context [("elementProp", [?a])] =>
            assert (Hp : parseHTTPArguments node = args /\ parseBodyData node = bodyOf args)
              by (apply (@arguments_read node a coll args);
                  [ unfold findBy; subst node; reflexivity
                  | unfold findBy; cbn; rewrite Hname; reflexivity
                  | exact Hitems | exact Hargs ])
        end
    end;
    unfold parseElement;
    replace (getStringValue (get node "testclass")) with (Some (NStr "HTTPSamplerProxy"))
      by (subst node; reflexivity);
    cbn [truthy_string decoderFor String.eqb Ascii.eqb Bool.eqb];
    unfold parseHTTPSampler; rewrite !bind_run; cbn [generateId fst snd ret];
    rewrite (proj1 Hp), (proj2 Hp); subst node; unfold attrOr, enabledOf; reload;
    destruct (kids (S n)); reflexivity.
Qed.

(* ================================================================= *)
(** ** What every decoded tree satisfies *)

Section Invariants.

Variable fresh : nat -> string.

(** What [parseElement] returns: nothing, leaving the id supply alone, for
    an entry of no known kind; otherwise an element with the next id, whose
    children are the decoding of the container when its kind reads it. *)
Lemma parseElement_shape (tagName : string) (xml : node) (kids : M (list BaseElement))
      (n : nat) :
  (knownEntry xml = false /\ parseElement fresh tagName xml kids n = (None, n)) \/
  (knownEntry xml = true /\
   exists e st,
     parseElement fresh tagName xml kids n = (Some e, st) /\
     id e = fresh n /\ testClass e = entryClass xml /\
     handled (type e) = true /\ fieldsPresent e = true /\
     ((takesChildren (type e) = true /\ children e = fst (kids (S n)) /\
       st = snd (kids (S n))) \/
      (takesChildren (type e) = false /\ children e = [] /\ st = S n))).
Proof.
  unfold parseElement, knownEntry, entryClass.
  destruct (getStringValue (get xml "testclass")) as [[testClass | t ps] |];
    [| left; split; reflexivity | left; split; reflexivity].
  destruct testClass as [| c r]; [left; split; reflexivity |].
  cbn [truthy_string]. set (testClass := String c r). clearbody testClass.
  unfold decoderFor, knownKind, codecKinds. cbn [existsb].
  repeat match goal with
         | |- context [if String.eqb testClass ?k then _ else _] =>
             let E := fresh "E" in
             destruct (String.eqb testClass k) eqn:E;
             [ apply String.eqb_eq in E; rewrite E; right; split; [reflexivity |];
               unfold parseThreadGroup, parseHTTPSampler, parseTestAction,
                 parseRegexExtractor, parseResponseAssertion, parseHeaderManager,
                 parseArguments, parseJSR223Sampler, parseJSR223PostProcessor,
                 parseBeanShellAssertion, parseResultCollector,
                 parseConstantThroughputTimer, leaf;
               rewrite !bind_run; cbn [generateId fst snd ret];
               eexists; eexists; split; [reflexivity |];
               repeat (split; [reflexivity |]);
               first [ left; repeat split; reflexivity
                     | right; repeat split; reflexivity ]
             | ]
         end.
  left. split; reflexivity.
Qed.

Lemma idsDrawn_step (n a b : nat) (l1 l2 : list string) :
  S n <= a -> a <= b ->
  l1 = idsDrawn fresh (S n) a -> l2 = idsDrawn fresh a b ->
  fresh n :: l1 ++ l2 = idsDrawn fresh n b.
Proof.
  intros H1 H2 -> ->. unfold idsDrawn.
  replace (b - n) with (S ((a - S n) + (b - a))) by lia.
  cbn [seq map]. rewrite seq_app, map_app.
  replace (S n + (a - S n)) with a by lia. reflexivity.
Qed.

Lemma Inv_ret : Inv fresh (ret []).
Proof.
  intros n. cbn. unfold idsDrawn. rewrite Nat.sub_diag. auto.
Qed.

Lemma idsOf_unfold (e : BaseElement) : idsOf e = id e :: flat_map idsOf (children e).
Proof. destruct e; reflexivity. Qed.

Lemma sound_unfold (e : BaseElement) :
  sound e
  = handled (type e) && fieldsPresent e
    && (takesChildren (type e) || match children e with [] => true | _ => false end)
    && forallb sound (children e).
Proof. destruct e; reflexivity. Qed.

Lemma decodePairs_Inv (pairs : list (node * option node)) :
  (forall e c, In (e, c) pairs -> Inv fresh (childElementsOf fresh c)) ->
  Inv fresh (decodePairs fresh pairs).
Proof.
  induction pairs as [| [e c] rest IH]; intros Hc n.
  - apply Inv_ret.
  - cbn [decodePairs]. rewrite !bind_run, ret_run. cbn [fst snd].
    assert (Hk : Inv fresh (childElementsOf fresh c)) by (apply (Hc e c); left; reflexivity).
    assert (Hr : Inv fresh (decodePairs fresh rest)).
    { apply IH. intros e' c' Hin. apply (Hc e' c'). right. exact Hin. }
    destruct (parseElement_shape "" e (childElementsOf fresh c) n)
      as [[_ Hp] | [_ [x [st [Hp [Hid [_ [Hh [Hf Hch]]]]]]]]]; rewrite Hp; cbn [fst snd].
    + apply Hr.
    + destruct (Hr st) as [Hle [Hids Hs]].
      destruct (Hk (S n)) as [Hle' [Hids' Hs']].
      destruct Hch as [[Ht [Hx ->]] | [Ht [Hx ->]]].
      * split; [lia |]. split.
        -- change (flat_map idsOf (x :: fst (decodePairs fresh rest
                     (snd (childElementsOf fresh c (S n))))))
             with (idsOf x ++ flat_map idsOf (fst (decodePairs fresh rest
                     (snd (childElementsOf fresh c (S n)))))).
           rewrite idsOf_unfold, Hid, Hx. cbn [app].
           apply idsDrawn_step with (a := snd (childElementsOf fresh c (S n)));
             [exact Hle' | exact Hle | exact Hids' | exact Hids].
        -- cbn [forallb]. rewrite Hs, andb_true_r.
           rewrite sound_unfold, Hh, Hf, Ht, Hx, Hs'. reflexivity.
      * split; [lia |]. split.
        -- change (flat_map idsOf (x :: fst (decodePairs fresh rest (S n))))
             with (idsOf x ++ flat_map idsOf (fst (decodePairs fresh rest (S n)))).
           rewrite idsOf_unfold, Hid, Hx. cbn [flat_map app].
           apply idsDrawn_step with (a := S n) (l1 := []);
             [lia | exact Hle | unfold idsDrawn; rewrite Nat.sub_diag; reflexivity
             | exact Hids].
        -- cbn [forallb]. rewrite Hs, andb_true_r.
           rewrite sound_unfold, Hh, Hf, Ht, Hx. reflexivity.
Qed.

Lemma pairFrom_containers (i : nat) (es hs : list node) (e : node) (c : option node) :
  In (e, c) (pairFrom i es hs) -> c = None \/ exists h, c = Some h /\ In h hs.
Proof.
  revert i. induction es as [| x rest IH]; intros i Hin; [contradiction |].
  cbn [pairFrom] in Hin. destruct Hin as [Heq | Hin].
  - inversion Heq. destruct (nth_error hs i) as [h |] eqn:E; [right | left; reflexivity].
    exists h. split; [reflexivity |]. apply (nth_error_In _ _ E).
  - apply (IH (S i) Hin).
Qed.

Lemma hashTreesOf_entries (text : option string) (props : list (string * list node))
      (P : node -> Prop) :
  Forall (fun kv => Forall P (snd kv)) props ->
  Forall P (hashTreesOf (NObj text props)).
Proof.
  intros H. rewrite hashTreesOf_object.
  induction H as [| [k vs] rest Hk _ IH]; cbn [lookup orEmpty]; [constructor |].
  destruct (String.eqb k "hashTree"); [exact Hk | exact IH].
Qed.

(** Every container is decoded to sound trees, with one id per element,
    drawn in document order of the result. *)
Lemma parseHashTree_Inv (hashTree : node) : Inv fresh (parseHashTree fresh hashTree).
Proof.
  induction hashTree as [s | text props IH] using node_induction.
  - apply Inv_ret.
  - intros n. rewrite parseHashTree_pairs.
    apply decodePairs_Inv. intros e c Hin.
    destruct (@pairFrom_containers _ _ _ _ _ Hin) as [-> | [h [-> Hh]]].
    + apply Inv_ret.
    + cbn [childElementsOf].
      pose proof (@hashTreesOf_entries text props _ IH) as Hall.
      rewrite Forall_forall in Hall. apply Hall. exact Hh.
Qed.

Lemma sound_below (e x : BaseElement) :
  sound e = true -> In x (flatten e) -> sound x = true.
Proof.
  revert x. induction e as [e IH] using element_ind. intros x Hs Hin.
  destruct e as [i t tc g nm en cm ex ch]. cbn [flatten children] in Hin, IH.
  destruct Hin as [<- | Hin]; [exact Hs |].
  rewrite sound_unfold in Hs. cbn [children] in Hs.
  apply andb_true_iff in Hs. destruct Hs as [_ Hs].
  apply in_flat_map in Hin. destruct Hin as [c [Hc Hx]].
  rewrite Forall_forall in IH. apply (IH c Hc x); [| exact Hx].
  rewrite forallb_forall in Hs. apply Hs. exact Hc.
Qed.

(** (X14) Every element of every decoded tree is of a kind the serializer
    has a case for, carries the fields of its kind, and has children only if
    its kind reads its container. *)
Theorem decoded_trees_are_sound (hashTree : node) (n : nat) (e : BaseElement) :
  In e (flat_map flatten (fst (parseHashTree fresh hashTree n))) ->
  handled (type e) = true /\ fieldsPresent e = true /\
  (takesChildren (type e) = false -> children e = []).
Proof.
  intros Hin. apply in_flat_map in Hin. destruct Hin as [r [Hr He]].
  destruct (parseHashTree_Inv hashTree n) as [_ [_ Hs]].
  rewrite forallb_forall in Hs.
  pose proof (sound_below r e (Hs r Hr) He) as H.
  rewrite sound_unfold in H.
  apply andb_true_iff in H. destruct H as [H _].
  apply andb_true_iff in H. destruct H as [H Hc].
  apply andb_true_iff in H. destruct H as [Hh Hf].
  split; [exact Hh |]. split; [exact Hf |].
  intros Ht. rewrite Ht in Hc. cbn in Hc. destruct (children e); [reflexivity | discriminate].
Qed.

(** The elements a container decodes to are its entries of known kinds, in
    the order the parser visits them; the others leave no trace. *)
Lemma decodePairs_classes (pairs : list (node * option node)) (n : nat) :
  map testClass (fst (decodePairs fresh pairs n))
  = map entryClass (filter knownEntry (map fst pairs)).
Proof.
  revert n. induction pairs as [| [e c] rest IH]; intros n; [reflexivity |].
  cbn [decodePairs map fst filter]. rewrite !bind_run, ret_run. cbn [fst snd].
  destruct (parseElement_shape "" e (childElementsOf fresh c) n)
    as [[Hk Hp] | [Hk [x [st [Hp [_ [Hc _]]]]]]]; rewrite Hp, Hk; cbn [fst snd map].
  - apply IH.
  - rewrite Hc, IH. reflexivity.
Qed.

Lemma pairFrom_entries (i : nat) (es hs : list node) : map fst (pairFrom i es hs) = es.
Proof.
  revert i. induction es as [| e rest IH]; intros i; cbn; [reflexivity |].
  rewrite IH. reflexivity.
Qed.

(** (X13) A container decodes to one element for each of its entries of a
    known kind, in the order the parser visits them; entries of other kinds
    are left out and nothing else is added. *)
Theorem known_entries_are_kept (hashTree : node) (n : nat) :
  map testClass (fst (parseHashTree fresh hashTree n))
  = map entryClass (filter knownEntry (entriesOf hashTree)).
Proof.
  rewrite parseHashTree_pairs, decodePairs_classes, pairFrom_entries. reflexivity.
Qed.

Lemma child_Inv (c : option node) : Inv fresh (childElementsOf fresh c).
Proof.
  destruct c as [h |]; [apply parseHashTree_Inv | apply Inv_ret].
Qed.

(** What [parse] returns when it returns: the plan that [parseTestPlan]
    makes of the first [TestPlan] entry and the first container. *)
Lemma parse_returns (parsed : Parsed) (n : nat) (plan : JMeterTestPlan) :
  fst (parse fresh parsed n) = Returned plan ->
  exists xml c,
    testPlan plan = fst (parseTestPlan fresh xml c n) /\
    snd (parse fresh parsed n) = snd (parseTestPlan fresh xml c n).
Proof.
  unfold parse.
  destruct (negb (rootName parsed =? "jmeterTestPlan")); [discriminate |].
  destruct (get (rootObj parsed) "hashTree") as [| x | [| hashTree r]]; try discriminate.
  destruct (get hashTree "TestPlan") as [| x | [| testPlanXml r']]; try discriminate.
  destruct (get hashTree "hashTree") as [| x | hashTrees]; try discriminate.
  rewrite bind_run, ret_run. cbn [fst snd]. intros H. inversion H. subst plan.
  exists testPlanXml, (hd_error hashTrees). split; reflexivity.
Qed.

Lemma parseTestPlan_run (xml : node) (c : option node) (n : nat) :
  exists f,
    parseTestPlan fresh xml c n
    = ({| id := fresh n; type := ElementType.TestPlan; testClass := "TestPlan";
          guiClass := "TestPlanGui";
          name := name (fst (parseTestPlan fresh xml c n));
          enabled := true; comments := None; extra := TestPlanX f;
          children := fst (childElementsOf fresh c (S n)) |},
       snd (childElementsOf fresh c (S n))).
Proof.
  unfold parseTestPlan. rewrite !bind_run, ret_run. cbn [generateId fst snd name].
  eexists. reflexivity.
Qed.

(** The ids of a parsed plan are the draws from the supply, in the order
    of the tree, one for each element. *)
Lemma parse_ids (parsed : Parsed) (n : nat) (plan : JMeterTestPlan) :
  fst (parse fresh parsed n) = Returned plan ->
  idsOf (testPlan plan) = idsDrawn fresh n (snd (parse fresh parsed n)).
Proof.
  intros H. destruct (parse_returns parsed n H) as [xml [c [Ht Hs]]].
  rewrite Ht, Hs. destruct (parseTestPlan_run xml c n) as [f Hf]. rewrite Hf.
  cbn [fst snd idsOf id children].
  destruct (child_Inv c (S n)) as [Hle [Hids _]]. rewrite Hids.
  unfold idsDrawn.
  replace (snd (childElementsOf fresh c (S n)) - n)
    with (S (snd (childElementsOf fresh c (S n)) - S n)) by lia.
  reflexivity.
Qed.

Lemma NoDup_draws (l : list nat) :
  (forall a b, fresh a = fresh b -> a = b) -> NoDup l -> NoDup (map fresh l).
Proof.
  intros Hinj H. induction H as [| x r Hx _ IH]; cbn [map]; constructor; [| exact IH].
  intros Hin. apply in_map_iff in Hin. destruct Hin as [y [Hy Hin]].
  apply Hinj in Hy. subst y. contradiction.
Qed.

(** (X15) The ids of a parsed plan are the draws from the supply, in
    document order; with a supply that never repeats, no two elements of the
    plan share an id. *)
Theorem parsed_ids_are_distinct (parsed : Parsed) (n : nat) (plan : JMeterTestPlan) :
  (forall a b, fresh a = fresh b -> a = b) ->
  fst (parse fresh parsed n) = Returned plan ->
  idsOf (testPlan plan) = idsDrawn fresh n (snd (parse fresh parsed n))
  /\ NoDup (idsOf (testPlan plan)).
Proof.
  intros Hinj H. rewrite (parse_ids parsed n H). split; [reflexivity |].
  unfold idsDrawn. apply NoDup_draws; [exact Hinj | apply seq_NoDup].
Qed.

End Invariants.

(* ================================================================= *)
(** ** When the serializer throws *)

Lemma serializeElement_fields (e : BaseElement) :
  serializeElement e = TypeError <-> fieldsPresent e = false.
Proof.
  destruct e as [i t tc g nm en c x ch].
  unfold serializeElement, fieldsPresent. cbn [type extra].
  destruct t; destruct x; cbn; split; intros H; try reflexivity; discriminate H.
Qed.

Lemma collect_returns (steps : list (outcome (list xml))) :
  collect steps <> TypeError <-> Forall (fun s => s <> TypeError) steps.
Proof.
  induction steps as [| s rest IH]; cbn [collect].
  - split; [constructor | discriminate].
  - destruct s as [a |]; cbn [obind].
    + destruct (collect rest) as [b |]; cbn [obind]; split; intros H.
      * constructor; [discriminate | apply IH; discriminate].
      * discriminate.
      * exfalso. apply H. reflexivity.
      * inversion H as [| ? ? _ Hr]. apply IH in Hr. exfalso. apply Hr. reflexivity.
    + split; intros H; [exfalso; apply H; reflexivity |].
      inversion H as [| ? ? Hs _]. exfalso. apply Hs. reflexivity.
Qed.

Lemma serializeChild_returns (e : BaseElement) :
  serializeChild e <> TypeError <-> fieldsPresentDeep e = true.
Proof.
  induction e as [e IH] using element_ind.
  rewrite serializeChild_unfold.
  assert (Hd : fieldsPresentDeep e
               = fieldsPresent e && forallb fieldsPresentDeep (children e))
    by (destruct e; reflexivity).
  rewrite Hd. clear Hd.
  assert (Hc : serializeChildren (children e) <> TypeError
               <-> forallb fieldsPresentDeep (children e) = true).
  { unfold serializeChildren. rewrite collect_returns, forallb_forall, Forall_forall.
    rewrite Forall_forall in IH. split.
    - intros H c Hin. apply IH; [exact Hin |]. apply H. apply in_map. exact Hin.
    - intros H s Hin. apply in_map_iff in Hin. destruct Hin as [c [<- Hin]].
      apply IH; [exact Hin | apply H; exact Hin]. }
  pose proof (serializeElement_fields e) as He.
  destruct (serializeElement e) as [own |]; cbn [obind].
  - destruct (fieldsPresent e).
    + cbn [andb]. rewrite <- Hc.
      destruct (serializeChildren (children e)); cbn [obind]; split; intros H;
        try discriminate; try exact H.
    + destruct He as [_ He]. discriminate (He eq_refl).
  - destruct He as [He _]. rewrite (He eq_refl). cbn [andb].
    split; [intros H; exfalso; apply H; reflexivity | discriminate].
Qed.

Lemma forallb_flat_map {A B : Type} (p : B -> bool) (f : A -> list B) (l : list A) :
  forallb p (flat_map f l) = forallb (fun a => forallb p (f a)) l.
Proof.
  induction l as [| a r IH]; [reflexivity |].
  cbn [flat_map forallb]. rewrite forallb_app, IH. reflexivity.
Qed.

Lemma fieldsPresentDeep_flatten (e : BaseElement) :
  fieldsPresentDeep e = forallb fieldsPresent (flatten e).
Proof.
  induction e as [e IH] using element_ind.
  destruct e as [i t tc g nm en c x ch]. cbn [fieldsPresentDeep flatten children forallb] in *.
  f_equal. rewrite forallb_flat_map.
  induction IH as [| y r Hy _ IHr]; [reflexivity |].
  cbn [forallb]. rewrite Hy, IHr. reflexivity.
Qed.

Lemma serializeChildren_returns (l : list BaseElement) :
  serializeChildren l <> TypeError <-> forallb fieldsPresent (flat_map flatten l) = true.
Proof.
  unfold serializeChildren. rewrite collect_returns, forallb_flat_map, forallb_forall,
    Forall_forall.
  split.
  - intros H c Hin. rewrite <- fieldsPresentDeep_flatten. apply serializeChild_returns.
    apply H. apply in_map. exact Hin.
  - intros H s Hin. apply in_map_iff in Hin. destruct Hin as [c [<- Hin]].
    apply serializeChild_returns. rewrite fieldsPresentDeep_flatten. apply H. exact Hin.
Qed.

(** (X16) The serializer throws exactly when some element, at any depth,
    lacks the fields of its kind. *)
Theorem serializer_throws_on_missing_fields (children : list BaseElement) :
  serializeChildren children = TypeError
  <-> exists e, In e (flat_map flatten children) /\ fieldsPresent e = false.
Proof.
  pose proof (serializeChildren_returns children) as H.
  destruct (forallb fieldsPresent (flat_map flatten children)) eqn:E.
  - split.
    + intros Ht. exfalso. apply (proj2 H eq_refl). exact Ht.
    + intros [e [Hin He]]. rewrite forallb_forall in E. rewrite (E e Hin) in He.
      discriminate He.
  - split.
    + intros _. clear H.
      induction (flat_map flatten children) as [| x r IH]; [discriminate E |].
      cbn [forallb] in E. destruct (fieldsPresent x) eqn:Ex.
      * destruct (IH E) as [e [Hin He]]. exists e. split; [right; exact Hin | exact He].
      * exists x. split; [left; reflexivity | exact Ex].
    + intros _. destruct (serializeChildren children) as [out |]; [| reflexivity].
      assert (Hn : Returned out <> TypeError) by discriminate.
      apply H in Hn. discriminate Hn.
Qed.

(** The tag names the serializer puts into a container: for each child
    the tag of its kind, when the kind has a case, and then a container. *)
Lemma serializeElement_tags (e : BaseElement) (own : list xml) :
  serializeElement e = Returned own ->
  map xml_tag own = if handled (type e) then [ElementType.to_string (type e)] else [].
Proof.
  destruct e as [i t tc g nm en c x ch].
  unfold serializeElement. cbn [type].
  destruct t; cbn [handled];
    unfold serializeThreadGroup, serializeHTTPSampler, serializeRegexExtractor,
      serializeResponseAssertion, serializeHeaderManager, serializeBeanShellAssertion,
      serializeArguments, serializeJSR223Element, serializeResultCollector,
      serializeTestAction, serializeConstantThroughputTimer;
    cbn [extra type]; destruct x; intros H; inversion H; reflexivity.
Qed.

(** (X17) What [serializeChildren] appends, when it returns: for each child,
    in order, the tag of its kind when the serializer has a case for it, and
    then a container, whether or not a tag was written. *)
Theorem serialized_children_alternate (elements : list BaseElement) (out : list xml) :
  serializeChildren elements = Returned out ->
  map xml_tag out
  = flat_map (fun c => if handled (type c)
                       then [ElementType.to_string (type c); "hashTree"]
                       else ["hashTree"]) elements.
Proof.
  unfold serializeChildren. revert out.
  induction elements as [| c rest IH]; intros out H.
  - inversion H. reflexivity.
  - cbn [map collect flat_map] in *. rewrite serializeChild_unfold in H.
    destruct (serializeElement c) as [own |] eqn:Ho; [| discriminate H].
    cbn [obind] in H.
    destruct (serializeChildren (children c)) as [inner |];
      [| discriminate H].
    cbn [obind] in H.
    destruct (collect (map serializeChild rest)) as [more |]; [| discriminate H].
    cbn [obind] in H. inversion H. subst out.
    rewrite !map_app, (IH more eq_refl), (serializeElement_tags c Ho).
    destruct (handled (type c)); reflexivity.
Qed.

Section Composition.

Variable fresh : nat -> string.

Lemma sound_fields (e : BaseElement) : sound e = true -> fieldsPresentDeep e = true.
Proof.
  induction e as [e IH] using element_ind. rewrite sound_unfold. intros H.
  apply andb_true_iff in H. destruct H as [H Hc].
  apply andb_true_iff in H. destruct H as [H _].
  apply andb_true_iff in H. destruct H as [_ Hf].
  assert (Hd : fieldsPresentDeep e
               = fieldsPresent e && forallb fieldsPresentDeep (children e))
    by (destruct e; reflexivity).
  rewrite Hd, Hf. cbn [andb]. rewrite forallb_forall in *. rewrite Forall_forall in IH.
  intros c Hin. apply IH; [exact Hin | apply Hc; exact Hin].
Qed.

(** (X18) Whatever [parse] returns, [serialize] can write: it never throws
    on a parsed plan. *)
Theorem parsed_plan_serializes (parsed : Parsed) (n : nat) (plan : JMeterTestPlan) :
  fst (parse fresh parsed n) = Returned plan ->
  exists doc, serializeTree plan = Returned doc.
Proof.
  intros H. destruct (parse_returns fresh parsed n H) as [xml [c [Ht _]]].
  destruct (parseTestPlan_run fresh xml c n) as [f Hf]. rewrite Hf in Ht. cbn [fst] in Ht.
  unfold serializeTree, serializeTestPlan. rewrite Ht. cbn [extra children].
  destruct (child_Inv fresh c (S n)) as [_ [_ Hs]].
  assert (Hr : serializeChildren (fst (childElementsOf fresh c (S n))) <> TypeError).
  { unfold serializeChildren. apply collect_returns. rewrite Forall_forall.
    intros s Hin. apply in_map_iff in Hin. destruct Hin as [e [<- Hin]].
    apply serializeChild_returns, sound_fields.
    rewrite forallb_forall in Hs. apply Hs. exact Hin. }
  destruct (serializeChildren (fst (childElementsOf fresh c (S n)))) as [inner |];
    [| exfalso; apply Hr; reflexivity].
  cbn [obind]. eexists. reflexivity.
Qed.

End Composition.

(* ================================================================= *)
(** ** A written plan, read again *)

Lemma assignOrPush_pushUnder (obj : list (string * list node)) (k : string) (v : node) :
  assignOrPush obj k v = pushUnder obj k v.
Proof.
  induction obj as [| [k0 vs] rest IH]; [reflexivity |].
  cbn [assignOrPush pushUnder]. rewrite IH. reflexivity.
Qed.

Lemma pushUnder_map {A B : Type} (f : A -> B) (g : list (string * list A))
      (k : string) (x : A) :
  pushUnder (mapGroups f g) k (f x) = mapGroups f (pushUnder g k x).
Proof.
  induction g as [| [k0 xs] rest IH]; [reflexivity |].
  cbn [mapGroups map pushUnder fst snd].
  destruct (String.eqb k0 k).
  - cbn [map fst snd]. rewrite map_app. reflexivity.
  - cbn [map fst snd]. f_equal. exact IH.
Qed.

Lemma groups_map {A B : Type} (key : A -> string) (f : A -> B) (l : list A)
      (g : list (string * list A)) :
  fold_left (fun o x => pushUnder o (key x) (f x)) l (mapGroups f g)
  = mapGroups f (groupsOf key l g).
Proof.
  unfold groupsOf. revert g. induction l as [| x rest IH]; intros g; [reflexivity |].
  cbn [fold_left]. rewrite pushUnder_map. apply IH.
Qed.

Lemma pushUnder_filter {A : Type} (p : string -> bool) (g : list (string * list A))
      (k : string) (x : A) :
  filter (fun kv => p (fst kv)) (pushUnder g k x)
  = if p k then pushUnder (filter (fun kv => p (fst kv)) g) k x
    else filter (fun kv => p (fst kv)) g.
Proof.
  induction g as [| [k0 xs] rest IH].
  - cbn [pushUnder filter fst]. destruct (p k); reflexivity.
  - cbn [pushUnder filter fst].
    destruct (String.eqb_spec k0 k) as [-> | Hne].
    + cbn [filter fst]. destruct (p k); [| reflexivity].
      cbn [pushUnder]. rewrite String.eqb_refl. reflexivity.
    + cbn [filter fst]. rewrite IH. destruct (p k0), (p k); try reflexivity.
      cbn [pushUnder]. apply String.eqb_neq in Hne. rewrite Hne. reflexivity.
Qed.

Lemma groups_filter {A : Type} (key : A -> string) (p : string -> bool) (l : list A)
      (g : list (string * list A)) :
  filter (fun kv => p (fst kv)) (groupsOf key l g)
  = groupsOf key (filter (fun x => p (key x)) l) (filter (fun kv => p (fst kv)) g).
Proof.
  unfold groupsOf. revert g. induction l as [| x rest IH]; intros g; [reflexivity |].
  cbn [fold_left filter]. rewrite IH, pushUnder_filter.
  destruct (p (key x)); reflexivity.
Qed.

Lemma concat_mapGroups {A B : Type} (f : A -> B) (g : list (string * list A)) :
  concat (map snd (mapGroups f g)) = map f (concat (map snd g)).
Proof.
  induction g as [| [k xs] rest IH]; [reflexivity |].
  cbn [mapGroups map concat fst snd]. rewrite map_app. f_equal. exact IH.
Qed.

Lemma filter_mapGroups {A B : Type} (f : A -> B) (p : string -> bool)
      (g : list (string * list A)) :
  filter (fun kv => p (fst kv)) (mapGroups f g)
  = mapGroups f (filter (fun kv => p (fst kv)) g).
Proof.
  unfold mapGroups. induction g as [| [k xs] rest IH]; [reflexivity |].
  cbn [map filter fst snd]. destruct (p k); cbn [map fst snd]; rewrite IH; reflexivity.
Qed.

(** The entries of a container are its element tags, regrouped. *)
Lemma entriesOf_regrouped (tag text : string) (kids : list xml) :
  entriesOf (xml2js (XElem tag [] text kids))
  = map xml2js (regroup xml_tag (elementTags kids)).
Proof.
  cbn [xml2js fold_left].
  assert (E : fold_left (fun o k => assignOrPush o (xml_tag k) (xml2js k)) kids []
              = mapGroups xml2js (groupsOf xml_tag kids [])).
  { rewrite <- (groups_map xml_tag xml2js kids []).
    cbn [mapGroups map]. generalize (@nil (string * list node)).
    induction kids as [| x rest IH]; intros g; [reflexivity |].
    cbn [fold_left]. rewrite assignOrPush_pushUnder. apply IH. }
  rewrite E.
  assert (F : concat (map snd (elementKeys (mapGroups xml2js (groupsOf xml_tag kids []))))
              = map xml2js (regroup xml_tag (elementTags kids))).
  { unfold elementKeys, regroup, elementTags, isContainerTag.
    rewrite (filter_mapGroups xml2js (fun k => negb (String.eqb k "hashTree"))).
    rewrite (groups_filter xml_tag (fun k => negb (String.eqb k "hashTree"))).
    rewrite concat_mapGroups. reflexivity. }
  destruct (mapGroups xml2js (groupsOf xml_tag kids [])) as [| p obj] eqn:Eo.
  - cbn [entriesOf]. rewrite <- F. reflexivity.
  - cbn [entriesOf]. exact F.
Qed.

Lemma pushUnder_perm {A : Type} (g : list (string * list A)) (k : string) (x : A) :
  Permutation (concat (map snd (pushUnder g k x))) (concat (map snd g) ++ [x]).
Proof.
  induction g as [| [k0 xs] rest IH].
  - apply Permutation_refl.
  - cbn [pushUnder]. destruct (String.eqb k0 k); cbn [map concat snd].
    + rewrite <- !app_assoc. apply Permutation_app_head, Permutation_app_comm.
    + rewrite <- app_assoc. apply Permutation_app_head. exact IH.
Qed.

Lemma groups_perm {A : Type} (key : A -> string) (l : list A) (g : list (string * list A)) :
  Permutation (concat (map snd (groupsOf key l g))) (concat (map snd g) ++ l).
Proof.
  unfold groupsOf. revert g. induction l as [| x rest IH]; intros g.
  - rewrite app_nil_r. apply Permutation_refl.
  - cbn [fold_left]. eapply Permutation_trans; [apply IH |].
    change (x :: rest) with ([x] ++ rest). rewrite app_assoc.
    apply Permutation_app_tail, pushUnder_perm.
Qed.

(** Regrouping only reorders. *)
Lemma regroup_perm {A : Type} (key : A -> string) (l : list A) :
  Permutation (regroup key l) l.
Proof. apply (groups_perm key l []). Qed.

Lemma regroup_map {A B : Type} (key : A -> string) (key' : B -> string) (f : A -> B)
      (l : list A) :
  (forall x, key' (f x) = key x) ->
  regroup key' (map f l) = map f (regroup key l).
Proof.
  intros Hk. unfold regroup. rewrite <- concat_mapGroups, <- groups_map.
  f_equal. f_equal. unfold groupsOf. cbn [mapGroups map].
  generalize (@nil (string * list B)).
  induction l as [| x rest IH]; intros g; [reflexivity |].
  cbn [map fold_left]. rewrite Hk. apply IH.
Qed.

Lemma pairFrom_combine (es hs pre : list node) :
  length es <= length hs ->
  pairFrom (length pre) es (pre ++ hs)
  = map (fun p => (fst p, Some (snd p))) (combine es hs).
Proof.
  revert hs pre. induction es as [| e rest IH]; intros hs pre Hlen; [reflexivity |].
  destruct hs as [| h hs']; [cbn in Hlen; lia |].
  cbn [pairFrom combine map fst snd].
  rewrite nth_error_app2, Nat.sub_diag by lia. cbn [nth_error].
  f_equal.
  replace (S (length pre)) with (length (pre ++ [h])) by (rewrite length_app; cbn; lia).
  replace (pre ++ h :: hs') with ((pre ++ [h]) ++ hs') by (rewrite <- app_assoc; reflexivity).
  apply IH. cbn in Hlen. lia.
Qed.

(** Every tag written for an element bears the name of its kind. *)
Lemma tagOf_names (e : BaseElement) : Forall (fun t => xml_tag t = kindName e) (tagOf e).
Proof.
  unfold tagOf. destruct (serializeElement e) as [own |] eqn:E; [| constructor].
  pose proof (serializeElement_tags e E) as H. unfold kindName.
  destruct (handled (type e)).
  - destruct own as [| t [| t' r]]; try discriminate H.
    injection H as H. constructor; [exact H | constructor].
  - destruct own; [constructor | discriminate H].
Qed.

Lemma kindName_not_container (e : BaseElement) : String.eqb (kindName e) "hashTree" = false.
Proof. unfold kindName. destruct (type e); reflexivity. Qed.

Lemma written_elementTags (l : list BaseElement) :
  elementTags (flat_map (fun c => tagOf c ++ [containerOf c]) l) = flat_map tagOf l.
Proof.
  unfold elementTags. induction l as [| c rest IH]; [reflexivity |].
  cbn [flat_map]. rewrite !filter_app, IH. f_equal.
  assert (Hc : filter (fun k => negb (isContainerTag k)) [containerOf c] = []).
  { destruct c; reflexivity. }
  rewrite Hc, app_nil_r.
  pose proof (tagOf_names c) as H.
  induction H as [| t r Ht _ IHr]; [reflexivity |].
  cbn [filter]. unfold isContainerTag at 1. rewrite Ht, kindName_not_container.
  cbn [negb]. f_equal. exact IHr.
Qed.

Lemma written_containerTags (l : list BaseElement) :
  containerTags (flat_map (fun c => tagOf c ++ [containerOf c]) l) = map containerOf l.
Proof.
  unfold containerTags. induction l as [| c rest IH]; [reflexivity |].
  cbn [flat_map map]. rewrite !filter_app, IH.
  assert (Hc : filter isContainerTag [containerOf c] = [containerOf c]).
  { destruct c; reflexivity. }
  rewrite Hc.
  assert (Ht : filter isContainerTag (tagOf c) = []).
  { pose proof (tagOf_names c) as H.
    induction H as [| t r Ht _ IHr]; [reflexivity |].
    cbn [filter]. unfold isContainerTag at 1. rewrite Ht, kindName_not_container.
    exact IHr. }
  rewrite Ht. reflexivity.
Qed.

Section Reload.

Variable fresh : nat -> string.

(** Whatever its kind, a persistable element comes back with the next id,
    and with the decoding of its container when its kind reads it. *)
Lemma persistable_reloads (e : BaseElement) (kids : M (list BaseElement)) (n : nat) :
  persistable e = true ->
  reloadElement fresh e kids n
  = (Some (withIdAndChildren e (fresh n)
             (if takesChildren (type e) then fst (kids (S n)) else [])),
     if takesChildren (type e) then snd (kids (S n)) else S n).
Proof.
  unfold persistable. intros H.
  repeat match type of H with
         | (_ || _) = true => apply orb_true_iff in H; destruct H as [H | H]
         end.
  - rewrite (@reload_threadGroup fresh e kids n H).
    destruct e as [i t tc g nm en c x ch]. unfold persistableThreadGroup in H.
    cbn [type extra] in *. destruct t; try discriminate H; reflexivity.
  - rewrite (@reload_httpSampler fresh e kids n H).
    destruct e as [i t tc g nm en c x ch]. unfold persistableHTTPSampler in H.
    cbn [type extra] in *. destruct t; try discriminate H; reflexivity.
  - rewrite (@reload_regexExtractor fresh e kids n H).
    destruct e as [i t tc g nm en c x ch]. unfold persistableRegexExtractor in H.
    cbn [type extra] in *. destruct t; try discriminate H; reflexivity.
  - rewrite (@reload_responseAssertion fresh e kids n H).
    destruct e as [i t tc g nm en c x ch]. unfold persistableResponseAssertion in H.
    cbn [type extra] in *. destruct t; try discriminate H; reflexivity.
  - rewrite (@reload_headerManager fresh e kids n H).
    destruct e as [i t tc g nm en c x ch]. unfold persistableHeaderManager in H.
    cbn [type extra] in *. destruct t; try discriminate H; reflexivity.
  - rewrite (@reload_beanShell fresh e kids n H).
    destruct e as [i t tc g nm en c x ch]. unfold persistableBeanShell in H.
    cbn [type extra] in *. destruct t; try discriminate H; reflexivity.
  - rewrite (@reload_plain fresh e kids n H).
    destruct (takesChildren (type e)); reflexivity.
Qed.

Lemma persistable_tag (e : BaseElement) :
  persistable e = true -> exists t, serializeElement e = Returned [t].
Proof.
  intros H. pose proof (@persistable_reloads e (ret []) 0 H) as R.
  unfold reloadElement in R.
  destruct (serializeElement e) as [[| t [| t' r]] |]; try discriminate R.
  exists t. reflexivity.
Qed.

Lemma theTag_name (e : BaseElement) : xml_tag (theTag e) = kindName e.
Proof.
  unfold theTag. pose proof (tagOf_names e) as H.
  destruct H as [| t r Ht _]; [reflexivity | exact Ht].
Qed.

Lemma tags_of_persistable (l : list BaseElement) :
  Forall (fun e => persistable e = true) l -> flat_map tagOf l = map theTag l.
Proof.
  intros H. induction H as [| e r He _ IH]; [reflexivity |].
  cbn [flat_map map]. rewrite IH. destruct (persistable_tag e He) as [t Ht].
  unfold theTag, tagOf. rewrite Ht. reflexivity.
Qed.

Lemma persistableDeep_unfold (e : BaseElement) :
  persistableDeep e = persistable e && forallb persistableDeep (children e).
Proof. destruct e; reflexivity. Qed.

Lemma containerOf_unfold (e : BaseElement) :
  containerOf e
  = XElem "hashTree" [] "" (flat_map (fun c => tagOf c ++ [containerOf c]) (children e)).
Proof. destruct e; reflexivity. Qed.

Lemma attached_unfold (d : BaseElement) :
  attached d = graftAll (regroup kindName (children d)) (map attached (children d)).
Proof. destruct d; reflexivity. Qed.

Lemma eraseIds_graft (e : BaseElement) (i : string) (kids : list BaseElement) :
  eraseIds (withIdAndChildren e i kids) = withIdAndChildren e "" (map eraseIds kids).
Proof. reflexivity. Qed.

(** What [serializeChildren] writes for persistable trees: for each one its
    tag and its container. *)
Lemma serializeChildren_written (l : list BaseElement) :
  forallb persistableDeep l = true ->
  serializeChildren l = Returned (flat_map (fun c => tagOf c ++ [containerOf c]) l).
Proof.
  unfold serializeChildren.
  induction l as [| c rest IH]; [reflexivity |].
  cbn [forallb]. intros H. apply andb_true_iff in H. destruct H as [Hc Hr].
  cbn [map collect flat_map]. rewrite (IH Hr). clear IH Hr.
  assert (Hs : serializeChild c = Returned (tagOf c ++ [containerOf c])).
  { clear rest. induction c as [c IH] using element_ind.
    rewrite persistableDeep_unfold in Hc. apply andb_true_iff in Hc.
    destruct Hc as [Hp Hk].
    rewrite serializeChild_unfold, containerOf_unfold. unfold tagOf.
    destruct (persistable_tag c Hp) as [t Ht]. rewrite Ht. cbn [obind].
    assert (Hin : serializeChildren (children c)
                  = Returned (flat_map (fun c => tagOf c ++ [containerOf c]) (children c))).
    { unfold serializeChildren.
      induction IH as [| y r Hy _ IHr]; [reflexivity |].
      cbn [forallb] in Hk. apply andb_true_iff in Hk. destruct Hk as [Hy' Hr'].
      cbn [map collect flat_map]. rewrite (Hy Hy'), (IHr Hr'). reflexivity. }
    rewrite Hin. reflexivity. }
  rewrite Hs. reflexivity.
Qed.

(** Decoding the visited elements [E] against the containers written for
    [D], pair by pair. *)
Lemma decodePairs_grafts (E D : list BaseElement) :
  Forall (fun e => persistable e = true) E ->
  Forall (fun d => forall n,
            map eraseIds (fst (parseHashTree fresh (xml2js (containerOf d)) n))
            = attached d) D ->
  forall n,
    map eraseIds
        (fst (decodePairs fresh
                (map (fun p => (fst p, Some (snd p)))
                     (combine (map xml2js (flat_map tagOf E))
                              (map xml2js (map containerOf D)))) n))
    = graftAll E (map attached D).
Proof.
  intros HE. revert D. induction HE as [| e E' He _ IH]; intros D HD n; [reflexivity |].
  destruct (persistable_tag e He) as [t Ht].
  assert (Htag : tagOf e = [t]) by (unfold tagOf; rewrite Ht; reflexivity).
  cbn [flat_map]. rewrite Htag. cbn [app map].
  destruct HD as [| d D' Hd HD']; [reflexivity |].
  cbn [map combine fst snd decodePairs].
  rewrite !bind_run. cbn [childElementsOf].
  pose proof (@persistable_reloads e (parseHashTree fresh (xml2js (containerOf d))) n He)
    as R.
  unfold reloadElement in R. rewrite Ht in R.
  rewrite (parseElement_tagName fresh "" (xml_tag t)), R. clear R.
  cbn [fst snd]. rewrite ret_run. cbn [fst map].
  unfold graftAll. cbn [combine map fst snd]. f_equal.
  - rewrite eraseIds_graft. unfold graft. f_equal.
    destruct (takesChildren (type e)); [apply Hd | reflexivity].
  - apply (IH D' HD').
Qed.

(** The container written for [d], read again. *)
Lemma container_reloads (d : BaseElement) :
  forallb persistableDeep (children d) = true ->
  forall n,
    map eraseIds (fst (parseHashTree fresh (xml2js (containerOf d)) n)) = attached d.
Proof.
  induction d as [d IH] using element_ind. intros Hp n.
  rewrite containerOf_unfold, attached_unfold.
  rewrite parseHashTree_pairs, entriesOf_regrouped, hashTreesOf_xml2js.
  rewrite written_elementTags, written_containerTags.
  assert (Hall : Forall (fun e => persistable e = true) (children d)).
  { rewrite Forall_forall. intros c Hin. rewrite forallb_forall in Hp.
    pose proof (Hp c Hin) as Hc. rewrite persistableDeep_unfold in Hc.
    apply andb_true_iff in Hc. exact (proj1 Hc). }
  assert (Hre : Forall (fun e => persistable e = true) (regroup kindName (children d))).
  { rewrite Forall_forall in *. intros c Hin. apply Hall.
    apply (Permutation_in c (regroup_perm kindName (children d))). exact Hin. }
  rewrite (tags_of_persistable Hall), (regroup_map kindName xml_tag theTag _ theTag_name).
  rewrite <- (tags_of_persistable Hre).
  match goal with
  | |- context [pairFrom 0 ?es ?hs] =>
      change (pairFrom 0 es hs) with (pairFrom (length (@nil node)) es ([] ++ hs));
      rewrite (@pairFrom_combine es hs [])
  end.
  - apply decodePairs_grafts; [exact Hre |].
    rewrite Forall_forall in *. intros c Hin. apply (IH c Hin).
    rewrite forallb_forall in Hp. pose proof (Hp c Hin) as Hc.
    rewrite persistableDeep_unfold in Hc. apply andb_true_iff in Hc. exact (proj2 Hc).
  - rewrite (tags_of_persistable Hre), !length_map.
    rewrite (Permutation_length (regroup_perm kindName (children d))). apply Nat.le_refl.
Qed.

End Reload.

Lemma pushUnder_absent {A : Type} (g : list (string * list A)) (k : string) (x : A) :
  ~ In k (map fst g) -> pushUnder g k x = g ++ [(k, [x])].
Proof.
  induction g as [| [k0 xs] rest IH]; intros Hk; [reflexivity |].
  cbn [pushUnder app]. cbn [map fst In] in Hk.
  destruct (String.eqb_spec k0 k) as [-> | Hne]; [exfalso; apply Hk; left; reflexivity |].
  rewrite IH; [reflexivity |]. intros Hin. apply Hk. right. exact Hin.
Qed.

Lemma pushUnder_last {A : Type} (g : list (string * list A)) (k : string) (xs : list A)
      (x : A) :
  ~ In k (map fst g) -> pushUnder (g ++ [(k, xs)]) k x = g ++ [(k, xs ++ [x])].
Proof.
  induction g as [| [k0 ys] rest IH]; intros Hk.
  - cbn [app pushUnder]. rewrite String.eqb_refl. reflexivity.
  - cbn [pushUnder app]. cbn [map fst In] in Hk.
    destruct (String.eqb_spec k0 k) as [-> | Hne]; [exfalso; apply Hk; left; reflexivity |].
    rewrite IH; [reflexivity |]. intros Hin. apply Hk. right. exact Hin.
Qed.

Lemma concat_snoc {A : Type} (g : list (string * list A)) (k : string) (xs : list A) :
  concat (map snd (g ++ [(k, xs)])) = concat (map snd g) ++ xs.
Proof. rewrite map_app, concat_app. cbn [map concat snd]. rewrite app_nil_r. reflexivity. Qed.

(** Regrouping leaves in place what is already grouped; [gr] holds the
    groups made so far, the latest first. *)
Lemma groups_together {A : Type} (key : A -> string) (l : list A)
      (gr : list (string * list A)) :
  NoDup (map fst gr) ->
  together (map fst gr) (map key l) = true ->
  concat (map snd (groupsOf key l (rev gr))) = concat (map snd (rev gr)) ++ l.
Proof.
  unfold groupsOf. revert gr. induction l as [| x rest IH]; intros gr Hnd Ht.
  - rewrite app_nil_r. reflexivity.
  - cbn [fold_left map together] in *.
    assert (Hnew : ~ In (key x) (map fst gr) ->
                   together (key x :: map fst gr) (map key rest) = true ->
                   concat (map snd (fold_left (fun o y => pushUnder o (key y) y) rest
                                              (pushUnder (rev gr) (key x) x)))
                   = concat (map snd (rev gr)) ++ x :: rest).
    { intros Hk Hr. rewrite pushUnder_absent.
      - change (rev gr ++ [(key x, [x])]) with (rev ((key x, [x]) :: gr)).
        rewrite (IH ((key x, [x]) :: gr)).
        + cbn [rev]. rewrite concat_snoc, <- app_assoc. reflexivity.
        + cbn [map fst]. constructor; assumption.
        + exact Hr.
      - rewrite map_rev, <- in_rev. exact Hk. }
    destruct gr as [| [c xs] gr'].
    + apply Hnew; [intros [] | exact Ht].
    + cbn [map fst] in Ht. destruct (String.eqb_spec c (key x)) as [Hc | Hne].
      * subst c. cbn [rev]. inversion Hnd as [| ? ? Hnot Hnd']. subst.
        rewrite pushUnder_last by (rewrite map_rev, <- in_rev; exact Hnot).
        change (rev gr' ++ [(key x, xs ++ [x])]) with (rev ((key x, xs ++ [x]) :: gr')).
        rewrite (IH ((key x, xs ++ [x]) :: gr')).
        -- cbn [rev]. rewrite !concat_snoc, <- !app_assoc. reflexivity.
        -- exact Hnd.
        -- exact Ht.
      * apply andb_true_iff in Ht. destruct Ht as [Hs Hr].
        apply Hnew; [| exact Hr].
        apply negb_true_iff in Hs. intros Hin.
        assert (He : existsb (String.eqb (key x)) (map fst ((c, xs) :: gr')) = true).
        { apply existsb_exists. exists (key x). split; [exact Hin | apply String.eqb_refl]. }
        cbn [map fst] in He. rewrite He in Hs. discriminate Hs.
Qed.

Lemma regroup_together {A : Type} (key : A -> string) (l : list A) :
  together [] (map key l) = true -> regroup key l = l.
Proof.
  intros H. apply (@groups_together A key l [] (NoDup_nil _) H).
Qed.

Lemma settled_unfold (e : BaseElement) :
  settled e
  = (takesChildren (type e) || match children e with [] => true | _ => false end)
    && together [] (map kindName (children e))
    && forallb settled (children e).
Proof. destruct e; reflexivity. Qed.

Lemma eraseIds_unfold (e : BaseElement) :
  eraseIds e = withIdAndChildren e "" (map eraseIds (children e)).
Proof. destruct e; reflexivity. Qed.

(** For a settled tree, what its container decodes to is its children. *)
Lemma attached_settled (d : BaseElement) :
  together [] (map kindName (children d)) = true ->
  forallb settled (children d) = true ->
  attached d = map eraseIds (children d).
Proof.
  induction d as [d IH] using element_ind. intros Ht Hs.
  rewrite attached_unfold, (regroup_together kindName _ Ht). clear Ht.
  unfold graftAll.
  induction IH as [| c r Hc _ IHr]; [reflexivity |].
  cbn [forallb] in Hs. apply andb_true_iff in Hs. destruct Hs as [Hsc Hsr].
  cbn [map combine fst snd]. rewrite (IHr Hsr). f_equal.
  rewrite settled_unfold in Hsc.
  apply andb_true_iff in Hsc. destruct Hsc as [Hsc Hkids].
  apply andb_true_iff in Hsc. destruct Hsc as [Hleaf Hto].
  rewrite eraseIds_unfold. unfold graft. f_equal.
  destruct (takesChildren (type c)).
  - apply Hc; assumption.
  - cbn [orb] in Hleaf. destruct (children c); [reflexivity | discriminate Hleaf].
Qed.

Section Siblings.

Variable fresh : nat -> string.

(** What was written for the siblings [l], read again: the siblings come
    back in the order the parser visits them, the [i]-th visited with the
    children found in the container of the [i]-th written. *)
Lemma siblings_read (l : list BaseElement) (out : list xml) (n : nat) :
  forallb persistableDeep l = true ->
  serializeChildren l = Returned out ->
  map eraseIds (fst (parseHashTree fresh (xml2js (XElem "hashTree" [] "" out)) n))
  = graftAll (regroup kindName l) (map attached l).
Proof.
  intros Hp Hs. rewrite (serializeChildren_written fresh l Hp) in Hs.
  injection Hs as <-.
  set (d := mkElement "" ElementType.TestPlan "" "" "" true None NoExtra l).
  change (XElem "hashTree" [] "" (flat_map (fun c => tagOf c ++ [containerOf c]) l))
    with (containerOf d).
  change (graftAll (regroup kindName l) (map attached l)) with (attached d).
  apply container_reloads. exact Hp.
Qed.

(** (X8) What was written for the siblings [l], read again: the siblings
    come back in the order the parser visits them, grouped by kind, the
    [i]-th visited with the children found in the container of the [i]-th
    written. *)
Theorem siblings_are_regrouped (l : list BaseElement) (out : list xml) (n : nat) :
  forallb persistableDeep l = true ->
  serializeChildren l = Returned out ->
  map eraseIds (fst (parseHashTree fresh (xml2js (XElem "hashTree" [] "" out)) n))
  = graftAll (regroup kindName l) (map attached l).
Proof. exact (@siblings_read l out n). Qed.

(** Siblings written in the order they are read come back as they were,
    but for their ids. *)
Theorem settled_siblings_reload (l : list BaseElement) (out : list xml) (n : nat) :
  forallb persistableDeep l = true ->
  together [] (map kindName l) = true ->
  forallb settled l = true ->
  serializeChildren l = Returned out ->
  map eraseIds (fst (parseHashTree fresh (xml2js (XElem "hashTree" [] "" out)) n))
  = map eraseIds l.
Proof.
  intros Hp Ht Hs Ho. rewrite (@siblings_read l out n Hp Ho).
  set (d := mkElement "" ElementType.TestPlan "" "" "" true None NoExtra l).
  change (graftAll (regroup kindName l) (map attached l)) with (attached d).
  apply (attached_settled d); assumption.
Qed.

End Siblings.

Lemma variable_read (a : Argument.t) :
  variableKept a = true ->
  Argument.mk
    (orString (findStringProp (xml2js (serializeArgument a)) "Argument.name") "")
    (orString (findStringProp (xml2js (serializeArgument a)) "Argument.value") "")
    (findStringProp (xml2js (serializeArgument a)) "Argument.metadata")
  = a.
Proof.
  destruct a as [an av am]. unfold variableKept.
  cbn [Argument.name Argument.value Argument.metadata]. intros H.
  split_conditions; unfold serializeArgument;
    cbn [Argument.name Argument.value Argument.metadata stringPropIf];
    rewrite_conditions; reload; reflexivity.
Qed.

Lemma variables_read (xml argsProp coll : node) (args : list Argument.t) :
  findBy "name" xml "elementProp" "TestPlan.user_defined_variables" = Some argsProp ->
  findBy "name" argsProp "collectionProp" "Arguments.arguments" = Some coll ->
  items (get coll "elementProp") = map xml2js (map serializeArgument args) ->
  forallb variableKept args = true ->
  parseUserDefinedVariables xml = args.
Proof.
  intros H1 H2 H3 H4. unfold parseUserDefinedVariables, argumentElems.
  rewrite H1, H2, H3. clear H1 H2 H3.
  induction args as [| a rest IH]; [reflexivity |].
  cbn [forallb] in H4. apply andb_true_iff in H4. destruct H4 as [Ha Hr].
  cbn [map]. rewrite (variable_read a Ha), (IH Hr). reflexivity.
Qed.

Arguments parseUserDefinedVariables : simpl never.

Section Plan.

Variable fresh : nat -> string.

(** The root element, written and read again. *)
Lemma testPlan_reloads (e : BaseElement) (c : option node) (n : nat)
      (tp : xml) (rest : list xml) :
  persistableRoot e = true ->
  serializeTestPlan e = Returned (tp :: rest) ->
  parseTestPlan fresh (xml2js tp) c n
  = (withIdAndChildren e (fresh n) (fst (childElementsOf fresh c (S n))),
     snd (childElementsOf fresh c (S n))).
Proof.
  destruct e as [i t tc g nm en cm x ch]. unfold persistableRoot, serializeTestPlan.
  cbn [type extra comments testClass guiClass enabled children name].
  destruct t; try discriminate; destruct x as [| f | | | | | | | | | |]; try discriminate.
  destruct cm; [discriminate |]. destruct f as [fm stg vars].
  cbn [userDefinedVariables functionalMode serializeThreadGroups]. intros H Hs.
  repeat match goal with
         | H : (_ && _) = true |- _ => apply andb_true_iff in H; destruct H
         end.
  repeat match goal with
         | H : String.eqb _ _ = true |- _ => apply String.eqb_eq in H; subst
         end.
  destruct (serializeChildren ch) as [inner |]; [| discriminate Hs].
  cbn [obind] in Hs. injection Hs as <- _.
  rewrite xml2js_unfold; cbn [map xml_tag].
  rewrite (xml2js_unfold "elementProp"); cbn [map xml_tag].
  destruct (@collection_facts "Arguments.arguments" "elementProp"
              (map serializeArgument vars) eq_refl eq_refl) as [Hname Hitems].
  { apply Forall_forall. intros y Hy. apply in_map_iff in Hy.
    destruct Hy as [h [<- _]]. reflexivity. }
  set (coll := xml2js (XElem "collectionProp" _ _ _)) in *. clearbody coll.
  unfold objectOf.
  cbn [fold_left assignOrPush fst snd String.eqb Ascii.eqb Bool.eqb app isBlank
       xml2js propElem boolProp xml_tag isWhiteSpace].
  rewrite_conditions.
  match goal with |- parseTestPlan _ ?x _ _ = _ => set (node := x) end.
  match goal with
  | node := NObj None ?ps |- _ =>
      match ps with
      | context [("elementProp", [?a])] =>
          assert (Hp : parseUserDefinedVariables node = vars)
            by (apply (@variables_read node a coll vars);
                [ unfold findBy; subst node; reflexivity
                | unfold findBy; cbn; rewrite Hname; reflexivity
                | exact Hitems | assumption ])
      end
  end.
  unfold parseTestPlan. rewrite !bind_run. cbn [generateId fst snd ret].
  rewrite Hp. subst node. unfold withIdAndChildren.
  cbn [type testClass guiClass name enabled comments extra].
  destruct (childElementsOf fresh c (S n)) as [kids st]. cbn [fst snd].
  reload. destruct nm; reflexivity.
Qed.

Lemma serializeTestPlan_written (e : BaseElement) :
  persistableRoot e = true ->
  forallb persistableDeep (children e) = true ->
  exists tp, xml_tag tp = "TestPlan" /\ serializeTestPlan e = Returned [tp; containerOf e].
Proof.
  intros Hr Hp. unfold serializeTestPlan. unfold persistableRoot in Hr.
  destruct (type e); try discriminate Hr.
  destruct (extra e) as [| f | | | | | | | | | |]; try discriminate Hr.
  rewrite (serializeChildren_written fresh _ Hp), containerOf_unfold. cbn [obind].
  eexists. split; [| reflexivity]. reflexivity.
Qed.

Lemma containerOf_tag (e : BaseElement) : xml_tag (containerOf e) = "hashTree".
Proof. destruct e; reflexivity. Qed.

Lemma attrKept_cases (v : any) :
  attrKept v = true -> v = undefined \/ exists s, v = arr [NStr s].
Proof.
  destruct v as [| x | [| [s | t ps] [| y r]]]; cbn; intros H; try discriminate H.
  - left. reflexivity.
  - right. exists s. reflexivity.
Qed.

(** A persistable plan, written and read again: the root comes back, and
    below it what its container decodes to. *)
Lemma plan_read (plan : JMeterTestPlan) (doc : xml) (n : nat) :
  persistablePlan plan = true ->
  serializeTree plan = Returned doc ->
  exists plan',
    fst (parse fresh (parseStringPromise doc) n) = Returned plan'
    /\ eraseIdsPlan plan'
       = {| version := version plan; properties := properties plan;
            jmeter := jmeter plan;
            testPlan := withIdAndChildren (testPlan plan) "" (attached (testPlan plan)) |}.
Proof.
  destruct plan as [v p j root]. unfold persistablePlan, serializeTree.
  cbn [testPlan version properties jmeter]. intros H Hs.
  repeat match goal with
         | H : (_ && _) = true |- _ => apply andb_true_iff in H; destruct H
         end.
  match goal with H : persistableRoot _ = true |- _ => rename H into Hroot end.
  match goal with H : forallb _ _ = true |- _ => rename H into Hdeep end.
  destruct (serializeTestPlan_written root Hroot Hdeep) as [tp [Htag Htp]].
  rewrite Htp in Hs. cbn [obind] in Hs. injection Hs as <-.
  pose proof (@testPlan_reloads root (Some (xml2js (containerOf root))) n tp _ Hroot Htp)
    as Hread.
  cbn [childElementsOf] in Hread.
  pose proof (container_reloads fresh root Hdeep (S n)) as Hkids.
  unfold parseStringPromise, parse. cbn [rootName rootObj xml_tag negb String.eqb Ascii.eqb Bool.eqb].
  rewrite xml2js_unfold. cbn [map xml_tag].
  rewrite (xml2js_unfold "hashTree"). cbn [map xml_tag].
  rewrite Htag, containerOf_tag.
  set (T := xml2js tp) in *. set (C := xml2js (containerOf root)) in *.
  clearbody T C.
  repeat match goal with
         | H : attrKept ?a = true |- _ =>
             destruct (attrKept_cases _ H) as [-> | [? ->]]; clear H
         end.
  all: unfold objectOf;
    cbn [attrValue app map node_toString String.concat fold_left assignOrPush fst snd
         String.eqb Ascii.eqb Bool.eqb isBlank get lookup hd_error];
    rewrite ?bind_run, Hread; cbn [fst snd ret];
    eexists; (split; [reflexivity |]);
    unfold eraseIdsPlan; cbn [version properties jmeter testPlan];
    rewrite eraseIds_graft, Hkids; reflexivity.
Qed.

(** (X9) What [serialize] writes of a persistable plan whose trees are
    settled, [parse] reads back as it was, but for the ids. *)
Theorem settled_plan_reloads (plan : JMeterTestPlan) (doc : xml) (n : nat) :
  persistablePlan plan = true ->
  settledPlan plan = true ->
  serializeTree plan = Returned doc ->
  exists plan',
    fst (parse fresh (parseStringPromise doc) n) = Returned plan'
    /\ eraseIdsPlan plan' = eraseIdsPlan plan.
Proof.
  intros Hp Hs Hd. destruct (plan_read plan n Hp Hd) as [plan' [H1 H2]].
  exists plan'. split; [exact H1 |]. rewrite H2. unfold eraseIdsPlan. f_equal.
  unfold settledPlan in Hs.
  apply andb_true_iff in Hs. destruct Hs as [Hto Hkids].
  rewrite (attached_settled _ Hto Hkids), eraseIds_unfold. reflexivity.
Qed.

(** (X10) Written and read again, a persistable plan keeps its root; below
    it the siblings come back regrouped by kind, each with the children
    found in the container at its new position. *)
Theorem plan_reloads_regrouped (plan : JMeterTestPlan) (doc : xml) (n : nat) :
  persistablePlan plan = true ->
  serializeTree plan = Returned doc ->
  exists plan',
    fst (parse fresh (parseStringPromise doc) n) = Returned plan'
    /\ eraseIds (testPlan plan')
       = withIdAndChildren (testPlan plan) ""
           (graftAll (regroup kindName (children (testPlan plan)))
                     (map attached (children (testPlan plan)))).
Proof.
  intros Hp Hd. destruct (plan_read plan n Hp Hd) as [plan' [H1 H2]].
  exists plan'. split; [exact H1 |].
  apply (f_equal testPlan) in H2. cbn [testPlan eraseIdsPlan] in H2.
  rewrite H2, attached_unfold. reflexivity.
Qed.

End Plan.

(* ================================================================= *)
(** ** Editing and analysis *)

Lemma findElementById_cons (element : BaseElement) (rest : list BaseElement) (i : string) :
  findElementById (element :: rest) i
  = if String.eqb (id element) i then Some element
    else match findElementById (children element) i with
         | Some found => Some found
         | None => findElementById rest i
         end.
Proof. destruct element; reflexivity. Qed.

Lemma removeElementById_cons (element : BaseElement) (rest : list BaseElement)
      (i : string) :
  removeElementById (element :: rest) i
  = if String.eqb (id element) i then Some rest
    else match removeElementById (children element) i with
         | Some ch => Some (withChildren element ch :: rest)
         | None =>
             match removeElementById rest i with
             | Some rest' => Some (element :: rest')
             | None => None
             end
         end.
Proof. destruct element; reflexivity. Qed.

Lemma flatten_unfold (e : BaseElement) : flatten e = e :: flat_map flatten (children e).
Proof. destruct e; reflexivity. Qed.

(** Induction over a list of trees: the property holds of a list when it
    holds of the children of its head and of its tail. *)
Lemma forest_ind (P : list BaseElement -> Prop) :
  P [] ->
  (forall e rest, P (children e) -> P rest -> P (e :: rest)) ->
  forall l, P l.
Proof.
  intros Hnil Hcons.
  assert (H : forall e, P (children e)).
  { induction e as [e IH] using element_ind.
    induction IH as [| c r Hc _ IHr]; [exact Hnil | apply Hcons; assumption]. }
  induction l as [| e rest IH]; [exact Hnil | apply Hcons; [apply H | exact IH]].
Qed.

(** [findElementById] returns the first element, in document order, that
    bears the id. *)
Lemma findElementById_find (elements : list BaseElement)
        (i : string) :
  findElementById elements i
  = find (fun e => String.eqb (id e) i) (flat_map flatten elements).
Proof.
  induction elements as [| e rest IHc IHr] using forest_ind; [reflexivity |].
  rewrite findElementById_cons. cbn [flat_map]. rewrite flatten_unfold.
  cbn [app find]. destruct (String.eqb (id e) i); [reflexivity |].
  rewrite IHc, IHr.
  generalize (flat_map flatten (children e)) as a.
  generalize (flat_map flatten rest) as b.
  intros b a. induction a as [| x a IH]; [reflexivity |].
  cbn [app find]. destruct (String.eqb (id x) i); [reflexivity | exact IH].
Qed.

Lemma idsOf_flatten (e : BaseElement) : idsOf e = map id (flatten e).
Proof.
  induction e as [e IH] using element_ind.
  rewrite idsOf_unfold, flatten_unfold. cbn [map]. f_equal.
  induction IH as [| c r Hc _ IHr]; [reflexivity |].
  cbn [flat_map]. rewrite map_app, Hc, IHr. reflexivity.
Qed.

Lemma ids_flatten (l : list BaseElement) :
  flat_map idsOf l = map id (flat_map flatten l).
Proof.
  induction l as [| e r IH]; [reflexivity |].
  cbn [flat_map]. rewrite map_app, idsOf_flatten, IH. reflexivity.
Qed.

Lemma find_none_iff (elements : list BaseElement) (i : string) :
  findElementById elements i = None <-> ~ In i (flat_map idsOf elements).
Proof.
  rewrite findElementById_find, ids_flatten.
  generalize (flat_map flatten elements) as l. intros l.
  induction l as [| x r IH]; cbn [find map In].
  - split; [intros _ [] | reflexivity].
  - destruct (String.eqb_spec (id x) i) as [E | E].
    + split; [discriminate | intros H; exfalso; apply H; left; exact E].
    + rewrite IH. split.
      * intros H [H1 | H2]; [apply E; exact H1 | apply H; exact H2].
      * intros H H2. apply H. right. exact H2.
Qed.

Lemma remove_none_iff (elements : list BaseElement) (i : string) :
  removeElementById elements i = None <-> ~ In i (flat_map idsOf elements).
Proof.
  induction elements as [| e rest IHc IHr] using forest_ind.
  - split; [intros _ [] | reflexivity].
  - rewrite removeElementById_cons. cbn [flat_map]. rewrite idsOf_unfold.
    cbn [app In]. rewrite in_app_iff.
    destruct (String.eqb_spec (id e) i) as [E | E].
    + split; [discriminate | intros H; exfalso; apply H; left; exact E].
    + destruct (removeElementById (children e) i) as [ch |].
      * split; [discriminate |]. intros H. exfalso.
        assert (Hin : In i (flat_map idsOf (children e))).
        { destruct (in_dec string_dec i (flat_map idsOf (children e))) as [Hi | Hn];
            [exact Hi |]. apply IHc in Hn. discriminate Hn. }
        apply H. right. left. exact Hin.
      * assert (Hc : ~ In i (flat_map idsOf (children e))) by (apply IHc; reflexivity).
        destruct (removeElementById rest i) as [rest' |].
        -- split; [discriminate |]. intros H. exfalso.
           assert (Hin : In i (flat_map idsOf rest)).
           { destruct (in_dec string_dec i (flat_map idsOf rest)) as [Hi | Hn];
               [exact Hi |]. apply IHr in Hn. discriminate Hn. }
           apply H. right. right. exact Hin.
        -- assert (Hr : ~ In i (flat_map idsOf rest)) by (apply IHr; reflexivity).
           split; [| reflexivity]. intros _ [H | [H | H]]; auto.
Qed.

(** [removeElementById] takes out the element that [findElementById]
    finds, with all below it, and leaves every other id where it was. *)
Lemma removal_takes_out_the_found_subtree_aux (elements elements' : list BaseElement)
        (i : string) :
  removeElementById elements i = Some elements' ->
  exists before victim after,
    findElementById elements i = Some victim
    /\ id victim = i
    /\ ~ In i before
    /\ flat_map idsOf elements = before ++ idsOf victim ++ after
    /\ flat_map idsOf elements' = before ++ after.
Proof.
  revert elements'.
  induction elements as [| e rest IHc IHr] using forest_ind; intros elements' H.
  - discriminate H.
  - rewrite removeElementById_cons in H. rewrite findElementById_cons.
    destruct (String.eqb_spec (id e) i) as [E | E].
    + injection H as <-. exists [], e, (flat_map idsOf rest).
      repeat split; auto.
    + destruct (removeElementById (children e) i) as [ch |] eqn:Ec.
      * injection H as <-.
        destruct (IHc ch eq_refl) as [b [v [a [Hf [Hv [Hb [H1 H2]]]]]]].
        exists (id e :: b), v, (a ++ flat_map idsOf rest).
        rewrite Hf. repeat split; auto.
        -- intros [Hi | Hi]; [apply E; exact Hi | apply Hb; exact Hi].
        -- cbn [flat_map]. rewrite idsOf_unfold, H1. cbn [app].
           rewrite <- !app_assoc. reflexivity.
        -- cbn [flat_map]. rewrite idsOf_unfold. unfold withChildren.
           cbn [id children]. rewrite H2. cbn [app].
           rewrite <- !app_assoc. reflexivity.
      * destruct (removeElementById rest i) as [rest' |] eqn:Er; [| discriminate H].
        injection H as <-.
        destruct (IHr rest' eq_refl) as [b [v [a [Hf [Hv [Hb [H1 H2]]]]]]].
        assert (Hn : ~ In i (flat_map idsOf (children e))) by (apply remove_none_iff; exact Ec).
        exists (idsOf e ++ b), v, a.
        rewrite (proj2 (find_none_iff (children e) i) Hn), Hf.
        repeat split; auto.
        -- rewrite in_app_iff, idsOf_unfold. cbn [In].
           intros [[Hi | Hi] | Hi]; auto.
        -- cbn [flat_map]. rewrite H1, <- !app_assoc. reflexivity.
        -- cbn [flat_map]. rewrite H2, <- !app_assoc. reflexivity.
Qed.

(** (X19) [findElementById] returns the first element, in document order,
    that bears the id. *)
Theorem findElementById_returns_the_first (elements : list BaseElement) (i : string) :
  findElementById elements i
  = find (fun e => String.eqb (id e) i) (flat_map flatten elements).
Proof. exact (findElementById_find elements i). Qed.

Lemma NoDup_cut {A : Type} (b m a : list A) : NoDup (b ++ m ++ a) -> NoDup (b ++ a).
Proof.
  induction m as [| x m IH]; [intros H; exact H |].
  intros H. apply IH. cbn [app] in H. apply NoDup_remove_1 in H. exact H.
Qed.

(** (X21) Where no two elements share an id, a removed id is gone, and the
    ids left are still distinct. *)
Theorem removed_id_is_gone (elements elements' : list BaseElement) (i : string) :
  NoDup (flat_map idsOf elements) ->
  removeElementById elements i = Some elements' ->
  ~ In i (flat_map idsOf elements') /\ NoDup (flat_map idsOf elements')
  /\ findElementById elements' i = None.
Proof.
  intros Hnd H.
  destruct (removal_takes_out_the_found_subtree_aux elements i H)
    as [b [v [a [_ [Hv [Hb [H1 H2]]]]]]].
  rewrite H1 in Hnd. rewrite idsOf_unfold, Hv in Hnd.
  assert (Hgone : ~ In i (flat_map idsOf elements')).
  { rewrite H2, in_app_iff. intros [Hi | Hi]; [apply Hb; exact Hi |].
    apply NoDup_remove_2 in Hnd. apply Hnd.
    rewrite !in_app_iff. right. right. exact Hi. }
  split; [exact Hgone |]. split; [| apply find_none_iff; exact Hgone].
  rewrite H2. apply (NoDup_cut _ _ _ Hnd).
Qed.

(** (X20) Where no two elements share an id, [removeElementById] returns
    [false] exactly when no element bears the id; when it returns [true] it
    has taken out the element that [findElementById] finds, with all below
    it, and left every other id where it was. *)
Theorem removal_takes_out_the_found_subtree (elements : list BaseElement) (i : string) :
  NoDup (flat_map idsOf elements) ->
  match removeElementById elements i with
  | None => ~ In i (flat_map idsOf elements)
  | Some elements' =>
      exists before victim after,
        findElementById elements i = Some victim
        /\ id victim = i
        /\ ~ In i before
        /\ flat_map idsOf elements = before ++ idsOf victim ++ after
        /\ flat_map idsOf elements' = before ++ after
  end.
Proof.
  intros _.
  destruct (removeElementById elements i) as [elements' |] eqn:E.
  - apply (removal_takes_out_the_found_subtree_aux elements i E).
  - apply remove_none_iff. exact E.
Qed.

Section Stale.

Variable fresh : nat -> string.
Hypothesis fresh_never_repeats : forall a b, fresh a = fresh b -> a = b.

(** (X22) The ids a webview holds come from an earlier run of [parse]; the
    edit handlers parse the document again and search the new tree. With a
    supply that never repeats an id, the new tree bears none of the earlier
    ids: [findElementById] returns [null] and [removeElementById] returns
    [false] for each of them. *)
Theorem earlier_ids_are_not_found (shown edited : Parsed) (n m : nat)
        (before after : JMeterTestPlan) (i : string) :
  fst (parse fresh shown n) = Returned before ->
  snd (parse fresh shown n) <= m ->
  fst (parse fresh edited m) = Returned after ->
  In i (idsOf (testPlan before)) ->
  findElementById (searched after) i = None
  /\ removeElementById (searched after) i = None.
Proof.
  intros H1 Hle H2 Hin.
  assert (Hnot : ~ In i (flat_map idsOf (searched after))).
  { unfold searched. cbn [flat_map]. rewrite in_app_iff.
    assert (Hroot : ~ In i (idsOf (testPlan after))).
    { rewrite (parse_ids fresh edited m H2). rewrite (parse_ids fresh shown n H1) in Hin.
      unfold idsDrawn in *. intros Hi.
      apply in_map_iff in Hin. destruct Hin as [a [Ha Hina]].
      apply in_map_iff in Hi. destruct Hi as [b [Hb Hinb]].
      rewrite <- Hb in Ha. apply fresh_never_repeats in Ha. subst b.
      apply in_seq in Hina. apply in_seq in Hinb. lia. }
    intros [Hi | Hi]; [exact (Hroot Hi) |].
    apply Hroot. rewrite idsOf_unfold. right. exact Hi. }
  split; [apply find_none_iff | apply remove_none_iff]; exact Hnot.
Qed.

End Stale.

(* ----------------------------------------------------------------- *)
(** *** The analysis *)

Lemma walk_filter (pick : BaseElement -> bool) (l : list BaseElement) :
  walkAmong pick (walkBelow pick) l = filter pick (flat_map flatten l).
Proof.
  induction l as [| e rest IHc IHr] using forest_ind; [reflexivity |].
  assert (E : walkAmong pick (walkBelow pick) (e :: rest)
              = (if pick e then [e] else [])
                ++ walkAmong pick (walkBelow pick) (children e)
                ++ walkAmong pick (walkBelow pick) rest)
    by (destruct e; reflexivity).
  rewrite E, IHc, IHr. cbn [flat_map]. rewrite flatten_unfold. cbn [app filter].
  rewrite filter_app. destruct (pick e); reflexivity.
Qed.

Lemma flattenElements_flatten (l : list BaseElement) :
  flattenElements l = flat_map flatten l.
Proof.
  unfold flattenElements. rewrite walk_filter.
  induction (flat_map flatten l) as [| x r IH]; [reflexivity |].
  cbn [filter]. rewrite IH. reflexivity.
Qed.

Lemma finders_filter (elements : list BaseElement) (predicate : BaseElement -> bool) :
  findElementsByType elements predicate = filter predicate (flattenElements elements)
  /\ findAllSamplers elements = filter isSampler (flattenElements elements).
Proof.
  unfold findElementsByType, findAllSamplers.
  rewrite !walk_filter, flattenElements_flatten. split; reflexivity.
Qed.

(** (X23) What [findElementsByType] and [findAllSamplers] return is what
    [flattenElements] returns, filtered. *)
Theorem finders_filter_the_flattened_tree (elements : list BaseElement)
        (predicate : BaseElement -> bool) :
  findElementsByType elements predicate = filter predicate (flattenElements elements)
  /\ findAllSamplers elements = filter isSampler (flattenElements elements).
Proof. exact (finders_filter elements predicate). Qed.

Lemma gather_returns {A B : Type} (f : A -> outcome (list B)) (l : list A) :
  gather (map f l) <> TypeError <-> Forall (fun x => f x <> TypeError) l.
Proof.
  induction l as [| x r IH]; cbn [map gather].
  - split; [constructor | discriminate].
  - destruct (f x) as [a |] eqn:E.
    + destruct (gather (map f r)) as [b |].
      * split; [| discriminate]. intros _. constructor; [rewrite E; discriminate |].
        apply IH. discriminate.
      * split; [intros H; exfalso; apply H; reflexivity |].
        intros H. inversion H as [| ? ? _ Hr]. apply IH in Hr. exact Hr.
    + split; [intros H; exfalso; apply H; reflexivity |].
      intros H. inversion H as [| ? ? Hx _]. intros _. apply Hx. exact E.
Qed.

Lemma gather_result {A B : Type} (f : A -> outcome (list B)) (l : list A) (rs : list B) :
  gather (map f l) = Returned rs ->
  rs = flat_map (fun x => match f x with Returned a => a | TypeError => [] end) l.
Proof.
  revert rs. induction l as [| x r IH]; cbn [map gather flat_map]; intros rs H.
  - inversion H. reflexivity.
  - destruct (f x) as [a |]; [| discriminate H].
    destruct (gather (map f r)) as [b |]; [| discriminate H].
    inversion H. rewrite (IH b eq_refl). reflexivity.
Qed.

Lemma threadGroupFindings_returns (tg : BaseElement) :
  isThreadGroup tg = true ->
  (threadGroupFindings tg <> TypeError <-> analyzable tg = true).
Proof.
  unfold isThreadGroup, threadGroupFindings, analyzable.
  destruct (type tg); try discriminate; intros _;
    destruct (extra tg); cbn; split; try discriminate; try reflexivity;
    intros H; exfalso; apply H; reflexivity.
Qed.

Lemma samplerFindings_returns (s : BaseElement) :
  isSampler s = true ->
  (samplerFindings s <> TypeError <-> analyzable s = true).
Proof.
  unfold isSampler, samplerFindings, isHTTPSampler, analyzable.
  destruct (type s); try discriminate; intros _;
    destruct (extra s); cbn; split; try discriminate; try reflexivity;
    intros H; exfalso; apply H; reflexivity.
Qed.

Lemma analyzable_kinds (e : BaseElement) :
  analyzable e = false -> isThreadGroup e = true \/ isSampler e = true.
Proof.
  unfold analyzable, isThreadGroup, isSampler.
  destruct (type e); destruct (extra e); try discriminate; auto.
Qed.

Lemma analyze_throws_aux (plan : JMeterTestPlan) :
  analyze plan = TypeError
  <-> exists e, In e (flat_map flatten (children (testPlan plan)))
                /\ analyzable e = false.
Proof.
  unfold analyze, analyzeThreadGroups, analyzeSamplers.
  destruct (finders_filter (children (testPlan plan)) isThreadGroup) as [-> ->].
  rewrite flattenElements_flatten.
  set (flat := flat_map flatten (children (testPlan plan))).
  pose proof (gather_returns threadGroupFindings (filter isThreadGroup flat)) as Ht.
  pose proof (gather_returns samplerFindings (filter isSampler flat)) as Hs.
  rewrite Forall_forall in Ht, Hs.
  split.
  - intros H.
    destruct (forallb analyzable flat) eqn:E.
    + exfalso. rewrite forallb_forall in E.
      assert (H1 : gather (map threadGroupFindings (filter isThreadGroup flat)) <> TypeError).
      { apply Ht. intros x Hx. apply filter_In in Hx. destruct Hx as [Hin Hk].
        apply (threadGroupFindings_returns x Hk). apply E. exact Hin. }
      assert (H2 : gather (map samplerFindings (filter isSampler flat)) <> TypeError).
      { apply Hs. intros x Hx. apply filter_In in Hx. destruct Hx as [Hin Hk].
        apply (samplerFindings_returns x Hk). apply E. exact Hin. }
      destruct (gather (map threadGroupFindings _)); [| apply H1; reflexivity].
      destruct (gather (map samplerFindings _)); [discriminate H | apply H2; reflexivity].
    + clear - E. induction flat as [| x r IH]; [discriminate E |].
      cbn [forallb] in E. destruct (analyzable x) eqn:Ex.
      * destruct (IH E) as [e [Hin He]]. exists e. split; [right; exact Hin | exact He].
      * exists x. split; [left; reflexivity | exact Ex].
  - intros [e [Hin He]].
    destruct (analyzable_kinds e He) as [Hk | Hk].
    + assert (H1 : ~ gather (map threadGroupFindings (filter isThreadGroup flat))
                     <> TypeError).
      { intros H. pose proof (proj1 Ht H e) as Hx.
        assert (Hf : In e (filter isThreadGroup flat)) by (apply filter_In; auto).
        apply (threadGroupFindings_returns e Hk) in Hx; [| exact Hf] .
        rewrite Hx in He. discriminate He. }
      destruct (gather (map threadGroupFindings _)); [| reflexivity].
      exfalso. apply H1. discriminate.
    + assert (H2 : ~ gather (map samplerFindings (filter isSampler flat)) <> TypeError).
      { intros H. pose proof (proj1 Hs H e) as Hx.
        assert (Hf : In e (filter isSampler flat)) by (apply filter_In; auto).
        apply (samplerFindings_returns e Hk) in Hx; [| exact Hf].
        rewrite Hx in He. discriminate He. }
      destruct (gather (map threadGroupFindings _)); [| reflexivity].
      destruct (gather (map samplerFindings _)); [| reflexivity].
      exfalso. apply H2. discriminate.
Qed.

(** (X24) [analyze] throws exactly when some thread group or HTTP sampler,
    at any depth below the root, lacks the fields of its kind. *)
Theorem analyze_throws_on_missing_fields (plan : JMeterTestPlan) :
  analyze plan = TypeError
  <-> exists e, In e (flat_map flatten (children (testPlan plan)))
                /\ analyzable e = false.
Proof. exact (analyze_throws_aux plan). Qed.

Lemma fieldsPresent_analyzable (e : BaseElement) :
  fieldsPresent e = true -> analyzable e = true.
Proof.
  unfold fieldsPresent, analyzable. destruct (type e); destruct (extra e);
    try discriminate; reflexivity.
Qed.

Section AnalysisOfParsedPlans.

Variable fresh : nat -> string.

Lemma parsed_children_sound (parsed : Parsed) (n : nat) (plan : JMeterTestPlan) :
  fst (parse fresh parsed n) = Returned plan ->
  forall e, In e (flat_map flatten (children (testPlan plan))) -> sound e = true.
Proof.
  intros H e Hin. destruct (parse_returns fresh parsed n H) as [xml [c [Ht _]]].
  destruct (parseTestPlan_run fresh xml c n) as [f Hf]. rewrite Hf in Ht. cbn [fst] in Ht.
  rewrite Ht in Hin. cbn [children] in Hin.
  destruct (child_Inv fresh c (S n)) as [_ [_ Hs]].
  apply in_flat_map in Hin. destruct Hin as [top [Htop Hin]].
  rewrite forallb_forall in Hs. apply (sound_below top e (Hs top Htop) Hin).
Qed.

(** (X25) The analysis of a plan that [parse] returned never throws. *)
Theorem analysis_of_a_parsed_plan_returns (parsed : Parsed) (n : nat)
        (plan : JMeterTestPlan) :
  fst (parse fresh parsed n) = Returned plan ->
  exists findings, analyze plan = Returned findings.
Proof.
  intros H. destruct (analyze plan) as [findings |] eqn:E; [exists findings; reflexivity |].
  exfalso. apply analyze_throws_aux in E. destruct E as [e [Hin He]].
  pose proof (parsed_children_sound parsed n H e Hin) as Hs.
  rewrite sound_unfold in Hs.
  apply andb_true_iff in Hs. destruct Hs as [Hs _].
  apply andb_true_iff in Hs. destruct Hs as [Hs _].
  apply andb_true_iff in Hs. destruct Hs as [_ Hf].
  rewrite (fieldsPresent_analyzable e Hf) in He. discriminate He.
Qed.

End AnalysisOfParsedPlans.

Lemma no_errors_in (l : list BaseElement) (f : BaseElement -> list AnalysisResult.t) :
  (forall e, filter isError (f e) = []) -> filter isError (flat_map f l) = [].
Proof.
  intros H. induction l as [| e r IH]; [reflexivity |].
  cbn [flat_map]. rewrite filter_app, H, IH. reflexivity.
Qed.

Lemma threadGroup_no_errors (tg : BaseElement) :
  filter isError (match threadGroupFindings tg with Returned a => a | TypeError => [] end)
  = [].
Proof.
  unfold threadGroupFindings. destruct (extra tg); try reflexivity.
  rewrite !filter_app.
  repeat match goal with
         | |- context [if ?c then _ else _] => destruct c
         | |- context [match children tg with _ => _ end] => destruct (children tg)
         end; reflexivity.
Qed.

Lemma sampler_errors (s : BaseElement) :
  length (filter isError
            (match samplerFindings s with Returned a => a | TypeError => [] end))
  = if lacksDomain s then 1 else 0.
Proof.
  unfold samplerFindings, lacksDomain, isHTTPSampler.
  destruct (type s); try reflexivity.
  destruct (extra s); try reflexivity.
  rewrite !filter_app, !length_app.
  repeat match goal with
         | |- context [if ?c then _ else _] => destruct c
         end; reflexivity.
Qed.

Lemma lacksDomain_sampler (e : BaseElement) : lacksDomain e = true -> isSampler e = true.
Proof.
  unfold lacksDomain, isSampler. destruct (type e); try discriminate; reflexivity.
Qed.

Lemma security_no_errors (l : list BaseElement) :
  filter isError (flat_map securityFindings l) = [].
Proof.
  apply no_errors_in. intros e. unfold securityFindings. destruct (type e); reflexivity.
Qed.

Lemma structure_no_errors (elements : list BaseElement) :
  filter isError (analyzeStructure elements) = [].
Proof.
  unfold analyzeStructure. rewrite filter_app.
  destruct (Nat.ltb 5 _); destruct (Nat.ltb 3 _); reflexivity.
Qed.

Lemma sampler_errors_count (flat : list BaseElement) :
  length (filter isError
            (flat_map (fun x => match samplerFindings x with
                                | Returned a => a
                                | TypeError => []
                                end) (filter isSampler flat)))
  = length (filter lacksDomain flat).
Proof.
  induction flat as [| e r IH]; [reflexivity |].
  cbn [filter]. destruct (isSampler e) eqn:Es.
  - cbn [flat_map]. rewrite filter_app, length_app, sampler_errors, IH.
    destruct (lacksDomain e); reflexivity.
  - rewrite IH. destruct (lacksDomain e) eqn:El; [| reflexivity].
    apply lacksDomain_sampler in El. rewrite El in Es. discriminate Es.
Qed.

(** (X26) The findings of severity [error] are as many as the HTTP samplers,
    at any depth below the root, that have no domain. *)
Theorem errors_count_the_samplers_without_domain (plan : JMeterTestPlan)
        (findings : list AnalysisResult.t) :
  analyze plan = Returned findings ->
  length (filter isError findings)
  = length (filter lacksDomain (flattenElements (children (testPlan plan)))).
Proof.
  unfold analyze, analyzeThreadGroups, analyzeSamplers, analyzeSecurityIssues.
  destruct (finders_filter (children (testPlan plan)) isThreadGroup) as [-> ->].
  set (flat := flattenElements (children (testPlan plan))).
  destruct (gather (map threadGroupFindings _)) as [a |] eqn:Ea; [| discriminate].
  destruct (gather (map samplerFindings _)) as [b |] eqn:Eb; [| discriminate].
  intros H. injection H as <-.
  apply gather_result in Ea. apply gather_result in Eb. subst a b.
  rewrite !filter_app, !length_app.
  rewrite (no_errors_in _ _ threadGroup_no_errors), security_no_errors,
    structure_no_errors, sampler_errors_count.
  cbn [length]. rewrite !Nat.add_0_r.
  destruct (filter isThreadGroup flat); reflexivity.
Qed.

(* ================================================================= *)
(** ** Constructed elements and single properties *)

Section Created.

Variable fresh : nat -> string.

Lemma created_persistable (name refName : string) (n : nat) :
  truthy_string name = true ->
  keptOrEmpty refName = true ->
  Forall (fun e => persistable e = true /\ children e = [])
         [fst (createHTTPSampler fresh name n);
          fst (createThreadGroup fresh name n);
          fst (createRegexExtractor fresh name refName n);
          fst (createResponseAssertion fresh name n)].
Proof.
  intros Hn Hr.
  repeat constructor; unfold persistable;
    unfold persistableThreadGroup, persistableHTTPSampler, persistableRegexExtractor,
      persistableResponseAssertion, persistableHeaderManager, persistableBeanShell,
      persistablePlain, baseKept;
    cbn; rewrite ?Hn, ?Hr; reflexivity.
Qed.

(** (X11) An element built by one of the four constructors from a name that
    is not empty (and, for the extractor, a reference name that is empty or
    not blank), written by [serializeElement] and read again by
    [parseElement] next to an empty container, comes back as it was, but for
    its id. *)
Theorem created_elements_reload (name refName : string) (n m : nat) (e : BaseElement) :
  truthy_string name = true ->
  keptOrEmpty refName = true ->
  In e [fst (createHTTPSampler fresh name n);
        fst (createThreadGroup fresh name n);
        fst (createRegexExtractor fresh name refName n);
        fst (createResponseAssertion fresh name n)] ->
  option_map eraseIds (fst (reloadElement fresh e (ret []) m)) = Some (eraseIds e).
Proof.
  intros Hn Hr Hin.
  pose proof (created_persistable name refName n Hn Hr) as H.
  rewrite Forall_forall in H. destruct (H e Hin) as [Hp Hc].
  rewrite (@persistable_reloads fresh e (ret []) m Hp). cbn [fst option_map].
  rewrite eraseIds_graft, eraseIds_unfold, Hc. f_equal. f_equal.
  destruct (takesChildren (type e)); reflexivity.
Qed.

End Created.

(** (X12) An optional integer that a double holds and that is below 10^21
    in absolute value, written by [if (n) ... intProp] and read by
    [parseIntProp], comes back unless it is zero, which is not written. *)
Theorem optional_integer_survives_unless_zero (tag text name : string) (z : Z) :
  printable z = true ->
  parseIntProp (xml2js (XElem tag [] text (intPropIf name (Some (Num z))))) name
  = if Z.eqb z 0 then None else Some (Num z).
Proof.
  intros Hz.
  unfold intPropIf. cbn [truthy_number]. destruct (Z.eqb z 0) eqn:E; cbn [negb].
  - reflexivity.
  - unfold propElem. cbn [xml2js fold_left assignOrPush fst snd xml_tag].
    rewrite toString_not_blank.
    unfold parseIntProp, findBy. cbn [get String.eqb Ascii.eqb Bool.eqb lookup items find
      getStringValue is_str].
    rewrite String.eqb_refl. cbn [get String.eqb Ascii.eqb Bool.eqb getStringValue truthy
      as_string option_map].
    rewrite toString_truthy, (parseInt_toString _ Hz). reflexivity.
Qed.

(* ================================================================= *)
(** ** Results of a run *)

Lemma recent_results_fold {A : Type} (stored added : list A) :
  length stored <= 10 ->
  fold_left addRecentResult added stored = firstn 10 (rev added ++ stored).
Proof.
  revert stored. induction added as [| r rest IH]; intros stored Hlen.
  - cbn [fold_left rev app]. rewrite firstn_all2; [reflexivity | exact Hlen].
  - cbn [fold_left rev]. rewrite <- app_assoc. cbn [app].
    assert (Hadd : addRecentResult stored r = firstn 10 (r :: stored)).
    { unfold addRecentResult. destruct (Nat.ltb_spec 10 (length (r :: stored))) as [H | H].
      - reflexivity.
      - rewrite firstn_all2; [reflexivity | exact H]. }
    rewrite IH.
    + rewrite Hadd. clear.
      rewrite !firstn_app.
      destruct (Nat.le_gt_cases 10 (length (rev rest))) as [H | H].
      * replace (10 - length (rev rest)) with 0 by lia. reflexivity.
      * f_equal. rewrite firstn_firstn. f_equal. lia.
    + rewrite Hadd, length_firstn. lia.
Qed.

(** (X27) Once [addRecentResult] has been called, the list holds the ten
    latest of what it held and what was added, the newest first. *)
Theorem recent_results_are_the_ten_latest {A : Type} (stored added : list A) (first : A) :
  fold_left addRecentResult (first :: added) stored
  = firstn 10 (rev added ++ first :: stored).
Proof.
  cbn [fold_left].
  assert (Hadd : addRecentResult stored first = firstn 10 (first :: stored)).
  { unfold addRecentResult.
    destruct (Nat.ltb_spec 10 (length (first :: stored))) as [H | H].
    - reflexivity.
    - rewrite firstn_all2; [reflexivity | exact H]. }
  rewrite recent_results_fold by (rewrite Hadd, length_firstn; lia).
  rewrite Hadd, !firstn_app.
  destruct (Nat.le_gt_cases 10 (length (rev added))) as [H | H].
  - replace (10 - length (rev added)) with 0 by lia. reflexivity.
  - f_equal. rewrite firstn_firstn. f_equal. lia.
Qed.

Lemma prefix_empty (t : string) : String.prefix t "" = true -> t = "".
Proof. destruct t; [reflexivity | discriminate]. Qed.

(** What starts the first piece starts the string. *)
Lemma prefix_of_first_piece (c : ascii) (s t : string) :
  String.prefix t (hd "" (split c s)) = true -> String.prefix t s = true.
Proof.
  revert t. induction s as [| a r IH]; intros t H; [exact H |].
  cbn [split] in H. destruct (Ascii.eqb a c).
  - cbn [hd] in H. apply prefix_empty in H. subst t. reflexivity.
  - destruct t as [| b t']; [reflexivity |].
    specialize (IH t').
    destruct (split c r) as [| piece pieces]; cbn [hd] in *.
    + cbn [String.prefix] in *. destruct (ascii_dec b a); [| discriminate H].
      apply IH. apply prefix_empty in H. subst t'. reflexivity.
    + cbn [String.prefix] in *. destruct (ascii_dec b a); [| discriminate H].
      apply IH. exact H.
Qed.

(** What starts a piece occurs in the string. *)
Lemma piece_start_included (c : ascii) (s l t : string) :
  In l (split c s) -> String.prefix t l = true -> includes s t = true.
Proof.
  induction s as [| a r IH]; intros Hin Hp.
  - cbn [split In] in Hin. destruct Hin as [<- | []].
    cbn [includes]. rewrite Hp. reflexivity.
  - cbn [includes]. apply orb_true_iff.
    cbn [split] in Hin. destruct (Ascii.eqb a c) eqn:E.
    + destruct Hin as [<- | Hin].
      * left. apply prefix_empty in Hp. subst t. reflexivity.
      * right. apply IH; assumption.
    + pose proof (@prefix_of_first_piece c r) as Hf.
      destruct (split c r) as [| piece pieces].
      * destruct Hin as [<- | []]. left.
        destruct t as [| b t']; [reflexivity |].
        cbn [String.prefix] in *. destruct (ascii_dec b a); [| discriminate Hp].
        apply Hf. cbn [hd]. exact Hp.
      * destruct Hin as [<- | Hin].
        -- left. destruct t as [| b t']; [reflexivity |].
           cbn [String.prefix] in *. destruct (ascii_dec b a); [| discriminate Hp].
           apply Hf. cbn [hd]. exact Hp.
        -- right. apply IH; [right; exact Hin | exact Hp].
Qed.

Lemma filter_agree {A : Type} (f g : A -> bool) (l : list A) :
  (forall x, In x l -> f x = g x) -> filter f l = filter g l.
Proof.
  induction l as [| x l IH]; intros H; [reflexivity |].
  cbn [filter]. rewrite (H x (or_introl eq_refl)), IH; [reflexivity |].
  intros y Hy. apply H. right. exact Hy.
Qed.

Section Counts.

Variable xmlTotals : string -> Totals.

(** (X28) Of a file that does not hold ["<?xml"], [parseJTLFinal] never
    reports more errors than samples, and fewer samples than the file has
    lines that are not blank. *)
Theorem errors_never_exceed_samples (content : string) :
  includes content "<?xml" = false ->
  errors (parseJTLFinal xmlTotals (Some content))
  <= totalSamples (parseJTLFinal xmlTotals (Some content))
  /\ totalSamples (parseJTLFinal xmlTotals (Some content))
     <= length (resultLines content) - 1.
Proof.
  intros H. unfold parseJTLFinal. rewrite H. unfold countLines.
  destruct (Nat.ltb (length (resultLines content)) 2); cbn [errors totalSamples].
  - lia.
  - split; [apply filter_length_le |].
    eapply Nat.le_trans; [apply filter_length_le |]. rewrite length_skipn. lia.
Qed.

(** (X29) Of any file that does not hold ["<?xml"], the first line that is
    not blank is never counted, whatever it holds: the samples reported are
    the lines with a comma among the lines that are not blank and come
    after the first of them, and the errors those whose eighth field is
    [false].  The test [startsWith('<?xml')] removes no line of such a
    file. *)
Theorem first_line_is_never_counted (content : string) :
  includes content "<?xml" = false ->
  parseJTLFinal xmlTotals (Some content)
  = let lines := filter (fun l => negb (trimsToEmpty l)) (split newline content) in
    let samples := filter (fun l => includes l ",") (tl lines) in
    mkTotals (length samples) (length (filter failed samples)).
Proof.
  intros Hx. unfold parseJTLFinal. rewrite Hx. unfold countLines, resultLines.
  assert (Hkeep : filter (fun l => negb (trimsToEmpty l) && negb (String.prefix "<?xml" l))
                         (split newline content)
                  = filter (fun l => negb (trimsToEmpty l)) (split newline content)).
  { apply filter_agree. intros l Hin.
    destruct (String.prefix "<?xml" l) eqn:Hp; [| apply andb_true_r].
    rewrite (piece_start_included _ _ _ _ Hin Hp) in Hx. discriminate Hx. }
  rewrite Hkeep. cbv zeta.
  destruct (filter (fun l => negb (trimsToEmpty l)) (split newline content))
    as [| first [| second rest]]; reflexivity.
Qed.

End Counts.

(* ================================================================= *)
(** ** The second save *)

Lemma pushUnder_keys {A : Type} (g : list (string * list A)) (k : string) (x : A) :
  forall k', In k' (map fst (pushUnder g k x)) <-> k' = k \/ In k' (map fst g).
Proof.
  intros k'. induction g as [| [k0 xs] rest IH]; cbn [pushUnder map fst In].
  - split; [intros [H | []]; left; symmetry; exact H | intros [H | []]; left; symmetry; exact H].
  - destruct (String.eqb_spec k0 k) as [E | E]; cbn [map fst In].
    + subst k0. split; [intros [H | H]; auto | intros [H | [H | H]]; auto].
    + rewrite IH. split; [intros [H | [H | H]]; auto | intros [H | [H | H]]; auto].
Qed.

Lemma pushUnder_grouped {A : Type} (key : A -> string) (g : list (string * list A))
      (x : A) :
  grouped key g -> grouped key (pushUnder g (key x) x).
Proof.
  intros [Hnd Hall]. induction g as [| [k0 xs] rest IH].
  - split; cbn [pushUnder map fst snd].
    + constructor; [intros [] | constructor].
    + constructor; [| constructor]. cbn [fst snd]. split; [discriminate |].
      constructor; [reflexivity | constructor].
  - cbn [pushUnder]. inversion Hnd as [| ? ? Hnot Hnd']. subst.
    inversion Hall as [| ? ? [Hne Hk] Hall']. subst. cbn [fst snd] in *.
    destruct (String.eqb_spec k0 (key x)) as [E | E].
    + split; [exact Hnd |]. constructor; [| exact Hall']. cbn [fst snd]. split.
      * destruct xs; discriminate.
      * apply Forall_app. split; [exact Hk |]. constructor; [symmetry; exact E | constructor].
    + destruct (IH Hnd' Hall') as [Hnd2 Hall2]. split.
      * cbn [map fst]. constructor; [| exact Hnd2].
        rewrite pushUnder_keys. intros [H | H]; [apply E; exact H | apply Hnot; exact H].
      * constructor; [| exact Hall2]. cbn [fst snd]. split; assumption.
Qed.

Lemma groupsOf_grouped {A : Type} (key : A -> string) (l : list A)
      (g : list (string * list A)) :
  grouped key g -> grouped key (groupsOf key l g).
Proof.
  unfold groupsOf. revert g. induction l as [| x rest IH]; intros g Hg; [exact Hg |].
  cbn [fold_left]. apply IH, pushUnder_grouped, Hg.
Qed.

Lemma together_same {A : Type} (key : A -> string) (k : string) (seen : list string)
      (xs : list A) (tail : list string) :
  Forall (fun x => key x = k) xs ->
  together (k :: seen) (map key xs ++ tail) = together (k :: seen) tail.
Proof.
  induction 1 as [| x r Hx _ IH]; [reflexivity |].
  cbn [map app together]. rewrite Hx, String.eqb_refl. exact IH.
Qed.

Lemma together_groups {A : Type} (key : A -> string) (g : list (string * list A))
      (seen : list string) :
  grouped key g ->
  (forall k, In k (map fst g) -> ~ In k seen) ->
  together seen (map key (concat (map snd g))) = true.
Proof.
  revert seen. induction g as [| [k xs] rest IH]; intros seen [Hnd Hall] Hseen;
    [reflexivity |].
  inversion Hnd as [| ? ? Hnot Hnd']. subst.
  inversion Hall as [| ? ? [Hne Hk] Hall']. subst. cbn [fst snd] in *.
  cbn [map concat snd]. rewrite map_app.
  destruct xs as [| x xs']; [contradiction Hne; reflexivity |].
  inversion Hk as [| ? ? Hx Hxs]. subst.
  assert (Hfresh : ~ In (key x) seen) by (apply Hseen; left; reflexivity).
  assert (Hgo : together (key x :: seen) (map key xs' ++ map key (concat (map snd rest)))
                = true).
  { rewrite (together_same key seen _ Hxs). apply IH.
    - split; assumption.
    - intros k Hin [H | H].
      + apply Hnot. rewrite H. exact Hin.
      + apply (Hseen k); [right; exact Hin | exact H]. }
  cbn [map app together]. destruct seen as [| c seen']; [exact Hgo |].
  destruct (String.eqb_spec c (key x)) as [E | E].
  - exfalso. apply Hfresh. left. exact E.
  - rewrite Hgo, andb_true_r. apply negb_true_iff.
    destruct (existsb (String.eqb (key x)) (c :: seen')) eqn:Ex; [| reflexivity].
    exfalso. apply existsb_exists in Ex. destruct Ex as [y [Hy Hey]].
    apply String.eqb_eq in Hey. subst y. exact (Hfresh Hy).
Qed.

(** What has been regrouped is grouped. *)
Lemma regroup_is_together {A : Type} (key : A -> string) (l : list A) :
  together [] (map key (regroup key l)) = true.
Proof.
  unfold regroup. apply together_groups.
  - apply groupsOf_grouped. split; constructor.
  - intros k _ [].
Qed.

Lemma persistable_graft (e : BaseElement) (i : string) (kids : list BaseElement) :
  persistable (withIdAndChildren e i kids) = persistable e.
Proof. destruct e; reflexivity. Qed.

Lemma kindName_graft (e : BaseElement) (kids : list BaseElement) :
  kindName (graft e kids) = kindName e.
Proof. reflexivity. Qed.

Lemma graftAll_kinds (E : list BaseElement) (K : list (list BaseElement)) :
  length E = length K -> map kindName (graftAll E K) = map kindName E.
Proof.
  revert K. induction E as [| e E IH]; intros [| k K] H; try discriminate H; [reflexivity |].
  unfold graftAll. cbn [combine map fst snd]. f_equal. apply IH.
  cbn [length] in H. lia.
Qed.

Lemma graftAll_forall (p : BaseElement -> bool) (E D : list BaseElement) :
  Forall (fun e => forall c, In c D -> p (graft e (attached c)) = true) E ->
  forallb p (graftAll E (map attached D)) = true.
Proof.
  intros H. revert D H. induction E as [| e E IH]; intros D H; [reflexivity |].
  destruct D as [| d D]; [reflexivity |].
  inversion H as [| ? ? He HE]. subst.
  unfold graftAll. cbn [map combine fst snd forallb].
  rewrite (He d (or_introl eq_refl)). cbn [andb]. apply IH.
  rewrite Forall_forall in *. intros x Hx c Hc. apply (HE x Hx). right. exact Hc.
Qed.

(** What a container decodes to is settled, and persistable when what was
    written was. *)
Lemma attached_is_settled (d : BaseElement) :
  together [] (map kindName (attached d)) = true
  /\ forallb settled (attached d) = true.
Proof.
  induction d as [d IH] using element_ind. rewrite attached_unfold. split.
  - rewrite graftAll_kinds.
    + apply regroup_is_together.
    + rewrite length_map. apply (Permutation_length (regroup_perm kindName (children d))).
  - apply graftAll_forall. rewrite Forall_forall. intros e _ c Hc.
    rewrite Forall_forall in IH. destruct (IH c Hc) as [Ht Hs].
    rewrite settled_unfold. unfold graft. cbn [type children withIdAndChildren].
    destruct (takesChildren (type e)); cbn [orb andb map forallb together].
    + rewrite Ht, Hs. reflexivity.
    + reflexivity.
Qed.

Lemma attached_is_persistable (d : BaseElement) :
  forallb persistableDeep (children d) = true ->
  forallb persistableDeep (attached d) = true.
Proof.
  induction d as [d IH] using element_ind. intros Hp. rewrite attached_unfold.
  apply graftAll_forall. rewrite Forall_forall. intros e He c Hc.
  rewrite forallb_forall in Hp.
  pose proof (Hp e (Permutation_in e (regroup_perm kindName (children d)) He)) as Hpe.
  pose proof (Hp c Hc) as Hpc.
  rewrite persistableDeep_unfold in Hpe, Hpc.
  apply andb_true_iff in Hpe. destruct Hpe as [Hpe _].
  apply andb_true_iff in Hpc. destruct Hpc as [_ Hpc].
  rewrite persistableDeep_unfold. unfold graft. rewrite persistable_graft, Hpe.
  cbn [andb children withIdAndChildren].
  destruct (takesChildren (type e)); [| reflexivity].
  rewrite Forall_forall in IH. apply (IH c Hc). exact Hpc.
Qed.

Lemma persistable_eraseIds (e : BaseElement) : persistable (eraseIds e) = persistable e.
Proof. destruct e; reflexivity. Qed.

Lemma persistableRoot_eraseIds (e : BaseElement) :
  persistableRoot (eraseIds e) = persistableRoot e.
Proof. destruct e; reflexivity. Qed.

Lemma kindName_eraseIds (e : BaseElement) : kindName (eraseIds e) = kindName e.
Proof. destruct e; reflexivity. Qed.

Lemma forallb_map_ext {A : Type} (p : A -> bool) (f : A -> A) (l : list A) :
  Forall (fun x => p (f x) = p x) l -> forallb p (map f l) = forallb p l.
Proof.
  induction 1 as [| x r Hx _ IH]; [reflexivity |].
  cbn [map forallb]. rewrite Hx, IH. reflexivity.
Qed.

Lemma persistableDeep_eraseIds (e : BaseElement) :
  persistableDeep (eraseIds e) = persistableDeep e.
Proof.
  induction e as [e IH] using element_ind.
  rewrite !persistableDeep_unfold, persistable_eraseIds, eraseIds_children.
  f_equal. apply forallb_map_ext. exact IH.
Qed.

Lemma settled_eraseIds (e : BaseElement) : settled (eraseIds e) = settled e.
Proof.
  induction e as [e IH] using element_ind.
  rewrite !settled_unfold, eraseIds_children.
  rewrite (forallb_map_ext settled eraseIds IH), map_map.
  assert (Hk : map (fun x => kindName (eraseIds x)) (children e)
               = map kindName (children e)).
  { apply map_ext. intros x. apply kindName_eraseIds. }
  rewrite Hk.
  assert (Ht : type (eraseIds e) = type e) by (destruct e; reflexivity).
  rewrite Ht. destruct (children e); reflexivity.
Qed.

Section SecondSave.

Variable fresh : nat -> string.

(** What [parse] reads from a persistable plan that was written is again
    persistable, and settled. *)
Lemma reloaded_plan_is_settled (plan plan' : JMeterTestPlan) (doc : xml) (n : nat) :
  persistablePlan plan = true ->
  serializeTree plan = Returned doc ->
  fst (parse fresh (parseStringPromise doc) n) = Returned plan' ->
  persistablePlan plan' = true /\ settledPlan plan' = true.
Proof.
  intros Hp Hd Hr. destruct (plan_read fresh plan n Hp Hd) as [p [H1 H2]].
  rewrite Hr in H1. injection H1 as <-.
  assert (Hv : version plan' = version plan) by (apply (f_equal version) in H2; exact H2).
  assert (Hq : properties plan' = properties plan)
    by (apply (f_equal properties) in H2; exact H2).
  assert (Hj : jmeter plan' = jmeter plan) by (apply (f_equal jmeter) in H2; exact H2).
  apply (f_equal testPlan) in H2. cbn [testPlan eraseIdsPlan] in H2.
  assert (Hc : map eraseIds (children (testPlan plan')) = attached (testPlan plan)).
  { rewrite <- eraseIds_children, H2. reflexivity. }
  unfold persistablePlan in Hp.
  repeat match goal with
         | H : (_ && _) = true |- _ => apply andb_true_iff in H; destruct H
         end.
  match goal with H : persistableRoot _ = true |- _ => rename H into Hroot end.
  match goal with H : forallb _ _ = true |- _ => rename H into Hdeep end.
  destruct (attached_is_settled (testPlan plan)) as [Ht Hs].
  pose proof (attached_is_persistable (testPlan plan) Hdeep) as Hpa.
  rewrite <- Hc in Ht, Hs, Hpa.
  rewrite (forallb_map_ext persistableDeep eraseIds) in Hpa
    by (apply Forall_forall; intros x _; apply persistableDeep_eraseIds).
  rewrite (forallb_map_ext settled eraseIds) in Hs
    by (apply Forall_forall; intros x _; apply settled_eraseIds).
  rewrite map_map in Ht.
  rewrite (map_ext _ kindName (fun x => kindName_eraseIds x)) in Ht.
  split.
  - unfold persistablePlan. rewrite Hv, Hq, Hj, Hpa.
    rewrite <- persistableRoot_eraseIds, H2.
    assert (Hw : persistableRoot (withIdAndChildren (testPlan plan) "" (attached (testPlan plan)))
                 = persistableRoot (testPlan plan))
      by (destruct (testPlan plan); reflexivity).
    rewrite Hw, Hroot.
    repeat match goal with H : attrKept _ = true |- _ => rewrite H; clear H end.
    reflexivity.
  - unfold settledPlan. rewrite Ht, Hs. reflexivity.
Qed.

(** (X30) After a persistable plan has been saved and opened once, saving
    and opening it again changes nothing but the ids: the first pass
    regroups the siblings by kind, and what it returns is written and read
    back as it is. *)
Theorem a_second_save_changes_nothing (plan plan' : JMeterTestPlan) (doc : xml)
        (n m : nat) :
  persistablePlan plan = true ->
  serializeTree plan = Returned doc ->
  fst (parse fresh (parseStringPromise doc) n) = Returned plan' ->
  exists doc' plan'',
    serializeTree plan' = Returned doc'
    /\ fst (parse fresh (parseStringPromise doc') m) = Returned plan''
    /\ eraseIdsPlan plan'' = eraseIdsPlan plan'.
Proof.
  intros Hp Hd Hr.
  destruct (reloaded_plan_is_settled plan n Hp Hd Hr) as [Hp' Hs'].
  assert (Hw : exists doc', serializeTree plan' = Returned doc').
  { unfold persistablePlan in Hp'.
    repeat match goal with
           | H : (_ && _) = true |- _ => apply andb_true_iff in H; destruct H
           end.
    match goal with H : persistableRoot _ = true |- _ => rename H into Hroot end.
    match goal with H : forallb _ _ = true |- _ => rename H into Hdeep end.
    destruct (serializeTestPlan_written fresh (testPlan plan') Hroot Hdeep) as [tp [_ Htp]].
    unfold serializeTree. rewrite Htp. cbn [obind]. eexists. reflexivity. }
  destruct Hw as [doc' Hd'].
  destruct (plan_read fresh plan' m Hp' Hd') as [plan'' [H1 H2]].
  exists doc', plan''. split; [exact Hd' |]. split; [exact H1 |].
  rewrite H2. unfold eraseIdsPlan. f_equal.
  unfold settledPlan in Hs'. apply andb_true_iff in Hs'. destruct Hs' as [Hto Hkids].
  rewrite (attached_settled _ Hto Hkids), eraseIds_unfold. reflexivity.
Qed.

End SecondSave.

(* ================================================================= *)
(** ** One element, written and read again *)

(** (X1) A thread group (of any of the three kinds) is read back as it was
    written, with the next id and the decoding of its container, when its
    gui class and name are not empty, its test class is its kind, its
    comments are absent or not blank, its thread count, ramp time and loop
    count are integers other than zero that are printed digit by digit
    (doubles below 10^21), its duration and delay are absent or durable, and
    its error action is not blank.  Blank is: of white space only, the
    no-break space included. *)
Theorem threadGroup_reloads (fresh : nat -> string) (e : BaseElement)
        (kids : M (list BaseElement)) (n : nat) :
  persistableThreadGroup e = true ->
  reloadElement fresh e kids n
  = (Some (withIdAndChildren e (fresh n) (fst (kids (S n)))), snd (kids (S n))).
Proof. exact (@reload_threadGroup fresh e kids n). Qed.

(** (X2) An HTTP sampler is read back as it was written, with the next id
    and the decoding of its container, when its texts are kept (not blank,
    the no-break space counting as white space), its port and pool size are
    absent or integers other than zero that are printed digit by digit
    (doubles below 10^21), its arguments have no name, and its body data is
    the value of its first argument. *)
Theorem httpSampler_reloads (fresh : nat -> string) (e : BaseElement)
        (kids : M (list BaseElement)) (n : nat) :
  persistableHTTPSampler e = true ->
  reloadElement fresh e kids n
  = (Some (withIdAndChildren e (fresh n) (fst (kids (S n)))), snd (kids (S n))).
Proof. exact (@reload_httpSampler fresh e kids n). Qed.

(** (X3) A regular expression extractor without comments is read back as it
    was written, with the next id and no children, when its texts are kept
    (not blank, the no-break space counting as white space) and its match
    number is an integer other than zero that is printed digit by digit (a
    double below 10^21). *)
Theorem regexExtractor_reloads (fresh : nat -> string) (e : BaseElement)
        (kids : M (list BaseElement)) (n : nat) :
  persistableRegexExtractor e = true ->
  reloadElement fresh e kids n = (Some (withIdAndChildren e (fresh n) []), S n).
Proof. exact (@reload_regexExtractor fresh e kids n). Qed.

(** (X4) A response assertion without comments is read back as it was
    written, with the next id and no children, when its texts are kept (not
    blank, the no-break space counting as white space) and its test type is
    an integer other than zero that is printed digit by digit (a double
    below 10^21). *)
Theorem responseAssertion_reloads (fresh : nat -> string) (e : BaseElement)
        (kids : M (list BaseElement)) (n : nat) :
  persistableResponseAssertion e = true ->
  reloadElement fresh e kids n = (Some (withIdAndChildren e (fresh n) []), S n).
Proof. exact (@reload_responseAssertion fresh e kids n). Qed.

(** (X5) A header manager without comments is read back as it was written,
    with the next id and no children, when each header has a name or a value
    and both are empty or not blank. *)
Theorem headerManager_reloads (fresh : nat -> string) (e : BaseElement)
        (kids : M (list BaseElement)) (n : nat) :
  persistableHeaderManager e = true ->
  reloadElement fresh e kids n = (Some (withIdAndChildren e (fresh n) []), S n).
Proof. exact (@reload_headerManager fresh e kids n). Qed.

(** (X6) A BeanShell assertion without comments is read back as it was
    written, with the next id and no children, when its texts are kept. *)
Theorem beanShell_reloads (fresh : nat -> string) (e : BaseElement)
        (kids : M (list BaseElement)) (n : nat) :
  persistableBeanShell e = true ->
  reloadElement fresh e kids n = (Some (withIdAndChildren e (fresh n) []), S n).
Proof. exact (@reload_beanShell fresh e kids n). Qed.

(** (X7) An element of a kind whose serializer writes constants
    ([Arguments], the two JSR223 kinds, [TestAction], the throughput timer,
    [ResultCollector]) is read back with the next id and with its kind, gui
    class, name and enabled flag, and with nothing else: its comments and
    the fields its interface declares are lost.  It gets the decoding of its
    container when it is a [TestAction], and no children otherwise.  It is
    read back as it was written exactly when it had no comments and carried
    none of these fields (a [ResultCollector]: not logging errors only, and
    no file name). *)
Theorem plain_kinds_reload (fresh : nat -> string) (e : BaseElement)
        (kids : M (list BaseElement)) (n : nat) :
  plainKind (type e) = true ->
  baseKept e = true ->
  reloadElement fresh e kids n
  = (if takesChildren (type e)
     then (Some (withIdAndChildren (withoutFields e) (fresh n) (fst (kids (S n)))),
           snd (kids (S n)))
     else (Some (withIdAndChildren (withoutFields e) (fresh n) []), S n))
  /\ (withoutFields e = e <-> persistablePlain e = true).
Proof.
  intros Hk Hb. split.
  - exact (@reload_plain_kind fresh e kids n Hk Hb).
  - exact (@withoutFields_fixed e Hk Hb).
Qed.

(* ================================================================= *)
(** ** The statements at sample trees *)

Lemma tally_never_repeats (a b : nat) : tally a = tally b -> a = b.
Proof.
  revert b. induction a as [| a IH]; intros [| b] H; try reflexivity; try discriminate H.
  cbn [tally] in H. injection H as H. f_equal. apply IH. exact H.
Qed.

Lemma threadGroup_reloads_witness :
  persistableThreadGroup Cases.group = true /\
  reloadElement tally Cases.group (ret []) 0
  = (Some (withIdAndChildren Cases.group (tally 0) []), 1).
Proof.
  split; [vm_compute; reflexivity |].
  apply (@threadGroup_reloads tally Cases.group (ret []) 0). vm_compute. reflexivity.
Defined.

Lemma httpSampler_reloads_witness :
  persistableHTTPSampler Cases.sampler = true /\
  reloadElement tally Cases.sampler (ret []) 0
  = (Some (withIdAndChildren Cases.sampler (tally 0) []), 1).
Proof.
  split; [vm_compute; reflexivity |].
  apply (@httpSampler_reloads tally Cases.sampler (ret []) 0). vm_compute. reflexivity.
Defined.

Lemma regexExtractor_reloads_witness :
  persistableRegexExtractor Cases.extractor = true /\
  reloadElement tally Cases.extractor (ret []) 0
  = (Some (withIdAndChildren Cases.extractor (tally 0) []), 1).
Proof.
  split; [vm_compute; reflexivity |].
  apply (@regexExtractor_reloads tally Cases.extractor (ret []) 0). vm_compute. reflexivity.
Defined.

Lemma responseAssertion_reloads_witness :
  persistableResponseAssertion Cases.assertion = true /\
  reloadElement tally Cases.assertion (ret []) 0
  = (Some (withIdAndChildren Cases.assertion (tally 0) []), 1).
Proof.
  split; [vm_compute; reflexivity |].
  apply (@responseAssertion_reloads tally Cases.assertion (ret []) 0).
  vm_compute. reflexivity.
Defined.

Lemma headerManager_reloads_witness :
  persistableHeaderManager Cases.headers = true /\
  reloadElement tally Cases.headers (ret []) 0
  = (Some (withIdAndChildren Cases.headers (tally 0) []), 1).
Proof.
  split; [vm_compute; reflexivity |].
  apply (@headerManager_reloads tally Cases.headers (ret []) 0). vm_compute. reflexivity.
Defined.

Lemma beanShell_reloads_witness :
  persistableBeanShell Cases.beanShell = true /\
  reloadElement tally Cases.beanShell (ret []) 0
  = (Some (withIdAndChildren Cases.beanShell (tally 0) []), 1).
Proof.
  split; [vm_compute; reflexivity |].
  apply (@beanShell_reloads tally Cases.beanShell (ret []) 0). vm_compute. reflexivity.
Defined.

(** A scripted sampler comes back without its script and its comments. *)
Lemma plain_kinds_reload_witness :
  plainKind (type Cases.scripted) = true /\
  baseKept Cases.scripted = true /\
  extra Cases.scripted
  = JSR223X (JSR223.mk "groovy" "vars.put('token', prev.getResponseDataAsString())"
                       None None None) /\
  reloadElement tally Cases.scripted (ret []) 0
  = (Some (withIdAndChildren (withoutFields Cases.scripted) (tally 0) []), 1) /\
  extra (withoutFields Cases.scripted) = NoExtra /\
  persistablePlain Cases.scripted = false.
Proof.
  split; [reflexivity |]. split; [reflexivity |]. split; [reflexivity |].
  split; [| split; reflexivity].
  apply (@plain_kinds_reload tally Cases.scripted (ret []) 0); reflexivity.
Defined.

(** The thread groups of [Cases.mixed] stand apart: read again, the second
    one comes before the listener and has lost its sampler. *)
Lemma siblings_are_regrouped_witness :
  map eraseIds
      (fst (parseHashTree tally
              (xml2js (XElem "hashTree" [] ""
                             (Cases.written [Cases.group; Cases.collector; Cases.browsers])))
              0))
  = map eraseIds [Cases.group; withChildren Cases.browsers []; Cases.collector].
Proof.
  rewrite (@siblings_are_regrouped tally [Cases.group; Cases.collector; Cases.browsers]
             (Cases.written [Cases.group; Cases.collector; Cases.browsers]) 0);
    vm_compute; reflexivity.
Defined.

Lemma settled_plan_reloads_witness :
  exists plan',
    fst (parse tally (parseStringPromise (Cases.documentOf Cases.plan)) 0) = Returned plan'
    /\ eraseIdsPlan plan' = eraseIdsPlan Cases.plan.
Proof.
  apply (@settled_plan_reloads tally Cases.plan (Cases.documentOf Cases.plan) 0);
    vm_compute; reflexivity.
Defined.

Lemma plan_reloads_regrouped_witness :
  exists plan',
    fst (parse tally (parseStringPromise (Cases.documentOf Cases.mixed)) 0) = Returned plan'
    /\ map name (children (eraseIds (testPlan plan'))) = ["Shoppers"; "Browsers"; "Results"].
Proof.
  destruct (@plan_reloads_regrouped tally Cases.mixed (Cases.documentOf Cases.mixed) 0)
    as [plan' [H1 H2]]; [vm_compute; reflexivity | vm_compute; reflexivity |].
  exists plan'. split; [exact H1 |]. rewrite H2. vm_compute. reflexivity.
Defined.

Lemma created_elements_reload_witness :
  option_map eraseIds
             (fst (reloadElement tally (fst (createThreadGroup tally "Login" 0)) (ret []) 5))
  = Some (eraseIds (fst (createThreadGroup tally "Login" 0))).
Proof.
  apply (@created_elements_reload tally "Login" "token" 0 5).
  - reflexivity.
  - reflexivity.
  - right. left. reflexivity.
Defined.

Lemma decoded_trees_are_sound_witness :
  let e := nth 3 (flat_map flatten
                           (fst (parseHashTree tally (xml2js Samples.interleaved) 0)))
               Cases.collector in
  name e = "b1" /\ handled (type e) = true /\ fieldsPresent e = true /\
  (takesChildren (type e) = false -> children e = []).
Proof.
  split; [vm_compute; reflexivity |].
  apply (@decoded_trees_are_sound tally (xml2js Samples.interleaved) 0).
  vm_compute. tauto.
Defined.

Lemma parsed_ids_are_distinct_witness :
  idsOf (testPlan (Cases.readAt 0 Cases.plan)) = map tally (seq 0 12)
  /\ NoDup (idsOf (testPlan (Cases.readAt 0 Cases.plan))).
Proof.
  apply (@parsed_ids_are_distinct tally (parseStringPromise (Cases.documentOf Cases.plan)) 0).
  - exact tally_never_repeats.
  - vm_compute. reflexivity.
Defined.

Lemma serialized_children_alternate_witness :
  map xml_tag (Cases.written [Samples.jsonExtractor; Cases.collector])
  = ["hashTree"; "ResultCollector"; "hashTree"].
Proof.
  rewrite (@serialized_children_alternate [Samples.jsonExtractor; Cases.collector]
             (Cases.written [Samples.jsonExtractor; Cases.collector]));
    vm_compute; reflexivity.
Defined.

Lemma parsed_plan_serializes_witness :
  exists doc, serializeTree (Cases.readAt 0 Cases.mixed) = Returned doc.
Proof.
  apply (@parsed_plan_serializes tally (parseStringPromise (Cases.documentOf Cases.mixed)) 0).
  vm_compute. reflexivity.
Defined.

Lemma removed_id_is_gone_witness :
  ~ In "s" (flat_map idsOf [withChildren Cases.group [Cases.bare; Cases.timer];
                            Cases.collector])
  /\ NoDup (flat_map idsOf [withChildren Cases.group [Cases.bare; Cases.timer];
                            Cases.collector])
  /\ findElementById [withChildren Cases.group [Cases.bare; Cases.timer]; Cases.collector]
                     "s" = None.
Proof.
  apply (@removed_id_is_gone [Cases.group; Cases.collector]
           [withChildren Cases.group [Cases.bare; Cases.timer]; Cases.collector] "s").
  - vm_compute.
    repeat (constructor;
            [ intros H; repeat (destruct H as [H | H]; [discriminate H |]); exact H |]).
    constructor.
  - vm_compute. reflexivity.
Defined.

Lemma earlier_ids_are_not_found_witness :
  findElementById (searched (Cases.readAt 20 Cases.plan)) (tally 3) = None
  /\ removeElementById (searched (Cases.readAt 20 Cases.plan)) (tally 3) = None.
Proof.
  apply (@earlier_ids_are_not_found tally tally_never_repeats
           (parseStringPromise (Cases.documentOf Cases.plan))
           (parseStringPromise (Cases.documentOf Cases.plan))
           0 20 (Cases.readAt 0 Cases.plan) (Cases.readAt 20 Cases.plan) (tally 3)).
  - vm_compute. reflexivity.
  - vm_compute. lia.
  - vm_compute. reflexivity.
  - vm_compute. tauto.
Defined.

Lemma analysis_of_a_parsed_plan_returns_witness :
  exists findings, analyze (Cases.readAt 0 Cases.plan) = Returned findings.
Proof.
  apply (@analysis_of_a_parsed_plan_returns tally
           (parseStringPromise (Cases.documentOf Cases.plan)) 0).
  vm_compute. reflexivity.
Defined.

(** [Cases.plan] holds the sampler without a domain twice. *)
Lemma errors_count_the_samplers_without_domain_witness :
  length (filter isError (Cases.findingsOf Cases.plan)) = 2.
Proof.
  rewrite (@errors_count_the_samplers_without_domain Cases.plan
             (Cases.findingsOf Cases.plan));
    vm_compute; reflexivity.
Defined.

Lemma errors_never_exceed_samples_witness :
  errors (parseJTLFinal (fun _ => mkTotals 0 0) (Some (joinLines Cases.results)))
  <= totalSamples (parseJTLFinal (fun _ => mkTotals 0 0) (Some (joinLines Cases.results)))
  /\ totalSamples (parseJTLFinal (fun _ => mkTotals 0 0) (Some (joinLines Cases.results)))
     <= length (resultLines (joinLines Cases.results)) - 1.
Proof.
  apply (@errors_never_exceed_samples (fun _ => mkTotals 0 0) (joinLines Cases.results)).
  vm_compute. reflexivity.
Defined.

(** A file without a header that starts with an empty line, has a line of
    spaces between its two samples and ends with a line break: of the two
    samples one is reported. *)
Lemma first_line_is_never_counted_witness :
  split newline Cases.headless
  = [""; nth 1 Cases.results ""; "   "; nth 2 Cases.results ""; ""] /\
  includes Cases.headless "<?xml" = false /\
  parseJTLFinal (fun _ => mkTotals 0 0) (Some Cases.headless) = mkTotals 1 1.
Proof.
  split; [vm_compute; reflexivity |].
  split; [vm_compute; reflexivity |].
  apply (@first_line_is_never_counted (fun _ => mkTotals 0 0) Cases.headless).
  vm_compute. reflexivity.
Defined.

Lemma removal_takes_out_the_found_subtree_witness :
  NoDup (flat_map idsOf [Cases.group; Cases.collector]) /\
  exists before victim after,
    findElementById [Cases.group; Cases.collector] "s" = Some victim
    /\ id victim = "s"
    /\ ~ In "s" before
    /\ flat_map idsOf [Cases.group; Cases.collector] = before ++ idsOf victim ++ after
    /\ flat_map idsOf [withChildren Cases.group [Cases.bare; Cases.timer]; Cases.collector]
       = before ++ after.
Proof.
  assert (H : NoDup (flat_map idsOf [Cases.group; Cases.collector])).
  { vm_compute.
    repeat (constructor;
            [ intros H; repeat (destruct H as [H | H]; [discriminate H |]); exact H |]).
    constructor. }
  split; [exact H |].
  exact (@removal_takes_out_the_found_subtree [Cases.group; Cases.collector] "s" H).
Defined.

(** The thread groups of [Cases.mixed] stand apart, so the first pass
    changes it; the second changes nothing. *)
Lemma a_second_save_changes_nothing_witness :
  eraseIdsPlan (Cases.readAt 0 Cases.mixed) <> eraseIdsPlan Cases.mixed /\
  exists doc' plan'',
    serializeTree (Cases.readAt 0 Cases.mixed) = Returned doc'
    /\ fst (parse tally (parseStringPromise doc') 30) = Returned plan''
    /\ eraseIdsPlan plan'' = eraseIdsPlan (Cases.readAt 0 Cases.mixed).
Proof.
  split; [vm_compute; discriminate |].
  apply (@a_second_save_changes_nothing tally Cases.mixed (Cases.readAt 0 Cases.mixed)
           (Cases.documentOf Cases.mixed) 0 30);
    vm_compute; reflexivity.
Defined.

Lemma optional_integer_survives_unless_zero_witness :
  printable (2 ^ 60) = true /\
  number_toString (Num (2 ^ 60)) = "1152921504606847000" /\
  parseIntProp (xml2js (XElem "HTTPSamplerProxy" [] ""
                          (intPropIf "HTTPSampler.port" (Some (Num (2 ^ 60))))))
               "HTTPSampler.port"
  = Some (Num (2 ^ 60)).
Proof.
  split; [vm_compute; reflexivity |].
  split; [vm_compute; reflexivity |].
  apply (@optional_integer_survives_unless_zero "HTTPSamplerProxy" "" "HTTPSampler.port"
           (2 ^ 60)).
  vm_compute. reflexivity.
Defined.
